(** * logos: workflow step engine and LLM tool-calling session

    A shallow embedding of [client.py] (class [MCPClient]) and
    [workflow_runner.py] (classes [WorkflowContext], [AgentWorkflowRunner]),
    and the properties of the content overflow manager, the tool-calling
    session and the step engine; and of [serialize_for_database] of
    [utils.py] and the trigger endpoint of [main.py].

    Conventions.
    - Python [str] is [string]; a character stands for the code point of the
      same number (0..255).  [int] is [Z].
    - A call that may raise returns an [outcome]: [Return v] or [Raise e].
    - Remote collaborators (the model API, the MCP session, the tokenizer)
      and the library functions [json.dumps], [json.loads], [str] are fields
      of records passed to the functions that use them.
    - An [exn] is an instance of a subclass of [Exception], the ones that
      [except Exception] catches.
    - The mutable objects ([self] of the client and of the runner, the
      local variables of a loop) are states threaded through a state and
      exception monad; the client's state also records the remote calls
      made, so that a property can say that none was made.
    - The two floating-point products of [_truncate_content_fallback] are
      computed as exact rationals.
    - Logging ([logger.*], [_log_event]) has no effect on a run: the sink's
      failures are swallowed.  It is left out, and the runner is modelled
      without a [db_client], the degraded mode the code supports. *)

From Stdlib Require Import ZArith QArith Lia Ascii DecimalString.
From stdpp Require Import base option list gmap strings.

Local Open Scope Z_scope.

(** ** Exceptions *)

Record exn := Exn { exn_type : string; exn_msg : string }.

Inductive outcome (A : Type) : Type :=
| Return (a : A)
| Raise (e : exn).
Arguments Return {A} a.
Arguments Raise {A} e.

(** ** Python string primitives *)

Module Py.

(** [len(s)] *)
Definition len (s : string) : Z := Z.of_nat (String.length s).

(** [str(n)] for an [int]. *)
Definition str_of_int (n : Z) : string :=
  NilZero.string_of_int (Z.to_int n).

(** [s[i:j]]: negative bounds count from the end, both are clamped. *)
Definition clamp (n : Z) (i : Z) : nat :=
  Z.to_nat (if i <? 0 then Z.max 0 (i + n) else Z.min i n).

Definition slice (i j : Z) (s : string) : string :=
  let a := clamp (len s) i in
  let b := clamp (len s) j in
  String.substring a (b - a) s.

(** [s[:k]] *)
Definition slice_to (k : Z) (s : string) : string := slice 0 k s.

(** [sub in s] *)
Definition contains (sub s : string) : bool :=
  match String.index 0 sub s with Some _ => true | None => false end.

(** [s.find(sub)] *)
Definition find (sub s : string) : Z :=
  match String.index 0 sub s with Some n => Z.of_nat n | None => -1 end.

(** [s.rfind(sub)] *)
Fixpoint rfind_go (sub s : string) (pos best : Z) : Z :=
  match s with
  | EmptyString => if String.prefix sub s then pos else best
  | String _ s' =>
      rfind_go sub s' (pos + 1) (if String.prefix sub s then pos else best)
  end.
Definition rfind (sub s : string) : Z := rfind_go sub s 0 (-1).

(** [s.replace(old, new)]: every non-overlapping occurrence, left to
    right.  [skip] counts the characters of a match still to be passed. *)
Fixpoint replace_go (old new : string) (skip : nat) (s : string) : string :=
  match s with
  | EmptyString => EmptyString
  | String c s' =>
      match skip with
      | S k => replace_go old new k s'
      | O =>
          if String.prefix old s
          then new +:+ replace_go old new (String.length old - 1) s'
          else String c (replace_go old new 0 s')
      end
  end.

(** With an empty [old], Python puts [new] around every character. *)
Fixpoint replace_empty (new s : string) : string :=
  match s with
  | EmptyString => new
  | String c s' => new +:+ String c (replace_empty new s')
  end.

Definition replace (old new s : string) : string :=
  match old with
  | EmptyString => replace_empty new s
  | _ => replace_go old new 0 s
  end.

(** [c.isspace()] on the code points below 256. *)
Definition isspace (c : ascii) : bool :=
  let n := nat_of_ascii c in
  ((9 <=? n) && (n <=? 13) || (28 <=? n) && (n <=? 32)
   || (n =? 133) || (n =? 160))%nat.

Fixpoint lstrip (s : string) : string :=
  match s with
  | EmptyString => EmptyString
  | String c s' => if isspace c then lstrip s' else s
  end.

(** [s.strip()] *)
Definition strip (s : string) : string :=
  String.rev (lstrip (String.rev (lstrip s))).

(** [sep.join(l)] *)
Definition join (sep : string) (l : list string) : string :=
  String.concat sep l.

(** [s.split(sep)] for a one-character separator. *)
Fixpoint split_go (sep : ascii) (cur : string) (s : string) : list string :=
  match s with
  | EmptyString => [String.rev cur]
  | String c s' =>
      if Ascii.eqb c sep
      then String.rev cur :: split_go sep EmptyString s'
      else split_go sep (String c cur) s'
  end.
Definition split (sep : ascii) (s : string) : list string :=
  split_go sep EmptyString s.

(** [s.lower()] on the code points below 256. *)
Definition lower_char (c : ascii) : ascii :=
  let n := nat_of_ascii c in
  if ((65 <=? n) && (n <=? 90)
      || (192 <=? n) && (n <=? 222) && negb (n =? 215))%nat
  then ascii_of_nat (n + 32) else c.

Fixpoint lower (s : string) : string :=
  match s with
  | EmptyString => EmptyString
  | String c s' => String (lower_char c) (lower s')
  end.

(** [range(0, n, step)] for a positive [step]. *)
Fixpoint range_step (count : nat) (start step : Z) : list Z :=
  match count with
  | O => []
  | S k => start :: range_step k (start + step) step
  end.
Definition range (n step : Z) : list Z :=
  range_step (Z.to_nat ((n + step - 1) / step)) 0 step.

End Py.

(** ** Values

    The JSON-compatible values that flow through tool results, step
    configuration and the workflow context, and [VObj] for any other Python
    object (an MCP [TextContent], say): its attributes ([__dict__]) and its
    display form. *)

#[warnings="-register-all"]
Inductive value : Type :=
| VNone
| VBool (b : bool)
| VInt (n : Z)
| VStr (s : string)
| VList (l : list value)
| VDict (d : list (string * value))
| VObj (attrs : list (string * value)) (display : string).

(** [json.dumps(v)] succeeds: no foreign object inside. *)
Fixpoint json_serializable (v : value) : bool :=
  match v with
  | VNone | VBool _ | VInt _ | VStr _ => true
  | VList l => forallb json_serializable l
  | VDict d => forallb (fun kv => json_serializable (snd kv)) d
  | VObj _ _ => false
  end.

(** [obj.name] for [hasattr(obj, name)] *)
Definition getattr (name : string) (v : value) : option value :=
  match v with
  | VObj attrs _ => snd <$> List.find (fun kv => String.eqb (fst kv) name) attrs
  | _ => None
  end.

(** The library functions the code calls on values. *)
Record PyRuntime := {
  (** [json.dumps(v, indent=2, default=str)] *)
  json_dumps_indent : value -> outcome string;
  (** [json.dumps(v, default=str)] *)
  json_dumps : value -> outcome string;
  (** [json.loads(s)]; raises [JSONDecodeError] *)
  json_loads : string -> outcome value;
  (** [str(v)] *)
  py_str : value -> string;
}.

(** ** A state and exception monad

    [SE S A]: a computation over the mutable state [S] that returns an [A]
    or raises; what it did to the state before raising stays done. *)

Definition SE (S A : Type) : Type := S -> outcome A * S.

Definition ret {S A} (a : A) : SE S A := fun s => (Return a, s).
Definition raise {S A} (e : exn) : SE S A := fun s => (Raise e, s).
Definition bind {S A B} (m : SE S A) (k : A -> SE S B) : SE S B :=
  fun s => match m s with
           | (Return a, s') => k a s'
           | (Raise e, s') => (Raise e, s')
           end.
Definition gets {S A} (f : S -> A) : SE S A := fun s => (Return (f s), s).
Definition modify {S} (f : S -> S) : SE S unit := fun s => (Return tt, f s).

(** [try: body  except Exception as e: handler e] *)
Definition try_except {S A} (body : SE S A) (handler : exn -> SE S A) : SE S A :=
  fun s => match body s with
           | (Return a, s') => (Return a, s')
           | (Raise e, s') => handler e s'
           end.

(** A call that may raise, made in a computation. *)
Definition lift {S A} (o : outcome A) : SE S A := fun s => (o, s).

Notation "x <- c1 ;; c2" := (bind c1 (fun x => c2))
  (at level 100, c1 at next level, right associativity).
Notation "c1 ;;; c2" := (bind c1 (fun _ => c2))
  (at level 100, right associativity).

(** [asyncio.gather] with [return_exceptions=True]: every task runs, a
    task that raises yields its exception as its result, and results come in
    task order.  The tasks' remote calls are recorded in task order. *)
Fixpoint gather {S A} (tasks : list (SE S A)) : SE S (list (outcome A)) :=
  match tasks with
  | [] => ret []
  | t :: ts =>
      fun s => let '(r, s') := t s in
               (rs <- gather ts ;; ret (r :: rs)) s'
  end.

Definition nl : string := String "010"%char EmptyString.

(** * [client.py] *)

Module MCPClient.

(** A content block of a model reply: [block.type] is ["text"],
    ["tool_use"] or something else (["thinking"]). *)
Inductive ContentBlock :=
| TextBlock (text : string)
| ToolUseBlock (id name : string) (input : value)
| OtherBlock (type : string).

Record Tool := {
  name : string;
  description : string;
  input_schema : value;
}.

(** [{"type": "tool_result", "tool_use_id": .., "content": [text], "is_error": ..}] *)
Record ToolResult := {
  tool_use_id : string;
  content : string;
  is_error : bool;
}.

Inductive Message :=
| UserMessage (content : value)
| AssistantMessage (blocks : list ContentBlock)
| ToolResultMessage (results : list ToolResult).

(** The arguments of [self.anthropic.messages.create]. *)
Record CreateArgs := {
  system : option string;
  max_tokens : Z;
  thinking : bool;
  messages : list Message;
  tools : list Tool;
}.

(** The remote calls a computation has made, latest first. *)
Inductive RemoteCall :=
| ModelCall (args : CreateArgs)
| ToolCall (tool : string) (args : value)
| ListTools.

(** The collaborators.  A remote one answers from the calls made so far
    and the arguments, so it may answer the same request differently each
    time. *)
Record Remote := {
  (** [self.anthropic.messages.create(...).content] *)
  messages_create : list RemoteCall -> CreateArgs -> outcome (list ContentBlock);
  (** [self.session.call_tool(name, args).content] *)
  call_tool : list RemoteCall -> string -> value -> outcome value;
  (** [self.session.list_tools().tools] *)
  list_tools : list RemoteCall -> outcome (list Tool);
  (** [len(self.tokenizer.encode(text))] *)
  tokenizer_encode : string -> outcome Z;
}.

(** The module-level settings, read from the environment. *)
Record Settings := {
  MAX_LLM_INTERACTION_TURNS : Z;
  MAX_TOOL_RESULT_TOKENS : Z;
}.

Definition default_settings : Settings :=
  {| MAX_LLM_INTERACTION_TURNS := 5; MAX_TOOL_RESULT_TOKENS := 50000 |}.

(** The mutable part of an [MCPClient], and the calls made through it. *)
Record State := {
  session : bool;
  _available_mcp_tools_cache : option (list Tool);
  calls : list RemoteCall;
}.

Definition record_call (c : RemoteCall) (st : State) : State :=
  {| session := session st;
     _available_mcp_tools_cache := _available_mcp_tools_cache st;
     calls := c :: calls st |}.

Definition set_cache (c : option (list Tool)) (st : State) : State :=
  {| session := session st;
     _available_mcp_tools_cache := c;
     calls := calls st |}.

Section Client.
Context (rt : PyRuntime) (env : Settings) (remote : Remote).

Definition anthropic_messages_create (args : CreateArgs)
  : SE State (list ContentBlock) :=
  fun st => (messages_create remote (calls st) args,
             record_call (ModelCall args) st).

Definition session_call_tool (tool : string) (args : value) : SE State value :=
  fun st => (call_tool remote (calls st) tool args,
             record_call (ToolCall tool args) st).

Definition session_list_tools : SE State (list Tool) :=
  fun st => (list_tools remote (calls st), record_call ListTools st).

(** [_count_tokens]: the tokenizer's count, or a quarter of the length
    when the tokenizer raises. *)
Definition _count_tokens (text : string) : Z :=
  match tokenizer_encode remote text with
  | Return n => n
  | Raise _ => Py.len text / 4
  end.

(** [int(q)]: truncation towards zero. *)
Definition py_int (q : Q) : Z := Z.quot (Qnum q) (Zpos (Qden q)).

(** The [while] loop of [_truncate_content_fallback].  Each round with
    more than 100 characters left makes the text shorter, so a fuel of
    the text's length is never used up ([shrink_loop_exit]). *)
Fixpoint shrink_loop (fuel : nat) (target_tokens : Z) (truncated : string)
  : string :=
  match fuel with
  | O => truncated
  | S fuel' =>
      if (_count_tokens truncated >? target_tokens)
         && (Py.len truncated >? 100)
      then shrink_loop fuel' target_tokens
             (Py.slice_to (py_int (inject_Z (Py.len truncated) * (9 # 10))%Q)
                truncated)
      else truncated
  end.

Definition truncation_notice (original_tokens : Z) (tool_name : string)
    (max_tokens : Z) : string :=
  nl +:+ nl +:+ "[CONTENT TRUNCATED - Original: "
  +:+ Py.str_of_int original_tokens +:+ " tokens from " +:+ tool_name
  +:+ ", showing first " +:+ Py.str_of_int max_tokens +:+ " tokens]".

(** [_truncate_content_fallback].  Python computes [chars_per_token] and
    the two products in binary64; here they are exact rationals. *)
Definition _truncate_content_fallback (text : string) (max_tokens : Z)
    (tool_name : string) (original_tokens : Z) : string :=
  let truncation_msg := truncation_notice original_tokens tool_name max_tokens in
  let target_tokens := max_tokens - _count_tokens truncation_msg in
  let chars_per_token : Q :=
    if original_tokens >? 0
    then (Py.len text # Z.to_pos original_tokens)%Q
    else inject_Z 4 in
  let estimated_chars := py_int (inject_Z target_tokens * chars_per_token)%Q in
  let truncated := Py.slice_to estimated_chars text in
  let truncated :=
    shrink_loop (String.length truncated) target_tokens truncated in
  truncated +:+ truncation_msg.

(** The text form of a content value (the head of
    [_summarize_large_content]). *)
Definition text_of_content (content : value) : string :=
  match content with
  | VStr s => s
  | VDict _ | VList _ =>
      match json_dumps_indent rt content with
      | Return t => t
      | Raise _ => py_str rt content
      end
  | _ => py_str rt content
  end.

Definition summary_prompt_for (tool_name : string) : string :=
  if String.eqb tool_name "list_gmail_messages" then
    "Summarize this email data chunk concisely. Focus on: email count, key senders, date range, urgent emails. Preserve important IDs."
  else if String.eqb tool_name "gmail" then
    "Summarize this Gmail data chunk. Include: email count, main participants, date range, key themes. Preserve IDs."
  else
    "Concisely summarize this " +:+ tool_name
    +:+ " data chunk. Key points only. Preserve IDs and URLs.".

(** The text of the blocks that have a [text] attribute, in order. *)
Definition blocks_text (blocks : list ContentBlock) : string :=
  String.concat ""
    (omap (fun b => match b with TextBlock t => Some t | _ => None end) blocks).

(** The request [summarize_chunk] sends for a chunk. *)
Definition chunk_request (summary_prompt : string) (chunk_text : string)
    (chunk_index : Z) : CreateArgs :=
  let chunk_tokens := _count_tokens chunk_text in
  {| system := None; max_tokens := 4000; thinking := false;
     messages :=
       [UserMessage (VStr
          (summary_prompt +:+ nl +:+ nl +:+ "Chunk "
           +:+ Py.str_of_int (chunk_index + 1) +:+ " ("
           +:+ Py.str_of_int chunk_tokens +:+ " tokens):" +:+ nl
           +:+ chunk_text))];
     tools := [] |}.

(** The inner [summarize_chunk(chunk_text, chunk_index)]. *)
Definition summarize_chunk (summary_prompt : string)
    (chunk_text : string) (chunk_index : Z) : SE State string :=
  try_except
    (response <- anthropic_messages_create
       (chunk_request summary_prompt chunk_text chunk_index) ;;
     ret (Py.strip (blocks_text response)))
    (fun e =>
       ret ("[Chunk " +:+ Py.str_of_int (chunk_index + 1)
            +:+ " summarization failed]")).

(** The chunks of [text]: slices of [chunk_size_chars] characters, those
    of no token dropped. *)
Definition split_chunks (chunk_size_chars : Z) (text : string) : list string :=
  List.filter (fun chunk => _count_tokens chunk >? 0)
    (List.map (fun i => Py.slice i (i + chunk_size_chars) text)
       (Py.range (Py.len text) chunk_size_chars)).

(** The loop over [enumerate(chunk_summaries)]. *)
Definition combine_summaries (chunk_summaries : list (outcome string))
  : list string :=
  imap (fun i summary =>
          match summary with
          | Raise _ =>
              "[Chunk " +:+ Py.str_of_int (Z.of_nat i + 1)
              +:+ " failed to summarize]"
          | Return s => s
          end) chunk_summaries.

Definition summary_header (token_count : Z) (tool_name : string)
    (n_chunks : Z) : string :=
  "[CONTENT SUMMARIZED - Original: " +:+ Py.str_of_int token_count
  +:+ " tokens from " +:+ tool_name +:+ ", " +:+ Py.str_of_int n_chunks
  +:+ " chunks]" +:+ nl +:+ nl.

Definition too_large_error (tool_name : string) (token_count : Z) : exn :=
  Exn "ValueError"
    ("Content from " +:+ tool_name
     +:+ " exceeds maximum limit of 1,000,000 tokens ("
     +:+ Py.str_of_int token_count +:+ " tokens). Cannot process.").

(** [_summarize_large_content] *)
Definition _summarize_large_content (content : value) (max_tokens : Z)
    (tool_name : string) : SE State string :=
  match content with
  | VNone => ret ""
  | _ =>
      let text := text_of_content content in
      let token_count := _count_tokens text in
      if token_count <=? max_tokens then ret text
      else if token_count >? 1000000 then
        raise (too_large_error tool_name token_count)
      else
        try_except
          (let summary_prompt := summary_prompt_for tool_name in
           let chunk_size_chars := 100000 in
           let chunks := split_chunks chunk_size_chars text in
           chunk_summaries <-
             gather (imap (fun i chunk =>
                             summarize_chunk summary_prompt chunk (Z.of_nat i))
                       chunks) ;;
           let combined_summaries := combine_summaries chunk_summaries in
           let full_summary := Py.join (nl +:+ nl) combined_summaries in
           let final_summary :=
             summary_header token_count tool_name
               (Z.of_nat (length chunks)) +:+ full_summary in
           let summary_tokens := _count_tokens final_summary in
           if summary_tokens >? max_tokens
           then ret (_truncate_content_fallback final_summary max_tokens
                       tool_name summary_tokens)
           else ret final_summary)
          (fun e =>
             ret (_truncate_content_fallback text max_tokens tool_name
                    token_count))
  end.


(** [_safe_serialize]: the JSON round trip through [MCPJsonEncoder],
    which encodes a foreign object as its [text] attribute when it has
    one and as its display form otherwise. *)
Fixpoint _safe_serialize (obj : value) : value :=
  match obj with
  | VList l => VList (List.map _safe_serialize l)
  | VDict d => VDict (List.map (fun kv => (fst kv, _safe_serialize (snd kv))) d)
  | VObj attrs display =>
      let fix text_of (attrs : list (string * value)) : option value :=
        match attrs with
        | [] => None
        | kv :: attrs' =>
            if String.eqb (fst kv) "text"
            then Some (_safe_serialize (snd kv))
            else text_of attrs'
        end in
      match text_of attrs with
      | Some t => t
      | None => VStr display
      end
  | _ => obj
  end.

(** [_cache_available_mcp_tools] *)
Definition _cache_available_mcp_tools : SE State unit :=
  has_session <- gets session ;;
  if negb has_session then modify (set_cache (Some []))
  else
    try_except
      (listed <- session_list_tools ;; modify (set_cache (Some listed)))
      (fun e => modify (set_cache (Some []))).

(** [cache or []] *)
Definition cache_or_empty (cache : option (list Tool)) : list Tool :=
  match cache with Some l => l | None => [] end.

(** The local variables of [execute_llm_interaction].  [turn] and
    [requested_mcp_tool_calls] are unbound ([None]) until the loop body
    assigns them. *)
Record Locals := {
  l_messages : list Message;
  aggregated_text_responses : list string;
  all_tool_outputs : gmap string value;
  turn : option Z;
  requested_mcp_tool_calls : option (list (string * string * value));
}.

Definition set_turn (t : Z) (l : Locals) : Locals :=
  {| l_messages := l_messages l;
     aggregated_text_responses := aggregated_text_responses l;
     all_tool_outputs := all_tool_outputs l;
     turn := Some t;
     requested_mcp_tool_calls := requested_mcp_tool_calls l |}.

Definition append_message (m : Message) (l : Locals) : Locals :=
  {| l_messages := l_messages l ++ [m];
     aggregated_text_responses := aggregated_text_responses l;
     all_tool_outputs := all_tool_outputs l;
     turn := turn l;
     requested_mcp_tool_calls := requested_mcp_tool_calls l |}.

Definition append_text (t : string) (l : Locals) : Locals :=
  {| l_messages := l_messages l;
     aggregated_text_responses := aggregated_text_responses l ++ [t];
     all_tool_outputs := all_tool_outputs l;
     turn := turn l;
     requested_mcp_tool_calls := requested_mcp_tool_calls l |}.

Definition set_tool_output (k : string) (v : value) (l : Locals) : Locals :=
  {| l_messages := l_messages l;
     aggregated_text_responses := aggregated_text_responses l;
     all_tool_outputs := <[k := v]> (all_tool_outputs l);
     turn := turn l;
     requested_mcp_tool_calls := requested_mcp_tool_calls l |}.

Definition set_requested (r : list (string * string * value)) (l : Locals)
  : Locals :=
  {| l_messages := l_messages l;
     aggregated_text_responses := aggregated_text_responses l;
     all_tool_outputs := all_tool_outputs l;
     turn := turn l;
     requested_mcp_tool_calls := Some r |}.

(** The texts of a reply's text blocks, in order. *)
Definition reply_texts (blocks : list ContentBlock) : list string :=
  omap (fun b => match b with TextBlock t => Some t | _ => None end) blocks.

(** The tool-use blocks of a reply that name a cached tool, in order:
    [(block.id, block.name, block.input)].  Any other tool-use block is
    ignored. *)
Definition recognized_tool_calls (cache : option (list Tool))
    (blocks : list ContentBlock) : list (string * string * value) :=
  omap (fun b =>
          match b with
          | ToolUseBlock id nm input =>
              if existsb (fun t => String.eqb (name t) nm) (cache_or_empty cache)
              then Some (id, nm, input) else None
          | _ => None
          end) blocks.

(** [tool_use_id or tool_name] *)
Definition id_or_name (tool_use_id tool_name : string) : string :=
  if String.eqb tool_use_id "" then tool_name else tool_use_id.

(** The body of the loop over [requested_mcp_tool_calls], for one call:
    the updated locals and the tool result for the model. *)
Definition execute_requested_tool (call : string * string * value)
    (l : Locals) : SE State (Locals * ToolResult) :=
  let '(tool_use_id, tool_name, tool_input_args) := call in
  (* the arguments are written to the log with json.dumps, before the try *)
  if negb (json_serializable tool_input_args)
  then raise (Exn "TypeError" "Object is not JSON serializable")
  else
  try_except
    (raw_tool_output <- session_call_tool tool_name tool_input_args ;;
     let serialized_tool_output := _safe_serialize raw_tool_output in
     summarized_output <-
       _summarize_large_content serialized_tool_output
         (MAX_TOOL_RESULT_TOKENS env) tool_name ;;
     ret (set_tool_output (id_or_name tool_use_id tool_name)
            serialized_tool_output l,
          {| tool_use_id := tool_use_id; content := summarized_output;
             is_error := false |}))
    (fun e =>
       let error_detail :=
         "Error executing MCP tool " +:+ tool_name +:+ ": " +:+ exn_msg e in
       ret (set_tool_output (id_or_name tool_use_id tool_name)
              (VDict [("error", VStr error_detail)]) l,
            {| tool_use_id := tool_use_id; content := error_detail;
               is_error := true |})).

Fixpoint execute_requested_tools (calls : list (string * string * value))
    (l : Locals) : SE State (Locals * list ToolResult) :=
  match calls with
  | [] => ret (l, [])
  | c :: calls' =>
      r <- execute_requested_tool c l ;;
      rs <- execute_requested_tools calls' (fst r) ;;
      ret (fst rs, snd r :: snd rs)
  end.

(** The request of a turn: the whole history, the system prompt and the
    cached tools. *)
Definition turn_request (system_prompt : string) (cache : option (list Tool))
    (l : Locals) : CreateArgs :=
  {| system := Some system_prompt; max_tokens := 16000; thinking := true;
     messages := l_messages l; tools := cache_or_empty cache |}.

Definition no_output_this_turn : string :=
  "[LLM interaction ended without text output or MCP tool calls this turn.]".

(** The [for turn in range(MAX_LLM_INTERACTION_TURNS)] loop, with
    [remaining] turns left, the next one numbered [t]. *)
Fixpoint interaction_turns (system_prompt : string) (remaining : nat)
    (t : Z) (l : Locals) : SE State Locals :=
  match remaining with
  | O => ret l
  | S remaining' =>
      let l := set_turn t l in
      cache <- gets _available_mcp_tools_cache ;;
      fun st =>
        match anthropic_messages_create (turn_request system_prompt cache l) st with
        | (Raise e, st') =>
            (* break *)
            (Return (append_text ("Error calling Anthropic API: " +:+ exn_msg e) l),
             st')
        | (Return assistant_response_blocks, st') =>
            let l := append_message (AssistantMessage assistant_response_blocks) l in
            let texts := reply_texts assistant_response_blocks in
            let has_text_this_turn := negb (bool_decide (texts = [])) in
            let l := foldl (fun l t => append_text t l) l texts in
            let requested := recognized_tool_calls cache assistant_response_blocks in
            let l := set_requested requested l in
            match requested with
            | [] =>
                (* break *)
                (Return
                   (if negb has_text_this_turn
                       && bool_decide (aggregated_text_responses l = [])
                    then append_text no_output_this_turn l else l),
                 st')
            | _ :: _ =>
                (r <- execute_requested_tools requested l ;;
                 let '(l, tool_results_for_llm_message) := r in
                 match tool_results_for_llm_message with
                 | [] => ret l (* break *)
                 | _ :: _ =>
                     interaction_turns system_prompt remaining' (t + 1)
                       (append_message
                          (ToolResultMessage tool_results_for_llm_message) l)
                 end) st'
            end
        end
  end.

Definition no_output_at_all : string :=
  "[LLM interaction produced no textual output and no tool outputs.]".

Definition unbound_local (var : string) : exn :=
  Exn "UnboundLocalError"
    ("cannot access local variable '" +:+ var
     +:+ "' where it is not associated with a value").

(** The statements after the loop. *)
Definition interaction_result (interaction_id_for_logging : string)
    (l : Locals) : outcome (string * gmap string value) :=
  match turn l with
  | None => Raise (unbound_local "turn")
  | Some t =>
      let finish (l : Locals) :=
        let final_text :=
          Py.strip (Py.join nl (aggregated_text_responses l)) in
        if String.eqb final_text ""
           && bool_decide (all_tool_outputs l = ∅)
        then Return (no_output_at_all, all_tool_outputs l)
        else Return (final_text, all_tool_outputs l) in
      if t =? MAX_LLM_INTERACTION_TURNS env - 1 then
        match requested_mcp_tool_calls l with
        | None => Raise (unbound_local "requested_mcp_tool_calls")
        | Some [] => finish l
        | Some (_ :: _) =>
            finish
              (append_text
                 ("[LLM interaction for " +:+ interaction_id_for_logging
                  +:+ " reached max turns with pending tool calls.]") l)
        end
      else finish l
  end.

(** The first statement of [execute_llm_interaction]: the tools are
    fetched when none is cached. *)
Definition ensure_tools_cached : SE State unit :=
  cache <- gets _available_mcp_tools_cache ;;
  match cache with
  | Some (_ :: _) => ret tt
  | _ => _cache_available_mcp_tools
  end.

(** The locals before the first turn: [messages] is a copy of
    [user_messages]. *)
Definition initial_locals (user_messages : list Message) : Locals :=
  {| l_messages := user_messages;
     aggregated_text_responses := [];
     all_tool_outputs := ∅;
     turn := None;
     requested_mcp_tool_calls := None |}.

(** [execute_llm_interaction] *)
Definition execute_llm_interaction (system_prompt : string)
    (user_messages : list Message) (interaction_id_for_logging : string)
  : SE State (string * gmap string value) :=
  ensure_tools_cached ;;;
  has_session <- gets session ;;
  if negb has_session then
    raise (Exn "ConnectionError"
             ("[" +:+ interaction_id_for_logging
              +:+ "] MCP session not initialized. Cannot execute LLM interaction with tools."))
  else
    l <- interaction_turns system_prompt
           (Z.to_nat (MAX_LLM_INTERACTION_TURNS env)) 0
           (initial_locals user_messages) ;;
    lift (interaction_result interaction_id_for_logging l).

End Client.
End MCPClient.

(** The f-string templates of [_execute_step_with_llm]: the system prompt
    (from the step, its configuration and the context variables) and the
    user message (from the step, the filtered context, the user's id and the
    required output variable). *)
Record PromptTemplates := {
  system_prompt_for :
    string -> string -> string -> gmap string value -> gmap string value -> string;
  user_message_for :
    string -> gmap string value -> option string -> option value -> string;
}.

(** * [models.py] *)

Inductive NodeType :=
| trigger | input | process | output | tool | decision | transform.

Definition type_name (t : NodeType) : string :=
  match t with
  | trigger => "trigger" | input => "input" | process => "process"
  | output => "output" | tool => "tool" | decision => "decision"
  | transform => "transform"
  end.

Global Instance NodeType_eq_dec : EqDecision NodeType.
Proof. solve_decision. Defined.

Record WorkflowStep := {
  step : string;
  description : string;
  type : NodeType;
}.

Inductive ExecutionState := pending | running | completed | failed | cancelled.

Global Instance ExecutionState_eq_dec : EqDecision ExecutionState.
Proof. solve_decision. Defined.

(** The fields of [Agent] the runner reads. *)
Record Agent := {
  agent_id : string;
  agent_name : string;
  agent_user_id : option string;
  objective : string;
  workflow : list WorkflowStep;
}.

(** The fields of [AgentExecution] the runner writes. *)
Record AgentExecution := {
  state : ExecutionState;
  error_message : option string;
  final_outputs : option (gmap string value);
  (** [completed_at] has been stamped *)
  completed_at : bool;
}.

(** * [workflow_runner.py] *)

(** ** [WorkflowContext] *)

Record WorkflowContext := {
  variables : gmap string value;
  step_outputs : gmap nat (gmap string value);
}.

Module Context.
Definition set (key : string) (v : value) (c : WorkflowContext)
  : WorkflowContext :=
  {| variables := <[key := v]> (variables c);
     step_outputs := step_outputs c |}.

(** [get(key)], with the default [None] *)
Definition get (key : string) (c : WorkflowContext) : value :=
  default VNone (variables c !! key).

(** [update(updates)]: the keys of [updates] overwrite. *)
Definition update (updates : gmap string value) (c : WorkflowContext)
  : WorkflowContext :=
  {| variables := updates ∪ variables c;
     step_outputs := step_outputs c |}.

Definition get_all (c : WorkflowContext) : gmap string value := variables c.

Definition track_step_output (step_index : nat) (outputs : gmap string value)
    (c : WorkflowContext) : WorkflowContext :=
  update outputs
    {| variables := variables c;
       step_outputs := <[step_index := outputs]> (step_outputs c) |}.
End Context.

(** Python truth value *)
Definition truthy (v : value) : bool :=
  match v with
  | VNone => false
  | VBool b => b
  | VInt n => negb (n =? 0)
  | VStr s => negb (String.eqb s "")
  | VList l => match l with [] => false | _ => true end
  | VDict d => match d with [] => false | _ => true end
  | VObj _ _ => true
  end.

(** [v is None] *)
Definition is_none (v : value) : bool :=
  match v with VNone => true | _ => false end.

(** The context and a step's outputs are keyed by strings.  A key that is
    not a string is outside the model; using one raises. *)
Definition as_key (v : value) : outcome string :=
  match v with
  | VStr s => Return s
  | _ => Raise (Exn "TypeError" "key is not a string")
  end.

(** The string elements of a list value (the names in [input_variables],
    [output_variables]). *)
Definition str_items (v : value) : list string :=
  match v with
  | VList l => omap (fun x => match x with VStr s => Some s | _ => None end) l
  | _ => []
  end.

Module AgentWorkflowRunner.

(** [MAX_WORKFLOW_STEPS], read from the environment. *)
Record Settings := {
  MAX_WORKFLOW_STEPS : Z;
  client_settings : MCPClient.Settings;
}.

Definition default_settings : Settings :=
  {| MAX_WORKFLOW_STEPS := 20;
     client_settings := MCPClient.default_settings |}.

(** The mutable part of a runner; [mcp_client] is the client it drives. *)
Record State := {
  context : WorkflowContext;
  executed_steps : gset nat;
  current_step : Z;
  mcp_client : MCPClient.State;
}.

Definition with_context (f : WorkflowContext -> WorkflowContext) (st : State)
  : State :=
  {| context := f (context st);
     executed_steps := executed_steps st;
     current_step := current_step st;
     mcp_client := mcp_client st |}.

(** A computation of the client, run on the runner's client. *)
Definition on_client {A} (m : SE MCPClient.State A) : SE State A :=
  fun st =>
    let '(r, c) := m (mcp_client st) in
    (r, {| context := context st;
           executed_steps := executed_steps st;
           current_step := current_step st;
           mcp_client := c |}).

(** [STEP_DEFAULTS]: for each step type, the default keys in order. *)
Definition STEP_DEFAULTS (t : NodeType) : list (string * value) :=
  match t with
  | input =>
      [("variable_name", VStr "step_{index}_input");
       ("default_value", VNone);
       ("output_variable_name", VStr "step_{index}_result")]
  | trigger =>
      [("output_variable_name", VStr "step_{index}_result")]
  | output =>
      [("output_variables", VList [VStr "step_{index}_result"]);
       ("format", VNone)]
  | process =>
      [("input_variables", VList [VStr "step_{prev_index}_result"]);
       ("output_variable_name", VStr "step_{index}_result")]
  | tool =>
      [("tool_name", VStr "exa_search");
       ("input_mapping", VDict [("query", VStr "step_{prev_index}_result")]);
       ("output_mapping", VDict [("search_results", VStr "$output")])]
  | decision =>
      [("condition", VStr "not_empty:step_result");
       ("input_variables", VList [VStr "step_{prev_index}_result"])]
  | transform =>
      [("transformation", VStr "json_stringify");
       ("input_variables", VList [VStr "step_{prev_index}_result"]);
       ("output_variable", VStr "step_{index}_result")]
  end.

(** The substitution [get_step_config] applies to one default value. *)
Definition substitute_default (step_index : nat) (v : value) : value :=
  let i := Z.of_nat step_index in
  match v with
  | VStr s =>
      VStr (Py.replace "{prev_index}"
              (if 0 <? i then Py.str_of_int (i - 1) else "")
              (Py.replace "{index}" (Py.str_of_int i) s))
  | VList items =>
      VList
        (List.map
           (fun item =>
              match item with
              | VStr s =>
                  if 0 <? i
                  then VStr (Py.replace "{prev_index}" (Py.str_of_int (i - 1))
                               (Py.replace "{index}" (Py.str_of_int i) s))
                  else item
              | _ => item
              end)
           (List.filter
              (fun item =>
                 negb match item with
                      | VStr s => Py.contains "{prev_index}" s && (i =? 0)
                      | _ => false
                      end)
              items))
  | _ => v
  end.

Section Runner.
Context (rt : PyRuntime) (env : Settings) (remote : MCPClient.Remote)
        (agent : Agent).

(** [self.workflow_steps] *)
Definition workflow_steps : list WorkflowStep := workflow agent.

(** [get_step_config], for the non-negative indices the engine uses. *)
Definition get_step_config (step_index : nat) : gmap string value :=
  match workflow_steps !! step_index with
  | None => ∅
  | Some s =>
      let config : gmap string value :=
        {[ "step" := VStr (step s);
           "description" := VStr (description s);
           "type" := VStr (type_name (type s)) ]} in
      foldl (fun config kv =>
               <[fst kv := substitute_default step_index (snd kv)]> config)
        config (STEP_DEFAULTS (type s))
  end.


Context (prompts : PromptTemplates).

(** [config.get(key, default)] *)
Definition config_get (config : gmap string value) (key : string)
    (dflt : value) : value :=
  default dflt (config !! key).

Definition step_key (step_index : nat) (suffix : string) : string :=
  "step_" +:+ Py.str_of_int (Z.of_nat step_index) +:+ suffix.

(** The inner [_safe_serialize] of [_execute_step_with_llm]. *)
Fixpoint _safe_serialize (obj : value) : value :=
  match obj with
  | VObj attrs display =>
      match getattr "text" obj with
      | Some t => t
      | None =>
          match getattr "content" obj with
          | Some (VStr c) => VStr c
          | _ =>
              VDict
                ((fix public (attrs : list (string * value)) :=
                    match attrs with
                    | [] => []
                    | kv :: attrs' =>
                        if String.prefix "_" (fst kv) then public attrs'
                        else (fst kv, _safe_serialize (snd kv)) :: public attrs'
                    end) attrs)
          end
      end
  | _ => if json_serializable obj then obj else VStr (py_str rt obj)
  end.

(** The values the model is shown when a step names no variables:
    scalars, and lists and dicts of a short display form. *)
Definition small_enough (v : value) : bool :=
  match v with
  | VStr _ | VInt _ | VBool _ => true
  | VList _ | VDict _ => Py.len (py_str rt v) <? 1000
  | _ => false
  end.

(** The [filtered_context] that [_execute_step_with_llm] builds. *)
Definition filtered_context_of (s : WorkflowStep) (step_index : nat)
    (config : gmap string value) (context_vars : gmap string value)
  : gmap string value :=
  let pick (names : list string) : gmap string value :=
    foldl (fun fc var_name =>
             match context_vars !! var_name with
             | Some v => <[var_name := _safe_serialize v]> fc
             | None => fc
             end) ∅ names in
  let input_variables := config_get config "input_variables" (VList []) in
  let filtered : gmap string value :=
    if truthy input_variables then pick (str_items input_variables)
    else match type s with
         | input =>
             match config_get config "variable_name"
                     (VStr (step_key step_index "_input")) with
             | VStr var_name => pick [var_name]
             | _ => ∅
             end
         | output =>
             pick (str_items (config_get config "output_variables" (VList [])))
         | transform => ∅
         | _ =>
             _safe_serialize <$>
               filter (fun kv => small_enough (snd kv) = true) context_vars
         end in
  <["agent_id" := VStr (agent_id agent)]>
    (<["agent_name" := VStr (agent_name agent)]> filtered).

(** The emptiness test of the direct [not_empty] evaluation. *)
Definition is_empty (variable_value : value) : bool :=
  match variable_value with
  | VNone => true
  | VStr s => String.eqb s "" || String.eqb (Py.strip s) ""
  | VList [] => true
  | VDict [] => true
  | _ => false
  end.

(** The direct evaluation of a decision step: [Some outputs] when the
    function returns from it, [None] when it goes on to the model. *)
Definition direct_decision (step_index : nat) (config : gmap string value)
    (c : WorkflowContext) : option (gmap string value) :=
  match config_get config "condition" (VStr "not_empty:step_result") with
  | VStr condition =>
      match Py.split ":" condition with
      | [condition_type; variable_name] =>
          let variable_value := Context.get variable_name c in
          if String.eqb condition_type "not_empty"
             && negb (is_none variable_value)
          then
            let condition_result := negb (is_empty variable_value) in
            let explanation :=
              if condition_result
              then "The condition '" +:+ condition +:+ "' is TRUE because '"
                   +:+ variable_name +:+ "' is not empty"
              else "The condition '" +:+ condition +:+ "' is FALSE because '"
                   +:+ variable_name +:+ "' is empty" in
            Some (<[step_key step_index "_explanation" := VStr explanation]>
                    (<[step_key step_index "_condition_result" :=
                         VBool condition_result]> ∅))
          else None
      | _ => None
      end
  | _ => None
  end.

(** The direct evaluation of a transform step, likewise. *)
Definition direct_transform (step_index : nat) (config : gmap string value)
    (filtered_context : gmap string value) : option (gmap string value) :=
  match config_get config "transformation" (VStr "json_stringify"),
        config_get config "input_variables" (VList []),
        config_get config "output_variable"
          (VStr (step_key step_index "_result")) with
  | VStr transformation, VList (first :: _), VStr output_var =>
      if String.eqb (Py.lower transformation) "json_stringify" then
        match first with
        | VList _ | VDict _ => None
        | _ =>
            let input_value :=
              match first with
              | VStr var => default VNone (filtered_context !! var)
              | _ => VNone
              end in
            match json_dumps rt input_value with
            | Return result => Some {[ output_var := VStr result ]}
            | Raise _ => None
            end
        end
      else None
  | _, _, _ => None
  end.

(** The outputs read from the model's reply. *)
Definition outputs_of_reply (step_index : nat) (config : gmap string value)
    (llm_response : string) : outcome (gmap string value) :=
  let fallback :=
    match as_key (config_get config "output_variable_name"
                    (VStr (step_key step_index "_result"))) with
    | Return fallback_var => Return {[ fallback_var := VStr llm_response ]}
    | Raise e => Raise e
    end in
  let json_start := Py.find "{" llm_response in
  let json_end := Py.rfind "}" llm_response + 1 in
  if (json_start >=? 0) && (json_end >? json_start) then
    match json_loads rt (Py.slice json_start json_end llm_response) with
    | Return (VDict node_outputs) =>
        Return (foldl (fun outputs kv => <[fst kv := snd kv]> outputs)
                  ∅ node_outputs)
    | Return _ =>
        Raise (Exn "AttributeError" "object has no attribute 'items'")
    | Raise e =>
        if String.eqb (exn_type e) "JSONDecodeError" then fallback
        else Raise e
    end
  else fallback.

(** The special handling of an input step: [Some outputs] when the default
    value is used, [None] when the function goes on. *)
Definition direct_input (step_index : nat) (config : gmap string value)
    (c : WorkflowContext) : outcome (option (gmap string value)) :=
  match as_key (config_get config "variable_name"
                  (VStr (step_key step_index "_input"))) with
  | Raise e => Raise e
  | Return var_name =>
      let default_value := config_get config "default_value" VNone in
      if is_none (Context.get var_name c) && negb (is_none default_value)
      then Return (Some ({[ var_name := default_value ]} : gmap string value))
      else Return None
  end.

(** The outputs of the special handling of input and decision steps. *)
Definition early_outputs (s : WorkflowStep) (step_index : nat)
    (config : gmap string value) (c : WorkflowContext)
  : outcome (option (gmap string value)) :=
  match type s with
  | input => direct_input step_index config c
  | decision => Return (direct_decision step_index config c)
  | _ => Return None
  end.

(** The rest of [_execute_step_with_llm], from the serialization of the
    configuration on: the prompts, the session with the model, and the
    outputs read from its reply. *)
Definition ask_model (s : WorkflowStep) (step_index : nat)
    (config : gmap string value) (execution_id : string)
    (filtered_context : gmap string value) (c : WorkflowContext)
  : SE State (gmap string value) :=
  if negb (forallb (fun kv => json_serializable (snd kv)) (map_to_list config))
  then raise (Exn "TypeError" "Object is not JSON serializable")
  else
    let system_prompt :=
      system_prompt_for prompts (type_name (type s)) (step s)
        (description s) config (Context.get_all c) in
    let user_message :=
      user_message_for prompts (type_name (type s)) filtered_context
        (agent_user_id agent) (config !! "output_variable_name") in
    try_except
      (r <- on_client
              (MCPClient.execute_llm_interaction rt
                 (client_settings env) remote system_prompt
                 [MCPClient.UserMessage (VStr user_message)]
                 (step_key step_index "_exec_" +:+ execution_id)) ;;
       lift (outputs_of_reply step_index config (fst r)))
      (fun e =>
         let error_msg :=
           "Error during LLM interaction for step execution: "
           +:+ exn_msg e in
         modify (with_context
                   (Context.set (step_key step_index "_error")
                      (VStr error_msg))) ;;;
         ret {[ step_key step_index "_error" := VStr error_msg ]}).

(** [_execute_step_with_llm] *)
Definition _execute_step_with_llm (s : WorkflowStep) (step_index : nat)
    (config : gmap string value) (execution_id : string)
  : SE State (gmap string value) :=
  c <- gets context ;;
  early <- lift (early_outputs s step_index config c) ;;
  match early with
  | Some outputs => ret outputs
  | None =>
      let filtered_context :=
        filtered_context_of s step_index config (Context.get_all c) in
      match match type s with
            | transform => direct_transform step_index config filtered_context
            | _ => None
            end with
      | Some outputs => ret outputs
      | None => ask_model s step_index config execution_id filtered_context c
      end
  end.

(** [d[key]] for [key in d], on a dict value *)
Definition dict_lookup (key : string) (d : list (string * value))
  : option value :=
  snd <$> List.find (fun kv => String.eqb (fst kv) key) (rev d).

(** The loop of [_execute_tool_step] over [input_mapping.items()]. *)
Fixpoint resolve_args (items : list (string * value))
    (context_vars : gmap string value) : outcome (list (string * value)) :=
  match items with
  | [] => Return []
  | (arg_name, context_var_path) :: items' =>
      match context_var_path with
      | VList _ | VDict _ => Raise (Exn "TypeError" "unhashable type")
      | _ =>
          match resolve_args items' context_vars with
          | Raise e => Raise e
          | Return resolved =>
              match context_var_path with
              | VStr path =>
                  match context_vars !! path with
                  | Some v => Return ((arg_name, v) :: resolved)
                  | None => Return resolved
                  end
              | _ => Return resolved
              end
          end
      end
  end.

(** The loop over [output_mapping.items()]: the outputs written, and the
    exception that cut the loop short, if any. *)
Fixpoint map_outputs (items : list (string * value)) (result_content : value)
    (outputs : gmap string value) : gmap string value * option exn :=
  match items with
  | [] => (outputs, None)
  | (context_var, source_path) :: items' =>
      let whole := map_outputs items' result_content
                     (<[context_var := result_content]> outputs) in
      match source_path, result_content with
      | VStr path, VDict d =>
          if String.eqb path "$output" then whole
          else match dict_lookup path d with
               | Some v =>
                   map_outputs items' result_content
                     (<[context_var := v]> outputs)
               | None => whole
               end
      | (VList _ | VDict _), VDict _ =>
          (outputs, Some (Exn "TypeError" "unhashable type"))
      | _, _ => whole
      end
  end.

(** The display of a configuration value in a message. *)
Definition show (v : value) : string :=
  match v with VStr s => s | _ => py_str rt v end.

(** [_execute_tool_step] *)
Definition _execute_tool_step (s : WorkflowStep) (step_index : nat)
    (config : gmap string value) (execution_id : string)
  : SE State (gmap string value) :=
  context_vars <- gets (fun st => Context.get_all (context st)) ;;
  resolved_args <-
    lift match config_get config "input_mapping" (VDict []) with
         | VDict items => resolve_args items context_vars
         | _ => Raise (Exn "AttributeError" "object has no attribute 'items'")
         end ;;
  let tool_name := config_get config "tool_name" (VStr "exa_search") in
  if negb (json_serializable (VDict resolved_args))
  then raise (Exn "TypeError" "Object is not JSON serializable")
  else
    let failed_with (outputs : gmap string value) (e : exn) :=
      <[step_key step_index "_error" :=
          VStr ("Error executing tool '" +:+ show tool_name +:+ "': "
                +:+ exn_msg e)]> outputs in
    try_except
      (has_session <- gets (fun st => MCPClient.session (mcp_client st)) ;;
       if negb has_session then
         raise (Exn "ConnectionError"
                  "MCP Client session not available for tool call")
       else
         name <- lift (as_key tool_name) ;;
         result_content <-
           on_client (MCPClient.session_call_tool remote name
                        (VDict resolved_args)) ;;
         match config_get config "output_mapping"
                 (VDict [("search_results", VStr "$output")]) with
         | VDict items =>
             let '(outputs, err) := map_outputs items result_content ∅ in
             match err with
             | None => ret outputs
             | Some e => ret (failed_with outputs e)
             end
         | _ =>
             ret (failed_with ∅
                    (Exn "AttributeError" "object has no attribute 'items'"))
         end)
      (fun e => ret (failed_with ∅ e)).

(** The dispatch of [execute_step] on the step's type. *)
Definition dispatch_step (s : WorkflowStep) (step_index : nat)
    (config : gmap string value) (execution_id : string)
  : SE State (gmap string value) :=
  match type s with
  | tool => _execute_tool_step s step_index config execution_id
  | _ => _execute_step_with_llm s step_index config execution_id
  end.

(** The body of [execute_step] once the step's configuration is known. *)
Definition execute_step_with (config : gmap string value)
    (step_index : nat) (execution_id : string) (current_step_number : Z)
  : SE State (gmap string value * bool) :=
  match workflow_steps !! step_index with
  | None =>
      raise (Exn "ValueError"
               ("Step index " +:+ Py.str_of_int (Z.of_nat step_index)
                +:+ " out of range at step "
                +:+ Py.str_of_int current_step_number +:+ "."))
  | Some s =>
      try_except
        (step_outputs <- dispatch_step s step_index config execution_id ;;
         let should_continue :=
           match type s with
           | decision =>
               truthy (default (VBool true)
                         (step_outputs
                            !! step_key step_index "_condition_result"))
           | _ => true
           end in
         modify (with_context
                   (Context.track_step_output step_index step_outputs)) ;;;
         ret (step_outputs, should_continue))
        (fun e =>
           let error_msg :=
             "Error executing step " +:+ Py.str_of_int (Z.of_nat step_index)
             +:+ " '" +:+ step s +:+ "' (Step: "
             +:+ Py.str_of_int current_step_number +:+ "): " +:+ exn_msg e in
           modify (with_context
                     (Context.set (step_key step_index "_error")
                        (VStr error_msg))) ;;;
           ret (<[step_key step_index "_exception_type" := VStr (exn_type e)]>
                  {[ step_key step_index "_error" := VStr error_msg ]},
                false))
  end.

(** [execute_step] *)
Definition execute_step (step_index : nat) (execution_id : string)
    (current_step_number : Z) : SE State (gmap string value * bool) :=
  execute_step_with (get_step_config step_index) step_index execution_id
    current_step_number.

(** The start of a loop round: [self.current_step += 1] and
    [self.executed_steps.add(step_index)]. *)
Definition begin_step (step_index : nat) (st : State) : State :=
  {| context := context st;
     executed_steps := {[ step_index ]} ∪ executed_steps st;
     current_step := current_step st + 1;
     mcp_client := mcp_client st |}.

(** What an output step adds to [final_outputs]. *)
Definition collect_outputs (s : WorkflowStep)
    (step_outputs final_outputs : gmap string value) : gmap string value :=
  match type s with
  | output =>
      ((fun v => if json_serializable v then v else VStr (py_str rt v))
         <$> step_outputs) ∪ final_outputs
  | _ => final_outputs
  end.

(** The [while] loop of [execute_workflow]; [config_of] gives each step
    its configuration.  A round moves to the next step, so a fuel of the
    number of steps is never used up ([workflow_loop_fuel]). *)
Fixpoint workflow_loop (config_of : nat -> gmap string value) (fuel : nat)
    (execution_id : string) (step_index : nat) (should_continue : bool)
    (final_outputs : gmap string value)
  : SE State (nat * bool * gmap string value) :=
  match fuel with
  | O => ret (step_index, should_continue, final_outputs)
  | S fuel' =>
      cs <- gets current_step ;;
      match workflow_steps !! step_index with
      | Some current_workflow_step =>
          if should_continue && (cs <? MAX_WORKFLOW_STEPS env) then
            modify (begin_step step_index) ;;;
            r <- execute_step_with (config_of step_index) step_index
                   execution_id (cs + 1) ;;
            workflow_loop config_of fuel' execution_id (S step_index) (snd r)
              (collect_outputs current_workflow_step (fst r) final_outputs)
          else ret (step_index, should_continue, final_outputs)
      | None => ret (step_index, should_continue, final_outputs)
      end
  end.

(** The classification after the loop: the record's state and error
    message, and the context's [workflow_status_detail]. *)
Definition classify (step_index : nat) (should_continue : bool)
    (current_step : Z) : ExecutionState * option string * string :=
  if (current_step >=? MAX_WORKFLOW_STEPS env)
     && (step_index <? length workflow_steps)%nat
  then (failed,
        Some ("Reached maximum workflow steps ("
              +:+ Py.str_of_int (MAX_WORKFLOW_STEPS env) +:+ "). Terminating."),
        "terminated_max_steps")
  else if negb should_continue
  then (completed, None, "completed_stopped_by_decision")
  else if (length workflow_steps <=? step_index)%nat
  then (completed, None, "completed_successfully")
  else (completed, None, "completed_successfully").

(** The dict [execute_workflow] returns. *)
Record RunResult := {
  execution_id : string;
  workflow_final_status : ExecutionState;
  result_final_outputs : gmap string value;
  error : option string;
}.

(** The [finally] block: stamps [completed_at] and forces the state
    into completed or failed. *)
Definition finalize (r : AgentExecution) : AgentExecution :=
  match state r with
  | completed | failed =>
      {| state := state r; error_message := error_message r;
         final_outputs := final_outputs r; completed_at := true |}
  | _ =>
      {| state := failed;
         error_message :=
           match error_message r with
           | Some m => Some m
           | None => Some "Workflow ended in an unexpected or ambiguous state."
           end;
         final_outputs := final_outputs r; completed_at := true |}
  end.

(** What follows the loop in the [try] block of [execute_workflow]: the
    classification, and the values returned. *)
Definition after_loop (agent_execution_id : string)
    (l : nat * bool * gmap string value)
  : SE State (RunResult * AgentExecution) :=
  let '(step_index, should_continue, final_outputs) := l in
  cs <- gets current_step ;;
  let '(st, msg, detail) := classify step_index should_continue cs in
  modify (with_context
            (Context.set "workflow_status_detail" (VStr detail))) ;;;
  ret ({| execution_id := agent_execution_id;
          workflow_final_status := st;
          result_final_outputs := final_outputs;
          error := None |},
       {| state := st; error_message := msg;
          final_outputs := Some final_outputs;
          completed_at := false |}).

(** The [try] block of [execute_workflow] from the check of the step
    list on. *)
Definition run_steps (config_of : nat -> gmap string value)
    (agent_execution_id : string)
  : SE State (RunResult * AgentExecution) :=
  match workflow_steps with
  | [] => raise (Exn "ValueError" "No workflow steps defined for the agent.")
  | _ :: _ =>
      modify (fun st =>
                {| context := context st; executed_steps := ∅;
                   current_step := 0; mcp_client := mcp_client st |}) ;;;
      l <- workflow_loop config_of (length workflow_steps)
             agent_execution_id 0 true ∅ ;;
      after_loop agent_execution_id l
  end.

(** [execute_workflow] with the configuration of each step given by
    [config_of].  No [db_client] is attached (the supported degraded
    mode), so the run's id is the pre-generated [agent_execution_id]. *)
Definition execute_workflow_with (config_of : nat -> gmap string value)
    (initial_context : option (gmap string value))
    (agent_execution_id : string) (st : State)
  : RunResult * AgentExecution * State :=
  let metadata : gmap string value :=
    {[ "execution_id" := VStr agent_execution_id;
       "agent_id" := VStr (agent_id agent);
       "agent_name" := VStr (agent_name agent) ]} in
  let more_metadata : gmap string value :=
    {[ "user_id" := match agent_user_id agent with
                    | Some u => VStr u
                    | None => VNone
                    end;
       "workflow_objective" := VStr (objective agent) ]} in
  let st :=
    with_context
      (fun c =>
         Context.update more_metadata
           (Context.update metadata
              (match initial_context with
               | Some ic => Context.update ic c
               | None => c
               end))) st in
  match run_steps config_of agent_execution_id st with
  | (Return (result, record), st') => (result, finalize record, st')
  | (Raise e, st') =>
      ({| execution_id := agent_execution_id;
          workflow_final_status := failed;
          result_final_outputs := ∅;
          error := Some (exn_msg e) |},
       finalize {| state := failed; error_message := Some (exn_msg e);
                   final_outputs := None; completed_at := false |},
       st')
  end.

(** [execute_workflow] *)
Definition execute_workflow :=
  execute_workflow_with get_step_config.

End Runner.
End AgentWorkflowRunner.

(** * [utils.py] *)

Module Utils.

(** The data written to the database: JSON values and [datetime] objects.
    A [datetime] is given by its [isoformat()] text. *)
#[warnings="-register-all"]
Inductive db_value : Type :=
| DNone
| DBool (b : bool)
| DInt (n : Z)
| DStr (s : string)
| DDatetime (isoformat : string)
| DList (l : list db_value)
| DDict (d : list (string * db_value)).

(** What the loop of [serialize_for_database] stores for an entry of value
    [value].  The recursive call on a dict is the same loop over the dict's
    entries; the items of a list are converted one level deep, and a list
    inside a list is stored as it is. *)
Fixpoint serialize_entry (value : db_value) : db_value :=
  match value with
  | DDatetime isoformat => DStr isoformat
  | DDict d =>
      DDict (List.map (fun kv => (fst kv, serialize_entry (snd kv))) d)
  | DList l =>
      DList
        (List.map
           (fun item =>
              match item with
              | DDatetime isoformat => DStr isoformat
              | DDict d =>
                  DDict (List.map (fun kv => (fst kv, serialize_entry (snd kv)))
                           d)
              | _ => item
              end) l)
  | _ => value
  end.

(** [serialize_for_database], on the entries of [data] in order. *)
Definition serialize_for_database (data : list (string * db_value))
  : list (string * db_value) :=
  List.map (fun kv => (fst kv, serialize_entry (snd kv))) data.

End Utils.

(** * [main.py] *)

Module Main.

(** What the endpoint reads from its environment. *)
Record Services := {
  (** [os.getenv("WEBHOOK_SECRET")] *)
  WEBHOOK_SECRET : option string;
  (** [hmac.new(secret.encode("utf-8"), payload, hashlib.sha256).hexdigest()] *)
  hmac_sha256_hexdigest : string -> string -> string;
  (** [utils.get_agent(agent_id)]; it raises no [HTTPException] *)
  get_agent : value -> outcome Agent;
}.

(** A request: its body and its [X-Webhook-Signature] header. *)
Record Request := {
  body : string;
  x_webhook_signature : option string;
}.

(** How a call of the endpoint ends: the workflow of [agent_data] is added
    to the background tasks and the success message returned; an
    [HTTPException] is raised; or another exception escapes. *)
Inductive Response :=
| Triggered (agent_data : Agent)
| HTTPException (status_code : Z) (detail : string)
| Unhandled (e : exn).

Fixpoint is_ascii (s : string) : bool :=
  match s with
  | EmptyString => true
  | String c s' => (nat_of_ascii c <? 128)%nat && is_ascii s'
  end.

(** [hmac.compare_digest] on two [str]: both must be ASCII. *)
Definition compare_digest (a b : string) : outcome bool :=
  if is_ascii a && is_ascii b then Return (String.eqb a b)
  else Raise (Exn "TypeError"
                "comparing strings with non-ASCII characters is not supported").

Section Endpoint.
Context (rt : PyRuntime) (services : Services).

(** [verify_webhook_signature] *)
Definition verify_webhook_signature (payload signature secret : string)
  : outcome bool :=
  if String.eqb signature "" || String.eqb secret "" then Return false
  else
    let signature :=
      if String.prefix "sha256=" signature
      then Py.slice 7 (Py.len signature) signature
      else signature in
    let expected_signature := hmac_sha256_hexdigest services secret payload in
    compare_digest signature expected_signature.

(** [agent_data.user_id != user_id] is false *)
Definition same_user (agent_user : option string) (user_id : value) : bool :=
  match agent_user, user_id with
  | Some u, VStr u' => String.eqb u u'
  | None, VNone => true
  | _, _ => false
  end.

(** The signature check at the head of the endpoint: [None] when the
    request passes. *)
Definition check_signature (request : Request) : option Response :=
  match WEBHOOK_SECRET services with
  | Some webhook_secret =>
      if String.eqb webhook_secret "" then None
      else
        match x_webhook_signature request with
        | None => Some (HTTPException 401 "Missing webhook signature")
        | Some signature =>
            if String.eqb signature ""
            then Some (HTTPException 401 "Missing webhook signature")
            else
              match verify_webhook_signature (body request) signature
                      webhook_secret with
              | Raise e => Some (Unhandled e)
              | Return false =>
                  Some (HTTPException 401 "Invalid webhook signature")
              | Return true => None
              end
        end
  | None => None
  end.

(** [trigger_agent_workflow_endpoint] *)
Definition trigger_agent_workflow_endpoint (request : Request) : Response :=
  match check_signature request with
  | Some response => response
  | None =>
      match json_loads rt (body request) with
      | Raise _ => HTTPException 400 "Invalid JSON payload"
      | Return (VDict data) =>
          let agent_id :=
            default VNone (AgentWorkflowRunner.dict_lookup "agent_id" data) in
          let user_id :=
            default VNone (AgentWorkflowRunner.dict_lookup "user_id" data) in
          if negb (truthy agent_id) then HTTPException 400 "Missing agent_id"
          else if negb (truthy user_id)
          then HTTPException 400 "Missing user_id"
          else
            match get_agent services agent_id with
            | Raise e =>
                HTTPException 500
                  ("Failed to trigger agent workflow: " +:+ exn_msg e)
            | Return agent_data =>
                if same_user (agent_user_id agent_data) user_id
                then Triggered agent_data
                else HTTPException 403 "Not authorized to trigger this agent"
            end
      | Return _ =>
          Unhandled (Exn "AttributeError" "object has no attribute 'get'")
      end
  end.

End Endpoint.
End Main.

(** * Test doubles

    Collaborators with fixed answers, for running the definitions on
    concrete inputs. *)

Module Stub.

(** A runtime whose [json.loads] yields [parsed] and whose [json.dumps]
    and [str] yield fixed texts. *)
Definition runtime (parsed : outcome value) : PyRuntime :=
  {| json_dumps_indent := fun _ => Return "{}";
     json_dumps := fun _ => Return "{}";
     json_loads := fun _ => parsed;
     py_str := fun _ => "<object>" |}.

Definition no_json : outcome value :=
  Raise (Exn "JSONDecodeError" "Expecting value").

(** A remote whose model always gives [reply], whose tools return
    ["result"], and whose tokenizer counts [tokens] tokens for every text,
    or always raises when [tokens] is [None] (so that [_count_tokens]
    falls back to a quarter of the length). *)
Definition remote (reply : outcome (list MCPClient.ContentBlock))
    (tokens : option Z) : MCPClient.Remote :=
  {| MCPClient.messages_create := fun _ _ => reply;
     MCPClient.call_tool := fun _ _ _ => Return (VStr "result");
     MCPClient.list_tools := fun _ => Return [];
     MCPClient.tokenizer_encode :=
       fun _ => match tokens with
                | Some n => Return n
                | None => Raise (Exn "RuntimeError" "tokenizer unavailable")
                end |}.

Definition api_down : outcome (list MCPClient.ContentBlock) :=
  Raise (Exn "APIError" "overloaded").

Definition says (text : string) : outcome (list MCPClient.ContentBlock) :=
  Return [MCPClient.TextBlock text].

(** The text of a JSON object with one string member. *)
Definition json_object (key val : string) : string :=
  let quote := String "034"%char EmptyString in
  "{" +:+ quote +:+ key +:+ quote +:+ ": " +:+ quote +:+ val +:+ quote +:+ "}".

(** A runtime whose [json.loads] reads that object. *)
Definition parses_object (key val : string) : PyRuntime :=
  runtime (Return (VDict [(key, VStr val)])).

(** A text of 122 characters. *)
Definition report : string :=
  "The quarterly report lists revenue by region, the largest customers, the open invoices and the forecast for the next year.".

Definition search_tool : MCPClient.Tool :=
  {| MCPClient.name := "exa_search";
     MCPClient.description := "web search";
     MCPClient.input_schema := VDict [] |}.

(** A connected client that has cached one tool and made no call yet. *)
Definition client : MCPClient.State :=
  {| MCPClient.session := true;
     MCPClient._available_mcp_tools_cache := Some [search_tool];
     MCPClient.calls := [] |}.

Definition prompts : PromptTemplates :=
  {| system_prompt_for := fun _ _ _ _ _ => "You are processing a workflow step.";
     user_message_for := fun _ _ _ _ => "Please execute this step." |}.

Definition a_step (t : NodeType) : WorkflowStep :=
  {| step := "Step"; description := "a step"; type := t |}.

Definition agent (steps : list WorkflowStep) : Agent :=
  {| agent_id := "agent-1"; agent_name := "Agent";
     agent_user_id := Some "user-1"; objective := "objective";
     workflow := steps |}.

(** A fresh runner over [client] whose context holds [vars]. *)
Definition runner (vars : gmap string value) : AgentWorkflowRunner.State :=
  {| AgentWorkflowRunner.context :=
       {| variables := vars; step_outputs := ∅ |};
     AgentWorkflowRunner.executed_steps := ∅;
     AgentWorkflowRunner.current_step := 0;
     AgentWorkflowRunner.mcp_client := client |}.

End Stub.

(** * More test doubles *)

Module Fixture.

(** A client that never connected. *)
Definition offline_client : MCPClient.State :=
  {| MCPClient.session := false;
     MCPClient._available_mcp_tools_cache := None;
     MCPClient.calls := [] |}.

(** A fresh runner over [offline_client]. *)
Definition offline_runner : AgentWorkflowRunner.State :=
  {| AgentWorkflowRunner.context := {| variables := ∅; step_outputs := ∅ |};
     AgentWorkflowRunner.executed_steps := ∅;
     AgentWorkflowRunner.current_step := 0;
     AgentWorkflowRunner.mcp_client := offline_client |}.


(** For the endpoint: a digest that is the secret followed by the payload,
    and an agent store that holds one agent. *)
Definition services (secret : option string) : Main.Services :=
  {| Main.WEBHOOK_SECRET := secret;
     Main.hmac_sha256_hexdigest := fun secret payload => secret +:+ payload;
     Main.get_agent :=
       fun agent_id =>
         match agent_id with
         | VStr "agent-1" => Return (Stub.agent [Stub.a_step process])
         | _ => Raise (Exn "ValueError" "Agent not found.")
         end |}.

Definition trigger_data : value :=
  VDict [("agent_id", VStr "agent-1"); ("user_id", VStr "user-1")].

End Fixture.

(** * Invariants of the step strategies *)

(** What a step strategy may do to the context: nothing, or record the
    step's error, which is then among its outputs. *)
Definition context_kept_or_error (step_index : nat)
    (st : AgentWorkflowRunner.State)
    (r : outcome (gmap string value) * AgentWorkflowRunner.State) : Prop :=
  match r with
  | (Return outputs, st2) =>
      AgentWorkflowRunner.context st2 = AgentWorkflowRunner.context st
      \/ exists msg,
           AgentWorkflowRunner.context st2
           = Context.set (AgentWorkflowRunner.step_key step_index "_error") msg
               (AgentWorkflowRunner.context st)
           /\ outputs !! AgentWorkflowRunner.step_key step_index "_error"
              = Some msg
  | (Raise _, st2) =>
      AgentWorkflowRunner.context st2 = AgentWorkflowRunner.context st
  end.

(** A computation that leaves the engine's counters alone: the number of
    steps taken and the set of steps executed. *)
Definition keeps_counters {A} (m : SE AgentWorkflowRunner.State A) : Prop :=
  forall st,
    AgentWorkflowRunner.current_step (snd (m st))
    = AgentWorkflowRunner.current_step st
    /\ AgentWorkflowRunner.executed_steps (snd (m st))
       = AgentWorkflowRunner.executed_steps st.

(** * The combined summary the claims describe

    The entries of a combined summary, chunk by chunk: where the model
    answers, the chunk's summary; where the call fails, a placeholder that
    names the chunk.  [calls] are the remote calls made before the chunk's
    own. *)

Fixpoint expected_entries (remote : MCPClient.Remote) (summary_prompt : string)
    (chunks : list string) (chunk_index : Z)
    (calls : list MCPClient.RemoteCall) : list string :=
  match chunks with
  | [] => []
  | chunk :: chunks' =>
      let request :=
        MCPClient.chunk_request remote summary_prompt chunk chunk_index in
      match MCPClient.messages_create remote calls request with
      | Return blocks => Py.strip (MCPClient.blocks_text blocks)
      | Raise _ =>
          "[Chunk " +:+ Py.str_of_int (chunk_index + 1)
          +:+ " summarization failed]"
      end
      :: expected_entries remote summary_prompt chunks' (chunk_index + 1)
           (MCPClient.ModelCall request :: calls)
  end.

(** The aggregated text of a session that ended on its first reply, from
    the texts of the reply's text blocks: the texts joined by newlines and
    stripped, or a notice when there is no text block or the text is
    empty. *)
Definition first_reply_text (texts : list string) : string :=
  let aggregated :=
    match texts with [] => [MCPClient.no_output_this_turn] | _ => texts end in
  let final_text := Py.strip (Py.join nl aggregated) in
  if String.eqb final_text "" then MCPClient.no_output_at_all else final_text.

(** * Invariants of the client's trace *)

(** [st'] comes from [st] by remote calls that all satisfy [P], with the
    session and the tool cache left as they are. *)
Definition extends_by (P : MCPClient.RemoteCall -> Prop)
    (st st' : MCPClient.State) : Prop :=
  MCPClient.session st' = MCPClient.session st
  /\ MCPClient._available_mcp_tools_cache st'
     = MCPClient._available_mcp_tools_cache st
  /\ exists new,
       MCPClient.calls st' = new ++ MCPClient.calls st /\ Forall P new.

(** A computation of the client whose remote calls all satisfy [P]. *)
Definition only_calls {A} (P : MCPClient.RemoteCall -> Prop)
    (m : SE MCPClient.State A) : Prop :=
  forall st, extends_by P st (snd (m st)).

(** The remote calls a session may make during its turns, with the tools
    [cache]: a call of the model, or a call of a cached tool. *)
Definition call_allowed (cache : option (list MCPClient.Tool))
    (c : MCPClient.RemoteCall) : Prop :=
  match c with
  | MCPClient.ModelCall _ => True
  | MCPClient.ToolCall nm _ =>
      nm ∈ (MCPClient.name <$> MCPClient.cache_or_empty cache)
  | MCPClient.ListTools => False
  end.

(** * Data free of [datetime] objects *)

(** A [datetime] occurs in the value. *)
Fixpoint has_datetime (v : Utils.db_value) : bool :=
  match v with
  | Utils.DDatetime _ => true
  | Utils.DList l => existsb has_datetime l
  | Utils.DDict d => existsb (fun kv => has_datetime (snd kv)) d
  | _ => false
  end.

Definition is_list (v : Utils.db_value) : bool :=
  match v with Utils.DList _ => true | _ => false end.

(** No list of the value holds a list. *)
Fixpoint lists_flat (v : Utils.db_value) : bool :=
  match v with
  | Utils.DList l => forallb (fun item => negb (is_list item) && lists_flat item) l
  | Utils.DDict d => forallb (fun kv => lists_flat (snd kv)) d
  | _ => true
  end.

(** * Properties of the content overflow manager *)

Section OverflowManager.
Import MCPClient.
Context (rt : PyRuntime) (remote : Remote).

Lemma summarize_unfold content max_tokens tool_name :
  content <> VNone ->
  _summarize_large_content rt remote content max_tokens tool_name =
  let text := text_of_content rt content in
  let token_count := _count_tokens remote text in
  if token_count <=? max_tokens then ret text
  else if token_count >? 1000000 then
    raise (too_large_error tool_name token_count)
  else
    try_except
      (let chunks := split_chunks remote 100000 text in
       chunk_summaries <-
         gather (imap (fun i chunk =>
                         summarize_chunk remote (summary_prompt_for tool_name)
                           chunk (Z.of_nat i)) chunks) ;;
       let final_summary :=
         summary_header token_count tool_name (Z.of_nat (length chunks))
         +:+ Py.join (nl +:+ nl) (combine_summaries chunk_summaries) in
       if _count_tokens remote final_summary >? max_tokens
       then ret (_truncate_content_fallback remote final_summary max_tokens
                   tool_name (_count_tokens remote final_summary))
       else ret final_summary)
      (fun e =>
         ret (_truncate_content_fallback remote text max_tokens tool_name
                token_count)).
Proof. destruct content; intros H; try reflexivity. congruence. Qed.


(** C1, as amended.  Content whose estimated size exceeds both the budget
    and 1,000,000 tokens is refused with the [ValueError] of the hard
    limit, and no remote call is made: the state is unchanged. *)
Theorem summarize_over_cap_and_budget_raises
    (content : value) (max_tokens : Z) (tool_name : string) (st : State) :
  content <> VNone ->
  1000000 < _count_tokens remote (text_of_content rt content) ->
  max_tokens < _count_tokens remote (text_of_content rt content) ->
  _summarize_large_content rt remote content max_tokens tool_name st
    = (Raise (too_large_error tool_name
                (_count_tokens remote (text_of_content rt content))), st)
  /\ exn_type (too_large_error tool_name
                 (_count_tokens remote (text_of_content rt content)))
     = "ValueError".
Proof.
  intros Hnone Hcap Hbudget. split; [|reflexivity].
  rewrite summarize_unfold by assumption. cbv zeta.
  destruct (Z.leb_spec (_count_tokens remote (text_of_content rt content))
              max_tokens) as [Hle|_]; [lia|].
  destruct (Z.gtb_spec (_count_tokens remote (text_of_content rt content))
              1000000) as [_|Hle]; [reflexivity|lia].
Qed.

End OverflowManager.


(** C1 fails as stated: a text of 1,000,001 estimated tokens, bounded with a
    budget of 2,000,000 tokens, is returned unchanged and nothing is
    raised. *)
Lemma summarize_over_cap_within_budget_returns :
  1000000 < MCPClient._count_tokens
              (Stub.remote Stub.api_down (Some 1000001)) "a long document"
  /\ MCPClient._summarize_large_content (Stub.runtime Stub.no_json)
       (Stub.remote Stub.api_down (Some 1000001)) (VStr "a long document")
       2000000 "exa_search" Stub.client
     = (Return "a long document", Stub.client).
Proof. split; [vm_compute; reflexivity | reflexivity]. Qed.

(** C1 as amended, on the same text and the default budget of 50,000. *)
Lemma summarize_over_cap_and_budget_raises_witness :
  VStr "a long document" <> VNone
  /\ 1000000 < MCPClient._count_tokens
                 (Stub.remote Stub.api_down (Some 1000001)) "a long document"
  /\ 50000 < MCPClient._count_tokens
               (Stub.remote Stub.api_down (Some 1000001)) "a long document"
  /\ fst (MCPClient._summarize_large_content (Stub.runtime Stub.no_json)
            (Stub.remote Stub.api_down (Some 1000001)) (VStr "a long document")
            50000 "exa_search" Stub.client)
     = Raise (MCPClient.too_large_error "exa_search" 1000001).
Proof.
  assert (H1 : VStr "a long document" <> VNone) by discriminate.
  assert (H2 : 1000000 < MCPClient._count_tokens
                 (Stub.remote Stub.api_down (Some 1000001)) "a long document")
    by (vm_compute; reflexivity).
  assert (H3 : 50000 < MCPClient._count_tokens
                 (Stub.remote Stub.api_down (Some 1000001)) "a long document")
    by (vm_compute; reflexivity).
  split; [exact H1|]. split; [exact H2|]. split; [exact H3|].
  exact (f_equal fst
           (proj1 (summarize_over_cap_and_budget_raises
                     (Stub.runtime Stub.no_json)
                     (Stub.remote Stub.api_down (Some 1000001))
                     (VStr "a long document") 50000 "exa_search" Stub.client
                     H1 H2 H3))).
Defined.

(** ** Strings: prefixes and lengths *)

Section Strings.

Lemma app_cons (c : ascii) (s t : string) :
  String c s +:+ t = String c (s +:+ t).
Proof. reflexivity. Qed.

Lemma app_empty_r (s : string) : s +:+ "" = s.
Proof. induction s as [|c s IH]; [reflexivity|]. by rewrite app_cons, IH. Qed.

Lemma app_assoc_str (s t u : string) : (s +:+ t) +:+ u = s +:+ (t +:+ u).
Proof.
  induction s as [|c s IH]; [reflexivity|]. by rewrite !app_cons, IH.
Qed.

(** The first [n] characters of [s] are a prefix of [s]. *)
Lemma substring_0_prefix (n : nat) (s : string) :
  exists rest, s = String.substring 0 n s +:+ rest.
Proof.
  revert n. induction s as [|c s IH]; intros [|n]; simpl.
  - by exists "".
  - by exists "".
  - by exists (String c s).
  - destruct (IH n) as [rest Hrest]. exists rest.
    rewrite app_cons. by rewrite <- Hrest.
Qed.

Lemma length_substring_0 (n : nat) (s : string) :
  String.length (String.substring 0 n s) = Nat.min n (String.length s).
Proof.
  revert n. induction s as [|c s IH]; intros [|n]; simpl; try reflexivity.
  by rewrite IH.
Qed.

Lemma clamp_0 (n : Z) : Py.clamp n 0 = 0%nat.
Proof. unfold Py.clamp. simpl. destruct (Z.min_spec 0 n); lia. Qed.

Lemma slice_to_prefix (k : Z) (s : string) :
  exists rest, s = Py.slice_to k s +:+ rest.
Proof.
  unfold Py.slice_to, Py.slice. rewrite clamp_0, Nat.sub_0_r.
  apply substring_0_prefix.
Qed.

Lemma length_slice_to (k : Z) (s : string) :
  0 <= k ->
  Z.of_nat (String.length (Py.slice_to k s)) = Z.min k (Py.len s).
Proof.
  intros Hk. unfold Py.slice_to, Py.slice. rewrite clamp_0, Nat.sub_0_r.
  rewrite length_substring_0. unfold Py.clamp, Py.len.
  destruct (Z.ltb_spec k 0); lia.
Qed.

End Strings.

(** ** Fallback truncation *)

Section Truncation.
Import MCPClient.
Context (remote : Remote).

(** [int(n * 0.9)] *)
Lemma py_int_nine_tenths (n : Z) :
  py_int (inject_Z n * (9 # 10))%Q = Z.quot (n * 9) 10.
Proof. reflexivity. Qed.

Lemma shrink_loop_prefix (fuel : nat) (target : Z) (truncated : string) :
  exists rest, truncated = shrink_loop remote fuel target truncated +:+ rest.
Proof.
  revert truncated. induction fuel as [|fuel IH]; intros truncated; simpl.
  - exists "". by rewrite app_empty_r.
  - destruct (_ && _).
    + destruct (IH (Py.slice_to
                      (py_int (inject_Z (Py.len truncated) * (9 # 10))%Q)
                      truncated)) as [rest1 H1].
      destruct (slice_to_prefix
                  (py_int (inject_Z (Py.len truncated) * (9 # 10))%Q)
                  truncated) as [rest2 H2].
      exists (rest1 +:+ rest2).
      rewrite <- app_assoc_str, <- H1. exact H2.
    + exists "". by rewrite app_empty_r.
Qed.

(** The loop leaves by its own test: a fuel of the text's length is
    enough. *)
Lemma shrink_loop_exit (fuel : nat) (target : Z) (truncated : string) :
  (String.length truncated <= fuel)%nat ->
  _count_tokens remote (shrink_loop remote fuel target truncated) <= target
  \/ Py.len (shrink_loop remote fuel target truncated) <= 100.
Proof.
  revert truncated. induction fuel as [|fuel IH]; intros truncated Hlen; simpl.
  - right. unfold Py.len. lia.
  - destruct (Z.gtb_spec (_count_tokens remote truncated) target) as [Hc|Hc];
      [|left; simpl; lia].
    destruct (Z.gtb_spec (Py.len truncated) 100) as [Hl|Hl];
      [|right; simpl; lia].
    simpl. apply IH.
    rewrite py_int_nine_tenths.
    assert (Hq : 0 <= Z.quot (Py.len truncated * 9) 10 < Py.len truncated).
    { rewrite Z.quot_div_nonneg by lia. split.
      - apply Z.div_pos; lia.
      - apply Z.div_lt_upper_bound; lia. }
    pose proof (length_slice_to (Z.quot (Py.len truncated * 9) 10) truncated
                  (proj1 Hq)) as Hs.
    unfold Py.len in *. lia.
Qed.

(** C4, as amended.  Whatever the text, within budget or not, the
    fallback truncation returns a prefix of it followed by the truncation
    notice; the prefix kept is within the target token count or at most
    100 characters long. *)
Theorem truncate_fallback_appends_notice
    (text : string) (max_tokens : Z) (tool_name : string)
    (original_tokens : Z) :
  exists kept rest,
    text = kept +:+ rest
    /\ _truncate_content_fallback remote text max_tokens tool_name
         original_tokens
       = kept +:+ truncation_notice original_tokens tool_name max_tokens
    /\ (_count_tokens remote kept
          <= max_tokens
             - _count_tokens remote
                 (truncation_notice original_tokens tool_name max_tokens)
        \/ Py.len kept <= 100).
Proof.
  unfold _truncate_content_fallback. cbv zeta.
  set (notice := truncation_notice original_tokens tool_name max_tokens).
  set (target := max_tokens - _count_tokens remote notice).
  set (cut := Py.slice_to _ text).
  destruct (slice_to_prefix
              (py_int (inject_Z target
                       * (if original_tokens >? 0
                          then Py.len text # Z.to_pos original_tokens
                          else inject_Z 4))%Q) text) as [rest2 H2].
  fold cut in H2.
  destruct (shrink_loop_prefix (String.length cut) target cut) as [rest1 H1].
  exists (shrink_loop remote (String.length cut) target cut), (rest1 +:+ rest2).
  split; [|split].
  - rewrite <- app_assoc_str, <- H1. exact H2.
  - reflexivity.
  - apply shrink_loop_exit. lia.
Qed.

End Truncation.

(** C4 fails as stated: a text of two estimated tokens is within a budget
    of 100 tokens, and the fallback truncation returns it with the notice
    appended, not the same text. *)
Lemma truncate_fallback_not_idempotent :
  MCPClient._count_tokens (Stub.remote Stub.api_down None) "hello world" <= 100
  /\ MCPClient._truncate_content_fallback (Stub.remote Stub.api_down None)
       "hello world" 100 "exa_search" 2
     = "hello world" +:+ nl +:+ nl
       +:+ "[CONTENT TRUNCATED - Original: 2 tokens from exa_search, showing first 100 tokens]"
  /\ MCPClient._truncate_content_fallback (Stub.remote Stub.api_down None)
       "hello world" 100 "exa_search" 2
     <> "hello world".
Proof.
  split; [vm_compute; discriminate|]. split; [reflexivity|].
  vm_compute. discriminate.
Qed.

(** ** Chunk summaries *)

Section ChunkSummaries.
Import MCPClient.
Context (rt : PyRuntime) (remote : Remote).

Lemma summarize_chunk_run (summary_prompt chunk : string) (i : Z) (st : State) :
  summarize_chunk remote summary_prompt chunk i st
  = (Return (match messages_create remote (calls st)
                     (chunk_request remote summary_prompt chunk i) with
             | Return blocks => Py.strip (blocks_text blocks)
             | Raise _ =>
                 "[Chunk " +:+ Py.str_of_int (i + 1) +:+ " summarization failed]"
             end),
     record_call (ModelCall (chunk_request remote summary_prompt chunk i)) st).
Proof.
  unfold summarize_chunk, try_except, bind, anthropic_messages_create.
  destruct (messages_create remote (calls st) _); reflexivity.
Qed.

(** Every chunk task returns: the gathered results are the expected
    entries, none of them an exception. *)
Lemma gather_summaries (summary_prompt : string) (chunks : list string)
    (k : nat) (st : State) :
  fst (gather (imap (fun i chunk =>
                       summarize_chunk remote summary_prompt chunk
                         (Z.of_nat (k + i))) chunks) st)
  = Return (Return <$> expected_entries remote summary_prompt chunks
                         (Z.of_nat k) (calls st)).
Proof.
  revert k st. induction chunks as [|chunk chunks IH]; intros k st.
  - reflexivity.
  - rewrite imap_cons. cbn [gather expected_entries].
    rewrite Nat.add_0_r, summarize_chunk_run.
    unfold bind at 1.
    specialize (IH (S k) (record_call
                            (ModelCall (chunk_request remote summary_prompt
                                          chunk (Z.of_nat k))) st)).
    assert (Heq : imap ((fun i c => summarize_chunk remote summary_prompt c
                                      (Z.of_nat (k + i))) ∘ S) chunks
                  = imap (fun i c => summarize_chunk remote summary_prompt c
                                       (Z.of_nat (S k + i))) chunks).
    { apply imap_ext. intros i c _. simpl. do 2 f_equal. lia. }
    rewrite Heq.
    destruct (gather _ _) as [[rs|e] st'] eqn:Hg; simpl in IH |- *.
    + inversion IH; subst. cbn.
      replace (Z.of_nat k + 1) with (Z.of_nat (S k)) by lia. reflexivity.
    + discriminate.
Qed.

Lemma combine_summaries_returned (k : nat) (entries : list string) :
  imap (fun i summary =>
          match summary with
          | Raise _ =>
              "[Chunk " +:+ Py.str_of_int (Z.of_nat (k + i) + 1)
              +:+ " failed to summarize]"
          | Return s => s
          end) (Return <$> entries)
  = entries.
Proof.
  revert k. induction entries as [|entry entries IH]; intros k; [reflexivity|].
  rewrite fmap_cons, imap_cons. f_equal.
  rewrite <- (IH (S k)) at 2. apply imap_ext. intros i s _. simpl.
  destruct s; [reflexivity|]. do 3 f_equal. lia.
Qed.

(** C8, as amended.  Content over the budget and within the hard limit is
    chunked, and the call returns whatever chunks fail: the combined summary
    holds each answered chunk's summary and a placeholder naming each failed
    chunk, in chunk order, and is returned as it is when it fits the budget
    and through the fallback truncation when it does not.  A chunk result
    that is an exception gets its placeholder in the combining loop too. *)
Theorem summarize_survives_chunk_failures
    (content : value) (max_tokens : Z) (tool_name : string) (st : State) :
  content <> VNone ->
  max_tokens < _count_tokens remote (text_of_content rt content) ->
  _count_tokens remote (text_of_content rt content) <= 1000000 ->
  let text := text_of_content rt content in
  let chunks := split_chunks remote 100000 text in
  let final_summary :=
    summary_header (_count_tokens remote text) tool_name
      (Z.of_nat (length chunks))
    +:+ Py.join (nl +:+ nl)
          (expected_entries remote (summary_prompt_for tool_name) chunks 0
             (calls st)) in
  fst (_summarize_large_content rt remote content max_tokens tool_name st)
  = Return (if _count_tokens remote final_summary >? max_tokens
            then _truncate_content_fallback remote final_summary max_tokens
                   tool_name (_count_tokens remote final_summary)
            else final_summary)
  /\ forall (results : list (outcome string)) (i : nat),
       match results !! i with
       | Some (Raise _) =>
           combine_summaries results !! i
           = Some ("[Chunk " +:+ Py.str_of_int (Z.of_nat i + 1)
                   +:+ " failed to summarize]")
       | Some (Return summary) => combine_summaries results !! i = Some summary
       | None => combine_summaries results !! i = None
       end.
Proof.
  intros Hnone Hover Hcap text chunks final_summary. split.
  - rewrite summarize_unfold by assumption. cbv zeta. fold text.
    destruct (Z.leb_spec (_count_tokens remote text) max_tokens) as [Hle|_];
      [unfold text in Hle; lia|].
    destruct (Z.gtb_spec (_count_tokens remote text) 1000000) as [Hgt|_];
      [unfold text in Hgt; lia|].
    fold chunks. unfold try_except, bind.
    pose proof (gather_summaries (summary_prompt_for tool_name) chunks 0 st)
      as Hg.
    simpl in Hg.
    destruct (gather _ st) as [[rs|e] st'] eqn:Hrun; simpl in Hg;
      [|discriminate].
    inversion Hg; subst rs. clear Hg.
    unfold combine_summaries.
    rewrite (combine_summaries_returned 0).
    change (Z.of_nat 0) with 0. fold final_summary.
    destruct (_count_tokens remote final_summary >? max_tokens); reflexivity.
  - intros results i. unfold combine_summaries.
    rewrite list_lookup_imap.
    destruct (results !! i) as [[s|e]|]; reflexivity.
Qed.

End ChunkSummaries.

(** C8 as amended, on a text of 30 estimated tokens whose only chunk fails,
    with a budget of 25 tokens: the combined summary, placeholder included,
    fits and is returned. *)
Lemma summarize_survives_chunk_failures_witness :
  VStr Stub.report <> VNone
  /\ 25 < MCPClient._count_tokens (Stub.remote Stub.api_down None) Stub.report
  /\ MCPClient._count_tokens (Stub.remote Stub.api_down None) Stub.report
     <= 1000000
  /\ fst (MCPClient._summarize_large_content (Stub.runtime Stub.no_json)
            (Stub.remote Stub.api_down None) (VStr Stub.report) 25
            "exa_search" Stub.client)
     = Return ("[CONTENT SUMMARIZED - Original: 30 tokens from exa_search, 1 chunks]"
               +:+ nl +:+ nl +:+ "[Chunk 1 summarization failed]").
Proof.
  assert (H1 : VStr Stub.report <> VNone) by discriminate.
  assert (H2 : 25 < MCPClient._count_tokens (Stub.remote Stub.api_down None)
                      Stub.report)
    by (vm_compute; reflexivity).
  assert (H3 : MCPClient._count_tokens (Stub.remote Stub.api_down None)
                 Stub.report <= 1000000)
    by (vm_compute; discriminate).
  split; [exact H1|]. split; [exact H2|]. split; [exact H3|].
  exact (proj1 (summarize_survives_chunk_failures (Stub.runtime Stub.no_json)
                  (Stub.remote Stub.api_down None) (VStr Stub.report) 25
                  "exa_search" Stub.client H1 H2 H3)).
Defined.

(** C8 fails as stated: the only chunk of this text fails and the budget is
    five tokens; the call returns, but what it returns is the truncation of
    the combined summary, in which the placeholder of the failed chunk is
    gone. *)
Lemma summarize_failed_chunk_placeholder_truncated :
  fst (MCPClient._summarize_large_content (Stub.runtime Stub.no_json)
         (Stub.remote Stub.api_down None)
         (VStr "hello world, this is a long text") 5 "exa_search" Stub.client)
  = Return ("[CONTENT SUMMARIZED - Original: 8 toke" +:+ nl +:+ nl
            +:+ "[CONTENT TRUNCATED - Original: 24 tokens from exa_search, showing first 5 tokens]")
  /\ Py.contains "[Chunk 1"
       ("[CONTENT SUMMARIZED - Original: 8 toke" +:+ nl +:+ nl
        +:+ "[CONTENT TRUNCATED - Original: 24 tokens from exa_search, showing first 5 tokens]")
     = false.
Proof. split; vm_compute; reflexivity. Qed.

(** * Properties of the tool-calling session *)

Section Session.
Import MCPClient.
Context (rt : PyRuntime) (env : Settings) (remote : Remote).

Lemma foldl_append_text (texts : list string) (l : Locals) :
  aggregated_text_responses (foldl (fun l t => append_text t l) l texts)
  = aggregated_text_responses l ++ texts
  /\ all_tool_outputs (foldl (fun l t => append_text t l) l texts)
     = all_tool_outputs l
  /\ turn (foldl (fun l t => append_text t l) l texts) = turn l.
Proof.
  revert l. induction texts as [|t texts IH]; intros l; simpl.
  - by rewrite app_nil_r.
  - destruct (IH (append_text t l)) as (H1 & H2 & H3).
    rewrite H1, H2, H3. simpl. by rewrite <- app_assoc.
Qed.

(** The tool cache step returns, and leaves the session as it is. *)
Lemma ensure_tools_cached_returns (st : State) :
  fst (ensure_tools_cached remote st) = Return tt
  /\ session (snd (ensure_tools_cached remote st)) = session st.
Proof.
  unfold ensure_tools_cached, bind, gets.
  assert (H : fst (_cache_available_mcp_tools remote st) = Return tt
              /\ session (snd (_cache_available_mcp_tools remote st))
                 = session st).
  { unfold _cache_available_mcp_tools, bind, gets, try_except, modify,
      session_list_tools.
    destruct (session st) eqn:Hs; simpl; [|by rewrite Hs].
    destruct (list_tools remote (calls st)); simpl; by rewrite Hs. }
  destruct (_available_mcp_tools_cache st) as [[|tl tls]|]; try exact H.
  by split.
Qed.

(** A round whose reply holds no recognized tool request is the last one,
    whatever the turns left. *)
Lemma round_without_tool_requests (system_prompt : string) (t : Z)
    (l : Locals) (st : State) (blocks : list ContentBlock) :
  messages_create remote (calls st)
    (turn_request system_prompt (_available_mcp_tools_cache st) (set_turn t l))
  = Return blocks ->
  recognized_tool_calls (_available_mcp_tools_cache st) blocks = [] ->
  exists l',
    (forall remaining,
        interaction_turns rt env remote system_prompt (S remaining) t l st
        = (Return l',
           record_call
             (ModelCall (turn_request system_prompt
                           (_available_mcp_tools_cache st) (set_turn t l)))
             st))
    /\ turn l' = Some t
    /\ requested_mcp_tool_calls l' = Some []
    /\ all_tool_outputs l' = all_tool_outputs l
    /\ aggregated_text_responses l'
       = aggregated_text_responses l
         ++ match reply_texts blocks, aggregated_text_responses l with
            | [], [] => [no_output_this_turn]
            | texts, _ => texts
            end.
Proof.
  intros Hreply Hnone.
  set (l1 := foldl (fun l t => append_text t l)
               (append_message (AssistantMessage blocks) (set_turn t l))
               (reply_texts blocks)).
  destruct (foldl_append_text (reply_texts blocks)
              (append_message (AssistantMessage blocks) (set_turn t l)))
    as (Hagg & Hout & Hturn).
  fold l1 in Hagg, Hout, Hturn. simpl in Hagg, Hout, Hturn.
  exists (if negb (negb (bool_decide (reply_texts blocks = [])))
             && bool_decide (aggregated_text_responses
                               (set_requested [] l1) = [])
          then append_text no_output_this_turn (set_requested [] l1)
          else set_requested [] l1).
  split; [|].
  - intros remaining. cbn [interaction_turns].
    unfold bind at 1, gets at 1. unfold anthropic_messages_create.
    rewrite Hreply, Hnone. reflexivity.
  - simpl. rewrite Hagg.
    destruct (reply_texts blocks) as [|x xs] eqn:Htexts;
      destruct (aggregated_text_responses l) as [|y ys] eqn:Hl; simpl;
      rewrite ?Hout, ?Hturn, ?app_nil_r, ?Hl; auto.
Qed.

(** C10, as amended.  Any round whose reply holds no recognized tool
    request ends the session, whatever the turns left; and when that is the
    reply of the first turn, the session has made one model call and its
    aggregated result is the reply's text blocks joined by newlines and
    stripped, or a fixed notice when the reply has no text block or that
    text is empty; no tool output is returned. *)
Theorem session_ends_without_tool_requests (system_prompt : string) :
  (forall (t : Z) (l : Locals) (st : State) (blocks : list ContentBlock),
      messages_create remote (calls st)
        (turn_request system_prompt (_available_mcp_tools_cache st)
           (set_turn t l))
      = Return blocks ->
      recognized_tool_calls (_available_mcp_tools_cache st) blocks = [] ->
      exists l',
        forall remaining,
          interaction_turns rt env remote system_prompt (S remaining) t l st
          = (Return l',
             record_call
               (ModelCall (turn_request system_prompt
                             (_available_mcp_tools_cache st) (set_turn t l)))
               st))
  /\ (forall (user_messages : list Message) (id : string) (st : State)
            (blocks : list ContentBlock),
         session st = true ->
         1 <= MAX_LLM_INTERACTION_TURNS env ->
         let st1 := snd (ensure_tools_cached remote st) in
         let request :=
           turn_request system_prompt (_available_mcp_tools_cache st1)
             (set_turn 0 (initial_locals user_messages)) in
         messages_create remote (calls st1) request = Return blocks ->
         recognized_tool_calls (_available_mcp_tools_cache st1) blocks = [] ->
         execute_llm_interaction rt env remote system_prompt user_messages id st
         = (Return (first_reply_text (reply_texts blocks), ∅),
            record_call (ModelCall request) st1)).
Proof.
  split.
  - intros t l st blocks Hreply Hnone.
    destruct (round_without_tool_requests system_prompt t l st blocks
                Hreply Hnone) as (l' & Hrun & _).
    by exists l'.
  - intros user_messages id st blocks Hsession Hmax st1 request Hreply Hnone.
    destruct (round_without_tool_requests system_prompt 0
                (initial_locals user_messages) st1 blocks Hreply Hnone)
      as (l' & Hrun & Hturn & Hreq & Hout & Hagg).
    destruct (ensure_tools_cached_returns st) as [Hret Hsess].
    fold st1 in Hsess.
    unfold execute_llm_interaction.
    unfold bind at 1.
    destruct (ensure_tools_cached remote st) as [r st1'] eqn:Hens.
    simpl in Hret. subst r. simpl in st1. subst st1.
    unfold bind at 1, gets at 1. rewrite Hsess, Hsession.
    change (negb true) with false. cbv iota.
    destruct (Z.to_nat (MAX_LLM_INTERACTION_TURNS env)) as [|remaining] eqn:Hn;
      [lia|].
    unfold bind. rewrite Hrun. unfold lift. f_equal.
    unfold interaction_result. rewrite Hturn, Hreq, Hout.
    unfold first_reply_text. rewrite Hagg. simpl.
    assert (Hjoin :
      match reply_texts blocks with
      | [] => [no_output_this_turn]
      | _ :: _ => reply_texts blocks
      end
      = match reply_texts blocks with
        | [] => [no_output_this_turn]
        | t :: ts => t :: ts
        end) by (destruct (reply_texts blocks); reflexivity).
    rewrite <- Hjoin.
    rewrite (bool_decide_eq_true_2 (∅ = ∅)) by reflexivity.
    rewrite andb_true_r.
    set (final_text := Py.strip (Py.join nl _)).
    destruct (MAX_LLM_INTERACTION_TURNS env - 1);
      destruct (String.eqb final_text ""); reflexivity.
Qed.

End Session.

(** C10 as amended, on a model that answers the first turn with the single
    text block "All done.": one model call, and that text as the result. *)
Lemma session_ends_without_tool_requests_witness :
  MCPClient.session Stub.client = true
  /\ 1 <= MCPClient.MAX_LLM_INTERACTION_TURNS MCPClient.default_settings
  /\ MCPClient.recognized_tool_calls (Some [Stub.search_tool])
       [MCPClient.TextBlock "All done."] = []
  /\ MCPClient.execute_llm_interaction (Stub.runtime Stub.no_json)
       MCPClient.default_settings (Stub.remote (Stub.says "All done.") None)
       "system" [MCPClient.UserMessage (VStr "go")] "step_0" Stub.client
     = (Return ("All done.", ∅),
        MCPClient.record_call
          (MCPClient.ModelCall
             (MCPClient.turn_request "system" (Some [Stub.search_tool])
                (MCPClient.set_turn 0
                   (MCPClient.initial_locals
                      [MCPClient.UserMessage (VStr "go")]))))
          Stub.client).
Proof.
  assert (H1 : MCPClient.session Stub.client = true) by reflexivity.
  assert (H2 : 1 <= MCPClient.MAX_LLM_INTERACTION_TURNS
                      MCPClient.default_settings) by (simpl; lia).
  assert (H3 : MCPClient.recognized_tool_calls (Some [Stub.search_tool])
                 [MCPClient.TextBlock "All done."] = []) by reflexivity.
  split; [exact H1|]. split; [exact H2|]. split; [exact H3|].
  exact (proj2 (session_ends_without_tool_requests (Stub.runtime Stub.no_json)
                  MCPClient.default_settings
                  (Stub.remote (Stub.says "All done.") None) "system")
           [MCPClient.UserMessage (VStr "go")] "step_0" Stub.client
           [MCPClient.TextBlock "All done."] H1 H2 eq_refl H3).
Defined.

(** C10 fails as stated: a first reply of one empty text block ends the
    session after one model call, but the aggregated result is the fixed
    notice, not the model's text; and a text with blanks around it comes
    back stripped. *)
Lemma session_result_is_not_the_reply_text :
  MCPClient.execute_llm_interaction (Stub.runtime Stub.no_json)
    MCPClient.default_settings (Stub.remote (Stub.says "") None)
    "system" [MCPClient.UserMessage (VStr "go")] "step_0" Stub.client
  = (Return ("[LLM interaction produced no textual output and no tool outputs.]",
             ∅),
     MCPClient.record_call
       (MCPClient.ModelCall
          (MCPClient.turn_request "system" (Some [Stub.search_tool])
             (MCPClient.set_turn 0
                (MCPClient.initial_locals [MCPClient.UserMessage (VStr "go")]))))
       Stub.client)
  /\ fst (MCPClient.execute_llm_interaction (Stub.runtime Stub.no_json)
            MCPClient.default_settings
            (Stub.remote (Stub.says (" The answer is 4." +:+ nl)) None)
            "system" [MCPClient.UserMessage (VStr "go")] "step_0" Stub.client)
     = Return ("The answer is 4.", ∅).
Proof. split; reflexivity. Qed.

(** * Properties of the step engine *)

Section StepConfig.
Import AgentWorkflowRunner.
Context (agent : Agent).

(** C3, on the code.  The default [input_mapping] of a tool step is a dict;
    [get_step_config] substitutes in strings and in lists only, so at every
    ordinal the previous-ordinal placeholder of its value stays as it is. *)
Theorem tool_step_previous_placeholder_not_substituted
    (step_index : nat) (s : WorkflowStep) :
  workflow agent !! step_index = Some s ->
  type s = tool ->
  get_step_config agent step_index !! "input_mapping"
  = Some (VDict [("query", VStr "step_{prev_index}_result")]).
Proof.
  intros Hstep Htype. unfold get_step_config, workflow_steps.
  rewrite Hstep, Htype. simpl.
  rewrite lookup_insert_ne by discriminate.
  apply lookup_insert_eq.
Qed.

(** At ordinal 0 the items of a default list are not substituted at all:
    the current-ordinal placeholder of an output step stays as it is. *)
Lemma output_step_zero_placeholder_not_substituted (s : WorkflowStep) :
  workflow agent !! 0%nat = Some s ->
  type s = output ->
  get_step_config agent 0 !! "output_variables"
  = Some (VList [VStr "step_{index}_result"]).
Proof.
  intros Hstep Htype. unfold get_step_config, workflow_steps.
  rewrite Hstep, Htype. simpl.
  rewrite lookup_insert_ne by discriminate.
  apply lookup_insert_eq.
Qed.

(** At ordinal 0 an item of a default list that holds the previous-ordinal
    placeholder is dropped. *)
Lemma previous_placeholder_dropped_at_zero (items : list value) (s : string) :
  Py.contains "{prev_index}" s = true ->
  forall kept, substitute_default 0 (VList items) = VList kept ->
  VStr s ∉ kept.
Proof.
  intros Hs kept Hkept. simpl in Hkept. inversion Hkept; subst kept.
  clear Hkept. rewrite list_elem_of_In, in_map_iff.
  intros (item & Hitem & Hin).
  apply filter_In in Hin as [_ Hkeep].
  destruct item; try discriminate. inversion Hitem; subst.
  rewrite Hs in Hkeep. discriminate.
Qed.

End StepConfig.

(** Strings and list items are substituted at an ordinal above 0: the
    process step at ordinal 3 reads [step_2_result] and writes
    [step_3_result]. *)
Example process_step_placeholders_substituted :
  let config :=
    AgentWorkflowRunner.get_step_config
      (Stub.agent (replicate 4 (Stub.a_step process))) 3 in
  config !! "input_variables" = Some (VList [VStr "step_2_result"])
  /\ config !! "output_variable_name" = Some (VStr "step_3_result").
Proof. split; vm_compute; reflexivity. Qed.

(** C3 on the code, at ordinal 1 of a two-step workflow: the tool step's
    configuration still names [step_{prev_index}_result]. *)
Lemma tool_step_previous_placeholder_not_substituted_witness :
  workflow (Stub.agent [Stub.a_step input; Stub.a_step tool]) !! 1%nat
  = Some (Stub.a_step tool)
  /\ type (Stub.a_step tool) = tool
  /\ AgentWorkflowRunner.get_step_config
       (Stub.agent [Stub.a_step input; Stub.a_step tool]) 1
     !! "input_mapping"
     = Some (VDict [("query", VStr "step_{prev_index}_result")]).
Proof.
  split; [reflexivity|]. split; [reflexivity|].
  exact (tool_step_previous_placeholder_not_substituted
           (Stub.agent [Stub.a_step input; Stub.a_step tool]) 1
           (Stub.a_step tool) eq_refl eq_refl).
Defined.

Section Engine.
Import AgentWorkflowRunner.
Context (rt : PyRuntime) (env : Settings) (remote : MCPClient.Remote)
        (agent : Agent) (prompts : PromptTemplates).

Abbreviation steps := (workflow agent).

Lemma on_client_context {A} (m : SE MCPClient.State A) (st : State) :
  context (snd (on_client m st)) = context st.
Proof. unfold on_client. by destruct (m (mcp_client st)). Qed.

Lemma on_client_context_eq {A} (m : SE MCPClient.State A) (st st2 : State)
    (r : outcome A) :
  on_client m st = (r, st2) -> context st2 = context st.
Proof. intros H. by rewrite <- (on_client_context m st), H. Qed.

Lemma llm_step_context (s : WorkflowStep) (step_index : nat)
    (config : gmap string value) (id : string) (st : State) :
  context_kept_or_error step_index st
    (_execute_step_with_llm rt env remote agent prompts s step_index config
       id st).
Proof.
  unfold context_kept_or_error, _execute_step_with_llm.
  unfold bind at 1, gets at 1. unfold bind at 1, lift at 1.
  destruct (early_outputs s step_index config (context st))
    as [[outputs|]|e]; [by left| |reflexivity].
  assert (Hask : forall fc,
    match ask_model rt env remote agent prompts s step_index config id fc
            (context st) st with
    | (Return outputs, st2) =>
        context st2 = context st
        \/ exists msg,
             context st2
             = Context.set (step_key step_index "_error") msg (context st)
             /\ outputs !! step_key step_index "_error" = Some msg
    | (Raise _, st2) => context st2 = context st
    end).
  { intros fc. unfold ask_model.
    destruct (negb _); [reflexivity|].
    unfold try_except, bind.
    destruct (on_client _ st) as [[r|e] st2] eqn:Hon;
      apply on_client_context_eq in Hon.
    - unfold lift. destruct (outputs_of_reply _ _ _ _) as [outputs|e].
      + by left.
      + unfold modify, ret. simpl. right. eexists. split.
        * unfold with_context. simpl. by rewrite Hon.
        * apply lookup_singleton_eq.
    - unfold modify, ret. simpl. right. eexists. split.
      + unfold with_context. simpl. by rewrite Hon.
      + apply lookup_singleton_eq. }
  destruct (type s); try apply Hask.
  destruct (direct_transform _ _ _ _); [by left|apply Hask].
Qed.

Lemma tool_step_context (s : WorkflowStep) (step_index : nat)
    (config : gmap string value) (id : string) (st : State) :
  context_kept_or_error step_index st
    (_execute_tool_step rt remote s step_index config id st).
Proof.
  unfold context_kept_or_error, _execute_tool_step.
  unfold try_except, bind, gets, lift, raise, ret.
  repeat case_match; simplify_eq/=;
    repeat match goal with
      | H : on_client _ _ = _ |- _ => apply on_client_context_eq in H
      end;
    auto.
Qed.

(** A step in range returns, and leaves alone every variable that its
    outputs do not name. *)
Lemma execute_step_with_frame (config : gmap string value) (step_index : nat)
    (s : WorkflowStep) (id : string) (cs : Z) (st : State) :
  steps !! step_index = Some s ->
  exists outputs should_continue st',
    execute_step_with rt env remote agent prompts config step_index id cs st
    = (Return (outputs, should_continue), st')
    /\ forall var,
         outputs !! var = None ->
         variables (context st') !! var = variables (context st) !! var.
Proof.
  intros Hstep. unfold execute_step_with, workflow_steps. rewrite Hstep.
  unfold try_except, bind at 1.
  assert (Hbody :
    context_kept_or_error step_index st
      (dispatch_step rt env remote agent prompts s step_index config id st)).
  { unfold dispatch_step.
    destruct (type s); auto using llm_step_context, tool_step_context. }
  destruct (dispatch_step rt env remote agent prompts s step_index config id st)
    as [[outputs|e] st2]; simpl in Hbody.
  - unfold bind, modify, ret. do 3 eexists. split; [reflexivity|].
    intros var Hvar. simpl.
    rewrite lookup_union_r by exact Hvar.
    destruct Hbody as [Hc|(msg & Hc & Hmsg)]; rewrite Hc; [reflexivity|].
    simpl. apply lookup_insert_ne. intros <-. congruence.
  - unfold bind, modify, ret. do 3 eexists. split; [reflexivity|].
    intros var Hvar. simpl. rewrite Hbody.
    apply lookup_insert_ne. intros <-.
    rewrite lookup_insert_ne in Hvar.
    + by rewrite lookup_singleton_eq in Hvar.
    + unfold step_key. intros Heq.
      apply (inj (String.app "step_")) in Heq.
      apply (inj (String.app _)) in Heq. discriminate.
Qed.



End Engine.



(** ** The loop of the engine *)

Section Counters.
Import AgentWorkflowRunner.

Lemma kc_ret {A} (a : A) : keeps_counters (ret a).
Proof. by intros st. Qed.

Lemma kc_raise {A} (e : exn) : keeps_counters (raise e : SE State A).
Proof. by intros st. Qed.

Lemma kc_lift {A} (o : outcome A) : keeps_counters (lift o).
Proof. by intros st. Qed.

Lemma kc_gets {A} (f : State -> A) : keeps_counters (gets f).
Proof. by intros st. Qed.

Lemma kc_with_context (f : WorkflowContext -> WorkflowContext) :
  keeps_counters (modify (with_context f)).
Proof. by intros st. Qed.

Lemma kc_on_client {A} (m : SE MCPClient.State A) :
  keeps_counters (on_client m).
Proof. intros st. unfold on_client. by destruct (m (mcp_client st)). Qed.

Lemma kc_bind {A B} (m : SE State A) (k : A -> SE State B) :
  keeps_counters m -> (forall a, keeps_counters (k a)) ->
  keeps_counters (bind m k).
Proof.
  intros Hm Hk st. unfold bind. specialize (Hm st).
  destruct (m st) as [[a|e] st1]; simpl in Hm.
  - destruct (Hk a st1) as [H1 H2]. destruct Hm as [H3 H4].
    split; congruence.
  - exact Hm.
Qed.

Lemma kc_try_except {A} (m : SE State A) (h : exn -> SE State A) :
  keeps_counters m -> (forall e, keeps_counters (h e)) ->
  keeps_counters (try_except m h).
Proof.
  intros Hm Hh st. unfold try_except. specialize (Hm st).
  destruct (m st) as [[a|e] st1]; simpl in Hm.
  - exact Hm.
  - destruct (Hh e st1) as [H1 H2]. destruct Hm as [H3 H4].
    split; congruence.
Qed.

End Counters.

Ltac keeps_counters :=
  repeat first
    [ apply kc_ret | apply kc_raise | apply kc_lift | apply kc_gets
    | apply kc_with_context | apply kc_on_client
    | apply kc_bind; [|intros ?]
    | apply kc_try_except; [|intros ?]
    | match goal with
      | |- keeps_counters (match ?x with _ => _ end) => destruct x
      end ].

Section Loop.
Import AgentWorkflowRunner.
Context (rt : PyRuntime) (env : Settings) (remote : MCPClient.Remote)
        (agent : Agent) (prompts : PromptTemplates).

Abbreviation steps := (workflow agent).

Lemma dispatch_step_counters (s : WorkflowStep) (step_index : nat)
    (config : gmap string value) (id : string) :
  keeps_counters
    (dispatch_step rt env remote agent prompts s step_index config id).
Proof.
  unfold dispatch_step, _execute_tool_step, _execute_step_with_llm, ask_model.
  keeps_counters.
Qed.

Lemma execute_step_with_counters (config : gmap string value)
    (step_index : nat) (id : string) (cs : Z) :
  keeps_counters
    (execute_step_with rt env remote agent prompts config step_index id cs).
Proof.
  unfold execute_step_with.
  destruct (workflow_steps agent !! step_index); [|apply kc_raise].
  apply kc_try_except; [|intros ?; keeps_counters].
  apply kc_bind; [apply dispatch_step_counters|intros ?]. keeps_counters.
Qed.

Lemma workflow_loop_stopped (config_of : nat -> gmap string value)
    (fuel : nat) (id : string) (i : nat) (fo : gmap string value) (st : State) :
  workflow_loop rt env remote agent prompts config_of fuel id i false fo st
  = (Return (i, false, fo), st).
Proof.
  destruct fuel; [reflexivity|]. simpl. unfold bind, gets.
  by destruct (workflow_steps agent !! i).
Qed.


(** One round of the loop. *)
Lemma workflow_loop_round (config_of : nat -> gmap string value)
    (fuel : nat) (id : string) (i : nat) (s : WorkflowStep)
    (fo outputs : gmap string value) (continue : bool) (st st1 : State) :
  steps !! i = Some s ->
  current_step st < MAX_WORKFLOW_STEPS env ->
  execute_step_with rt env remote agent prompts (config_of i) i id
    (current_step st + 1) (begin_step i st)
  = (Return (outputs, continue), st1) ->
  workflow_loop rt env remote agent prompts config_of (S fuel) id i true fo st
  = workflow_loop rt env remote agent prompts config_of fuel id (S i) continue
      (collect_outputs rt s outputs fo) st1.
Proof.
  intros Hstep Hmax Hrun. simpl. unfold bind at 1, gets at 1.
  unfold workflow_steps. rewrite Hstep.
  destruct (Z.ltb_spec (current_step st) (MAX_WORKFLOW_STEPS env)); [|lia].
  simpl. unfold bind at 1, modify at 1. unfold bind at 1.
  by rewrite Hrun.
Qed.

(** What follows the loop returns, with the state of [classify]. *)
Lemma after_loop_run (id : string) (i : nat) (c : bool)
    (fo : gmap string value) (st : State) :
  exists result record st',
    after_loop env agent id (i, c, fo) st = (Return (result, record), st')
    /\ workflow_final_status result = fst (fst (classify env agent i c (current_step st)))
    /\ state record = workflow_final_status result
    /\ result_final_outputs result = fo
    /\ variables (context st') !! "workflow_status_detail"
       = Some (VStr (snd (classify env agent i c (current_step st))))
    /\ (forall var, var <> "workflow_status_detail" ->
                    variables (context st') !! var = variables (context st) !! var)
    /\ current_step st' = current_step st
    /\ executed_steps st' = executed_steps st
    /\ mcp_client st' = mcp_client st.
Proof.
  unfold after_loop, bind, gets, modify, ret.
  destruct (classify env agent i c (current_step st)) as [[status msg] detail].
  do 3 eexists. split; [reflexivity|]. simpl.
  repeat split; try reflexivity.
  - apply lookup_insert_eq.
  - intros var Hvar. by apply lookup_insert_ne.
Qed.

Lemma finalize_completed_or_failed (r : AgentExecution) :
  (state r = completed \/ state r = failed) ->
  state (finalize r) = state r /\ completed_at (finalize r) = true.
Proof. intros [H|H]; unfold finalize; rewrite H; by split. Qed.

(** The loop returns, and leaves by its own test: a fuel of the number of
    steps left is enough. *)
Lemma workflow_loop_fuel (config_of : nat -> gmap string value)
    (fuel : nat) (id : string) (i : nat) (c : bool) (fo : gmap string value)
    (st : State) :
  (length steps <= i + fuel)%nat ->
  exists i' c' fo' st',
    workflow_loop rt env remote agent prompts config_of fuel id i c fo st
    = (Return (i', c', fo'), st')
    /\ ((length steps <= i')%nat \/ c' = false
        \/ MAX_WORKFLOW_STEPS env <= current_step st').
Proof.
  revert i c fo st. induction fuel as [|fuel IH]; intros i c fo st Hfuel.
  - exists i, c, fo, st. split; [reflexivity|]. left. lia.
  - simpl. unfold bind at 1, gets at 1.
    destruct (workflow_steps agent !! i) as [s|] eqn:Hstep.
    + destruct c; simpl.
      * destruct (Z.ltb_spec (current_step st) (MAX_WORKFLOW_STEPS env)).
        -- unfold bind at 1, modify at 1. unfold bind at 1.
           destruct (execute_step_with_frame rt env remote agent prompts
                       (config_of i) i s id (current_step st + 1)
                       (begin_step i st) Hstep)
             as (outputs & continue & st1 & Hrun & _).
           rewrite Hrun. apply IH. lia.
        -- exists i, true, fo, st. split; [reflexivity|]. right. right. lia.
      * exists i, false, fo, st. split; [reflexivity|]. right. by left.
    + exists i, c, fo, st. split; [reflexivity|]. left.
      by apply lookup_ge_None in Hstep.
Qed.

(** ** Decision steps *)

Lemma is_empty_str (text : string) :
  is_empty (VStr text) = String.eqb (Py.strip text) "".
Proof.
  simpl. destruct (String.eqb_spec text "") as [->|_]; reflexivity.
Qed.

Lemma step_key_inj (i : nat) (a b : string) :
  step_key i a = step_key i b -> a = b.
Proof.
  unfold step_key. intros H.
  apply (inj (String.app "step_")) in H.
  by apply (inj (String.app _)) in H.
Qed.

Lemma direct_decision_not_empty (i : nat) (config : gmap string value)
    (c : WorkflowContext) (x text : string) :
  config_get config "condition" (VStr "not_empty:step_result")
  = VStr ("not_empty:" +:+ x) ->
  Py.split ":" x = [x] ->
  variables c !! x = Some (VStr text) ->
  exists explanation,
    direct_decision i config c
    = Some (<[step_key i "_explanation" := VStr explanation]>
              (<[step_key i "_condition_result" :=
                   VBool (negb (String.eqb (Py.strip text) ""))]> ∅)).
Proof.
  intros Hcfg Hsplit Hx. unfold direct_decision. rewrite Hcfg.
  change (Py.split ":" ("not_empty:" +:+ x))
    with ("not_empty" :: Py.split ":" x).
  rewrite Hsplit. unfold Context.get. rewrite Hx.
  change (String.eqb "not_empty" "not_empty") with true.
  change (default VNone (Some (VStr text))) with (VStr text).
  cbn [is_none negb andb]. rewrite is_empty_str.
  eexists. reflexivity.
Qed.

(** C6, as amended.  A decision step with the condition [not_empty:x], on a
    context that binds [x] to a string, is evaluated without the model: the
    client is not touched.  It continues exactly when the string is not
    blank (empty or white space only).  When it is blank the loop stops
    there, and the run ends completed, unless this step was the last one
    the ceiling allows and steps remain: then it ends failed. *)
Theorem decision_not_empty_evaluated_directly
    (config_of : nat -> gmap string value) (i : nat) (s : WorkflowStep)
    (id : string) (st : State) (x text : string) (fuel : nat)
    (fo : gmap string value) :
  steps !! i = Some s ->
  type s = decision ->
  config_get (config_of i) "condition" (VStr "not_empty:step_result")
  = VStr ("not_empty:" +:+ x) ->
  Py.split ":" x = [x] ->
  variables (context st) !! x = Some (VStr text) ->
  current_step st < MAX_WORKFLOW_STEPS env ->
  let blank := String.eqb (Py.strip text) "" in
  exists outputs st',
    execute_step_with rt env remote agent prompts (config_of i) i id
      (current_step st + 1) (begin_step i st)
    = (Return (outputs, negb blank), st')
    /\ mcp_client st' = mcp_client st
    /\ (blank = true ->
        exists result record st'',
          (l <- workflow_loop rt env remote agent prompts config_of (S fuel)
                  id i true fo ;;
           after_loop env agent id l) st
          = (Return (result, record), st'')
          /\ mcp_client st'' = mcp_client st
          /\ workflow_final_status result
             = (if (current_step st + 1 >=? MAX_WORKFLOW_STEPS env)
                   && (S i <? length steps)%nat
                then failed else completed)
          /\ state (finalize record) = workflow_final_status result
          /\ completed_at (finalize record) = true).
Proof.
  intros Hstep Htype Hcfg Hsplit Hx Hmax blank.
  destruct (direct_decision_not_empty i (config_of i)
              (context (begin_step i st)) x text Hcfg Hsplit Hx)
    as [explanation Hdirect].
  set (outputs := <[step_key i "_explanation" := VStr explanation]>
                    (<[step_key i "_condition_result" :=
                         VBool (negb blank)]> (∅ : gmap string value))).
  set (st' := with_context (Context.track_step_output i outputs)
                (begin_step i st)).
  assert (Hrun :
    execute_step_with rt env remote agent prompts (config_of i) i id
      (current_step st + 1) (begin_step i st)
    = (Return (outputs, negb blank), st')).
  { unfold execute_step_with, workflow_steps. rewrite Hstep.
    unfold dispatch_step, _execute_step_with_llm, early_outputs.
    rewrite Htype. unfold try_except, bind, gets, lift, modify, ret.
    rewrite Hdirect. fold blank. fold outputs.
    assert (Hlookup : outputs !! step_key i "_condition_result"
                      = Some (VBool (negb blank))).
    { unfold outputs. rewrite lookup_insert_ne.
      - apply lookup_insert_eq.
      - intros Heq. apply step_key_inj in Heq. discriminate. }
    rewrite Hlookup. reflexivity. }
  exists outputs, st'. split; [exact Hrun|]. split; [reflexivity|].
  intros Hblank. rewrite Hblank in Hrun. simpl in Hrun.
  destruct (after_loop_run id (S i) false (collect_outputs rt s outputs fo) st')
    as (result & record & st'' & Hafter & Hstatus & Hstate & _ & _ & _ & _ & _
        & Hclient).
  exists result, record, st''. split; [|split; [|split; [|]]].
  - unfold bind at 1.
    rewrite (workflow_loop_round config_of fuel id i s fo outputs false st st'
               Hstep Hmax Hrun).
    rewrite workflow_loop_stopped. exact Hafter.
  - rewrite Hclient. reflexivity.
  - rewrite Hstatus. unfold classify. simpl.
    destruct (_ && _); reflexivity.
  - assert (Hfin : state record = completed \/ state record = failed).
    { rewrite Hstate, Hstatus. unfold classify. simpl.
      destruct (_ && _); auto. }
    destruct (finalize_completed_or_failed record Hfin) as [H1 H2].
    split; [congruence|exact H2].
Qed.

(** ** A step that raises *)

(** C2, on the code.  When the strategy of a step raises, [execute_step]
    catches the exception, records [step_<ordinal>_error] in the context and
    returns [False] for the continue flag; the loop stops there, the code
    after it runs and the finalizer stamps the record.  But the state the
    run ends in is completed, with the detail of a decision-driven stop,
    not failed; it is failed only when this step was the last one the
    ceiling allows and steps remain. *)
Theorem raising_step_ends_run_completed
    (config_of : nat -> gmap string value) (i : nat) (s : WorkflowStep)
    (id : string) (st st2 : State) (e : exn) (fuel : nat)
    (fo : gmap string value) :
  steps !! i = Some s ->
  current_step st < MAX_WORKFLOW_STEPS env ->
  dispatch_step rt env remote agent prompts s i (config_of i) id
    (begin_step i st)
  = (Raise e, st2) ->
  let at_ceiling :=
    (current_step st + 1 >=? MAX_WORKFLOW_STEPS env)
    && (S i <? length steps)%nat in
  exists outputs st3 result record st4,
    execute_step_with rt env remote agent prompts (config_of i) i id
      (current_step st + 1) (begin_step i st)
    = (Return (outputs, false), st3)
    /\ is_Some (variables (context st3) !! step_key i "_error")
    /\ (l <- workflow_loop rt env remote agent prompts config_of (S fuel)
                id i true fo ;;
         after_loop env agent id l) st
        = (Return (result, record), st4)
    /\ current_step st4 = current_step st + 1
    /\ workflow_final_status result
       = (if at_ceiling then failed else completed)
    /\ variables (context st4) !! "workflow_status_detail"
       = Some (VStr (if at_ceiling then "terminated_max_steps"
                     else "completed_stopped_by_decision"))
    /\ state (finalize record) = (if at_ceiling then failed else completed)
    /\ completed_at (finalize record) = true.
Proof.
  intros Hstep Hmax Hraise at_ceiling.
  set (error_msg :=
         "Error executing step " +:+ Py.str_of_int (Z.of_nat i)
         +:+ " '" +:+ step s +:+ "' (Step: "
         +:+ Py.str_of_int (current_step st + 1) +:+ "): " +:+ exn_msg e).
  set (outputs :=
         <[step_key i "_exception_type" := VStr (exn_type e)]>
           ({[ step_key i "_error" := VStr error_msg ]} : gmap string value)).
  set (st3 := with_context (Context.set (step_key i "_error") (VStr error_msg))
                st2).
  assert (Hrun :
    execute_step_with rt env remote agent prompts (config_of i) i id
      (current_step st + 1) (begin_step i st)
    = (Return (outputs, false), st3)).
  { unfold execute_step_with, workflow_steps. rewrite Hstep.
    unfold try_except, bind at 1. rewrite Hraise. reflexivity. }
  destruct (execute_step_with_counters (config_of i) i id
              (current_step st + 1) (begin_step i st)) as [Hcs _].
  rewrite Hrun in Hcs.
  change (current_step st3 = current_step st + 1) in Hcs.
  destruct (after_loop_run id (S i) false (collect_outputs rt s outputs fo) st3)
    as (result & record & st4 & Hafter & Hstatus & Hstate & _ & Hdetail & _
        & Hcs4 & _ & _).
  assert (Hclass :
    classify env agent (S i) false (current_step st3)
    = (if at_ceiling then failed else completed,
       if at_ceiling
       then Some ("Reached maximum workflow steps ("
                  +:+ Py.str_of_int (MAX_WORKFLOW_STEPS env)
                  +:+ "). Terminating.")
       else None,
       if at_ceiling then "terminated_max_steps"
       else "completed_stopped_by_decision")).
  { unfold classify, at_ceiling, workflow_steps. rewrite Hcs.
    destruct (_ && _); reflexivity. }
  rewrite Hclass in Hstatus, Hdetail. simpl in Hstatus, Hdetail.
  exists outputs, st3, result, record, st4.
  split; [exact Hrun|]. split.
  { unfold st3. simpl. rewrite lookup_insert_eq. eauto. }
  split.
  { unfold bind at 1.
    rewrite (workflow_loop_round config_of fuel id i s fo outputs false st st3
               Hstep Hmax Hrun).
    rewrite workflow_loop_stopped. exact Hafter. }
  split; [congruence|]. split; [exact Hstatus|]. split; [exact Hdetail|].
  assert (Hfin : state record = completed \/ state record = failed).
  { rewrite Hstate, Hstatus. destruct at_ceiling; auto. }
  destruct (finalize_completed_or_failed record Hfin) as [H1 H2].
  split; [congruence|exact H2].
Qed.

(** ** The iteration ceiling *)

Lemma run_steps_nonempty (config_of : nat -> gmap string value) (id : string) :
  steps <> [] ->
  run_steps rt env remote agent prompts config_of id
  = (modify (fun st =>
               {| context := context st; executed_steps := ∅;
                  current_step := 0; mcp_client := mcp_client st |}) ;;;
     l <- workflow_loop rt env remote agent prompts config_of (length steps)
            id 0 true ∅ ;;
     after_loop env agent id l).
Proof.
  intros Hne. unfold run_steps, workflow_steps.
  by destruct (workflow agent).
Qed.

Section Ceiling.
Context (config_of : nat -> gmap string value) (id : string).
Hypothesis no_step_stops :
  forall i cs st,
    (i < length steps)%nat ->
    exists outputs st',
      execute_step_with rt env remote agent prompts (config_of i) i id cs st
      = (Return (outputs, true), st').



End Ceiling.


(** ** Steps that always continue *)

Lemma substitute_default_serializable (i : nat) (v : value) :
  json_serializable v = true ->
  json_serializable (substitute_default i v) = true.
Proof.
  destruct v as [| | | |items| |]; try (by intros); simpl.
  intros Hitems. induction items as [|item items IH]; [reflexivity|].
  simpl in Hitems. apply andb_true_iff in Hitems as [Hitem Hitems].
  simpl. destruct (negb _); [|by apply IH].
  simpl. rewrite (IH Hitems), andb_true_r.
  destruct item; try exact Hitem. by destruct (0 <? Z.of_nat i).
Qed.

Lemma get_step_config_serializable (i : nat) :
  map_Forall (fun _ v => json_serializable v = true) (get_step_config agent i).
Proof.
  unfold get_step_config. destruct (workflow_steps agent !! i) as [s|];
    [|apply map_Forall_empty].
  assert (Hdefaults :
    Forall (fun kv => json_serializable (snd kv) = true) (STEP_DEFAULTS (type s))).
  { destruct (type s); repeat constructor. }
  assert (Hbase :
    map_Forall (fun _ v => json_serializable v = true)
      ({[ "step" := VStr (step s); "description" := VStr (description s);
          "type" := VStr (type_name (type s)) ]} : gmap string value)).
  { repeat apply map_Forall_insert_2; try reflexivity.
    apply map_Forall_empty. }
  revert Hbase. generalize ({[ "step" := VStr (step s);
                               "description" := VStr (description s);
                               "type" := VStr (type_name (type s)) ]}
                            : gmap string value).
  induction Hdefaults as [|kv defaults Hkv _ IH]; intros base Hbase;
    [exact Hbase|].
  simpl. apply IH. apply map_Forall_insert_2; [|exact Hbase].
  by apply substitute_default_serializable.
Qed.


End Loop.

(** C6 as amended, on a two-step workflow whose first step is a decision
    step, run on a context that binds [step_result] to the empty string. *)
Lemma decision_not_empty_evaluated_directly_witness :
  let agent := Stub.agent [Stub.a_step decision; Stub.a_step process] in
  let st := Stub.runner {[ "step_result" := VStr "" ]} in
  workflow agent !! 0%nat = Some (Stub.a_step decision)
  /\ Py.split ":" "step_result" = ["step_result"]
  /\ variables (AgentWorkflowRunner.context st) !! "step_result"
     = Some (VStr "")
  /\ AgentWorkflowRunner.current_step st
     < AgentWorkflowRunner.MAX_WORKFLOW_STEPS
         AgentWorkflowRunner.default_settings
  /\ exists result record st'',
       (l <- AgentWorkflowRunner.workflow_loop (Stub.runtime Stub.no_json)
               AgentWorkflowRunner.default_settings
               (Stub.remote Stub.api_down None) agent Stub.prompts
               (AgentWorkflowRunner.get_step_config agent) 2 "run-1" 0 true ∅ ;;
        AgentWorkflowRunner.after_loop AgentWorkflowRunner.default_settings
          agent "run-1" l) st
       = (Return (result, record), st'')
       /\ AgentWorkflowRunner.mcp_client st''
          = AgentWorkflowRunner.mcp_client st
       /\ AgentWorkflowRunner.workflow_final_status result = completed.
Proof.
  intros agent st.
  assert (H1 : workflow agent !! 0%nat = Some (Stub.a_step decision))
    by reflexivity.
  assert (H2 : type (Stub.a_step decision) = decision) by reflexivity.
  assert (H3 : AgentWorkflowRunner.config_get
                 (AgentWorkflowRunner.get_step_config agent 0) "condition"
                 (VStr "not_empty:step_result")
               = VStr ("not_empty:" +:+ "step_result")) by reflexivity.
  assert (H4 : Py.split ":" "step_result" = ["step_result"]) by reflexivity.
  assert (H5 : variables (AgentWorkflowRunner.context st) !! "step_result"
               = Some (VStr "")) by reflexivity.
  assert (H6 : AgentWorkflowRunner.current_step st
               < AgentWorkflowRunner.MAX_WORKFLOW_STEPS
                   AgentWorkflowRunner.default_settings)
    by (vm_compute; reflexivity).
  split; [exact H1|]. split; [exact H4|]. split; [exact H5|].
  split; [exact H6|].
  destruct (decision_not_empty_evaluated_directly (Stub.runtime Stub.no_json)
              AgentWorkflowRunner.default_settings
              (Stub.remote Stub.api_down None) agent Stub.prompts
              (AgentWorkflowRunner.get_step_config agent) 0
              (Stub.a_step decision) "run-1" st "step_result" "" 1 ∅
              H1 H2 H3 H4 H5 H6)
    as (outputs & st' & _ & _ & Hblank).
  destruct (Hblank eq_refl)
    as (result & record & st'' & Hrun & Hclient & Hstatus & _).
  exists result, record, st''. split; [exact Hrun|]. split; [exact Hclient|].
  exact Hstatus.
Defined.

(** C6 fails as stated, twice.  A string of one space is a non-empty
    string, yet the direct evaluation finds it empty and clears the continue
    flag.  And when the decision step that stops the run is the twentieth
    step executed of twenty-one, the run ends failed, not completed. *)
Lemma decision_stops_on_blank_and_fails_at_ceiling :
  (VStr " " <> VStr ""
   /\ (let '(r, _) :=
         AgentWorkflowRunner.execute_step (Stub.runtime Stub.no_json)
           AgentWorkflowRunner.default_settings (Stub.remote Stub.api_down None)
           (Stub.agent [Stub.a_step decision; Stub.a_step process])
           Stub.prompts 0 "run-1" 1
           (Stub.runner {[ "step_result" := VStr " " ]}) in
       match r with
       | Return (_, should_continue) => should_continue
       | Raise _ => true
       end) = false)
  /\ (let '(result, record, st') :=
        AgentWorkflowRunner.execute_workflow (Stub.runtime Stub.no_json)
          AgentWorkflowRunner.default_settings
          (Stub.remote (Stub.says "ok") None)
          (Stub.agent (replicate 19 (Stub.a_step process)
                       ++ [Stub.a_step decision; Stub.a_step process]))
          Stub.prompts (Some {[ "step_result" := VStr "" ]}) "run-1"
          (Stub.runner ∅) in
      (AgentWorkflowRunner.workflow_final_status result, state record,
       AgentWorkflowRunner.current_step st',
       variables (AgentWorkflowRunner.context st')
         !! "step_19_condition_result"))
     = (failed, failed, 20, Some (VBool false)).
Proof.
  split; [split; [discriminate|vm_compute; reflexivity]|].
  vm_compute. reflexivity.
Qed.

(** C2 on the code, at a failing input: the first step is a tool step, and
    the variable its input mapping names is bound to an object that is not
    JSON serializable, so the step raises [TypeError]. *)
Lemma raising_step_ends_run_completed_witness :
  let agent := Stub.agent [Stub.a_step tool; Stub.a_step process] in
  let st :=
    Stub.runner {[ "step_{prev_index}_result" := VObj [] "<TextContent>" ]} in
  workflow agent !! 0%nat = Some (Stub.a_step tool)
  /\ AgentWorkflowRunner.current_step st
     < AgentWorkflowRunner.MAX_WORKFLOW_STEPS
         AgentWorkflowRunner.default_settings
  /\ AgentWorkflowRunner.dispatch_step (Stub.runtime Stub.no_json)
       AgentWorkflowRunner.default_settings (Stub.remote (Stub.says "ok") None)
       agent Stub.prompts (Stub.a_step tool) 0
       (AgentWorkflowRunner.get_step_config agent 0) "run-1"
       (AgentWorkflowRunner.begin_step 0 st)
     = (Raise (Exn "TypeError" "Object is not JSON serializable"),
        AgentWorkflowRunner.begin_step 0 st)
  /\ exists result record st4,
       (l <- AgentWorkflowRunner.workflow_loop (Stub.runtime Stub.no_json)
               AgentWorkflowRunner.default_settings
               (Stub.remote (Stub.says "ok") None) agent Stub.prompts
               (AgentWorkflowRunner.get_step_config agent) 2 "run-1" 0 true ∅ ;;
        AgentWorkflowRunner.after_loop AgentWorkflowRunner.default_settings
          agent "run-1" l) st
       = (Return (result, record), st4)
       /\ AgentWorkflowRunner.current_step st4 = 1
       /\ AgentWorkflowRunner.workflow_final_status result = completed
       /\ variables (AgentWorkflowRunner.context st4) !! "workflow_status_detail"
          = Some (VStr "completed_stopped_by_decision")
       /\ state (AgentWorkflowRunner.finalize record) = completed.
Proof.
  intros agent st.
  assert (H1 : workflow agent !! 0%nat = Some (Stub.a_step tool))
    by reflexivity.
  assert (H2 : AgentWorkflowRunner.current_step st
               < AgentWorkflowRunner.MAX_WORKFLOW_STEPS
                   AgentWorkflowRunner.default_settings)
    by (vm_compute; reflexivity).
  assert (H3 : AgentWorkflowRunner.dispatch_step (Stub.runtime Stub.no_json)
                 AgentWorkflowRunner.default_settings
                 (Stub.remote (Stub.says "ok") None)
                 agent Stub.prompts (Stub.a_step tool) 0
                 (AgentWorkflowRunner.get_step_config agent 0) "run-1"
                 (AgentWorkflowRunner.begin_step 0 st)
               = (Raise (Exn "TypeError" "Object is not JSON serializable"),
                  AgentWorkflowRunner.begin_step 0 st))
    by (vm_compute; reflexivity).
  split; [exact H1|]. split; [exact H2|]. split; [exact H3|].
  destruct (raising_step_ends_run_completed (Stub.runtime Stub.no_json)
              AgentWorkflowRunner.default_settings
              (Stub.remote (Stub.says "ok") None) agent Stub.prompts
              (AgentWorkflowRunner.get_step_config agent) 0 (Stub.a_step tool)
              "run-1" st (AgentWorkflowRunner.begin_step 0 st)
              (Exn "TypeError" "Object is not JSON serializable") 1 ∅
              H1 H2 H3)
    as (outputs & st3 & result & record & st4 & _ & _ & Hrun & Hcs & Hstatus
        & Hdetail & Hstate & _).
  exists result, record, st4. split; [exact Hrun|].
  split; [exact Hcs|]. split; [exact Hstatus|]. split; [exact Hdetail|].
  exact Hstate.
Defined.

(** The same run through [execute_workflow]: the step's error is in the
    context, the second step is not executed (one step taken), and the run
    is reported completed. *)
Lemma raising_step_run_reported_completed :
  let '(result, record, st') :=
    AgentWorkflowRunner.execute_workflow (Stub.runtime Stub.no_json)
      AgentWorkflowRunner.default_settings (Stub.remote (Stub.says "ok") None)
      (Stub.agent [Stub.a_step tool; Stub.a_step process]) Stub.prompts
      (Some {[ "step_{prev_index}_result" := VObj [] "<TextContent>" ]})
      "run-1" (Stub.runner ∅) in
  (AgentWorkflowRunner.workflow_final_status result, state record, completed_at record,
   AgentWorkflowRunner.current_step st',
   variables (AgentWorkflowRunner.context st') !! "workflow_status_detail",
   variables (AgentWorkflowRunner.context st') !! "step_0_error")
  = (completed, completed, true, 1,
     Some (VStr "completed_stopped_by_decision"),
     Some (VStr "Error executing step 0 'Step' (Step: 1): Object is not JSON serializable")).
Proof. vm_compute. reflexivity. Qed.


(** * Further properties of the client *)

(** An induction principle for [value] that reaches the values nested in
    lists, dicts and objects. *)
Lemma value_nested_ind (P : value -> Prop) :
  P VNone -> (forall b, P (VBool b)) -> (forall n, P (VInt n)) ->
  (forall s, P (VStr s)) ->
  (forall l, Forall P l -> P (VList l)) ->
  (forall d, Forall (fun kv => P (snd kv)) d -> P (VDict d)) ->
  (forall attrs display,
      Forall (fun kv => P (snd kv)) attrs -> P (VObj attrs display)) ->
  forall v, P v.
Proof.
  intros HNone HBool HInt HStr HList HDict HObj. fix IH 1.
  intros [|b|n|s|l|d|attrs display].
  - exact HNone.
  - apply HBool.
  - apply HInt.
  - apply HStr.
  - apply HList. revert l. fix IHl 1.
    intros [|x l]; constructor; [apply IH|apply IHl].
  - apply HDict. revert d. fix IHd 1.
    intros [|[k x] d]; constructor; [apply IH|apply IHd].
  - apply HObj. revert attrs. fix IHd 1.
    intros [|[k x] d]; constructor; [apply IH|apply IHd].
Qed.

Section Serialization.
Import MCPClient.

Lemma safe_serialize_text_attr (attrs : list (string * value))
    (display : string) :
  Forall (fun kv => json_serializable (_safe_serialize (snd kv)) = true) attrs ->
  json_serializable (_safe_serialize (VObj attrs display)) = true.
Proof.
  intros Hattrs. simpl.
  induction Hattrs as [|kv attrs Hkv _ IH]; [reflexivity|].
  destruct (String.eqb (fst kv) "text"); [exact Hkv|exact IH].
Qed.

Lemma safe_serialize_serializable (v : value) :
  json_serializable (_safe_serialize v) = true.
Proof.
  induction v as [| | | |l IH|d IH|attrs display IH] using value_nested_ind;
    try reflexivity.
  - simpl. induction IH as [|x l Hx _ IHl]; [reflexivity|].
    simpl. by rewrite Hx, IHl.
  - simpl. induction IH as [|kv d Hkv _ IHd]; [reflexivity|].
    simpl. by rewrite Hkv, IHd.
  - by apply safe_serialize_text_attr.
Qed.

Lemma safe_serialize_fixes_serializable (v : value) :
  json_serializable v = true -> _safe_serialize v = v.
Proof.
  induction v as [| | | |l IH|d IH|attrs display IH] using value_nested_ind;
    try reflexivity; simpl; intros Hv; [| |discriminate].
  - f_equal. induction IH as [|x l Hx _ IHl]; [reflexivity|].
    simpl in Hv. apply andb_true_iff in Hv as [Hv1 Hv2].
    simpl. by rewrite Hx, IHl.
  - f_equal. induction IH as [|[k x] d Hx _ IHd]; [reflexivity|].
    simpl in Hv, Hx. apply andb_true_iff in Hv as [Hv1 Hv2].
    simpl. by rewrite Hx, IHd.
Qed.

(** The client's [_safe_serialize] always yields a JSON serializable
    value, whatever foreign objects its argument holds and however deep, and
    it leaves a JSON serializable value as it is; so serializing twice is
    serializing once. *)
Theorem safe_serialize_yields_json (v : value) :
  json_serializable (_safe_serialize v) = true
  /\ _safe_serialize (_safe_serialize v) = _safe_serialize v
  /\ (if json_serializable v then _safe_serialize v = v else True).
Proof.
  split; [apply safe_serialize_serializable|]. split.
  - apply safe_serialize_fixes_serializable, safe_serialize_serializable.
  - destruct (json_serializable v) eqn:Hv; [|exact I].
    by apply safe_serialize_fixes_serializable.
Qed.

End Serialization.

(** ** The remote calls a computation makes *)

Section Trace.
Import MCPClient.
Context (rt : PyRuntime) (env : Settings) (remote : Remote).

Lemma extends_by_refl (P : RemoteCall -> Prop) (st : State) :
  extends_by P st st.
Proof. repeat split. by exists []. Qed.

Lemma extends_by_trans (P : RemoteCall -> Prop) (st1 st2 st3 : State) :
  extends_by P st1 st2 -> extends_by P st2 st3 -> extends_by P st1 st3.
Proof.
  intros (Hs1 & Hc1 & new1 & Hn1 & HP1) (Hs2 & Hc2 & new2 & Hn2 & HP2).
  split; [congruence|]. split; [congruence|].
  exists (new2 ++ new1). split.
  - by rewrite Hn2, Hn1, app_assoc.
  - by apply Forall_app.
Qed.

Lemma extends_by_record (P : RemoteCall -> Prop) (c : RemoteCall)
    (st : State) :
  P c -> extends_by P st (record_call c st).
Proof.
  intros Hc. repeat split. exists [c]. split; [reflexivity|].
  by constructor.
Qed.

Lemma extends_by_weaken (P Q : RemoteCall -> Prop) (st st' : State) :
  (forall c, P c -> Q c) -> extends_by P st st' -> extends_by Q st st'.
Proof.
  intros HPQ (Hs & Hc & new & Hn & HP). repeat split; auto.
  exists new. split; [exact Hn|]. eapply Forall_impl; eauto.
Qed.

Lemma oc_ret {A} (P : RemoteCall -> Prop) (a : A) : only_calls P (ret a).
Proof. intros st. apply extends_by_refl. Qed.

Lemma oc_raise {A} (P : RemoteCall -> Prop) (e : exn) :
  only_calls P (raise e : SE State A).
Proof. intros st. apply extends_by_refl. Qed.

Lemma oc_bind {A B} (P : RemoteCall -> Prop) (m : SE State A)
    (k : A -> SE State B) :
  only_calls P m -> (forall a, only_calls P (k a)) -> only_calls P (bind m k).
Proof.
  intros Hm Hk st. unfold bind. specialize (Hm st).
  destruct (m st) as [[a|e] st1]; simpl in Hm; [|exact Hm].
  eapply extends_by_trans; [exact Hm|apply Hk].
Qed.

Lemma oc_try_except {A} (P : RemoteCall -> Prop) (m : SE State A)
    (h : exn -> SE State A) :
  only_calls P m -> (forall e, only_calls P (h e)) ->
  only_calls P (try_except m h).
Proof.
  intros Hm Hh st. unfold try_except. specialize (Hm st).
  destruct (m st) as [[a|e] st1]; simpl in Hm; [exact Hm|].
  eapply extends_by_trans; [exact Hm|apply Hh].
Qed.

Lemma oc_model (P : RemoteCall -> Prop) (args : CreateArgs) :
  P (ModelCall args) -> only_calls P (anthropic_messages_create remote args).
Proof. intros HP st. by apply extends_by_record. Qed.

Lemma oc_tool (P : RemoteCall -> Prop) (nm : string) (args : value) :
  P (ToolCall nm args) -> only_calls P (session_call_tool remote nm args).
Proof. intros HP st. by apply extends_by_record. Qed.

Lemma oc_gather {A} (P : RemoteCall -> Prop) (tasks : list (SE State A)) :
  Forall (only_calls P) tasks -> only_calls P (gather tasks).
Proof.
  induction 1 as [|t tasks Ht _ IH]; [apply oc_ret|].
  intros st. simpl. specialize (Ht st).
  destruct (t st) as [r st1]. simpl in Ht.
  eapply extends_by_trans; [exact Ht|].
  apply (oc_bind P (gather tasks) (fun rs => ret (r :: rs)) IH).
  intros rs. apply oc_ret.
Qed.

Lemma oc_summarize_chunk (P : RemoteCall -> Prop) (prompt chunk : string)
    (i : Z) :
  (forall args, P (ModelCall args)) ->
  only_calls P (summarize_chunk remote prompt chunk i).
Proof.
  intros HP. unfold summarize_chunk.
  apply oc_try_except; [|intros e; apply oc_ret].
  apply oc_bind; [by apply oc_model|intros r; apply oc_ret].
Qed.

(** The overflow manager calls the model only. *)
Lemma oc_summarize (P : RemoteCall -> Prop) (content : value) (max_tokens : Z)
    (tool_name : string) :
  (forall args, P (ModelCall args)) ->
  only_calls P (_summarize_large_content rt remote content max_tokens tool_name).
Proof.
  intros HP.
  assert (Hcases : content = VNone \/ content <> VNone)
    by (destruct content; auto; right; discriminate).
  destruct Hcases as [->|Hnone]; [apply oc_ret|].
  rewrite summarize_unfold by exact Hnone. cbv zeta.
  destruct (_ <=? _); [apply oc_ret|].
  destruct (_ >? _); [apply oc_raise|].
  apply oc_try_except; [|intros e; apply oc_ret].
  apply oc_bind.
  - apply oc_gather. apply Forall_forall. intros t Ht.
    apply elem_of_lookup_imap_1 in Ht as (i & chunk & -> & _).
    by apply oc_summarize_chunk.
  - intros rs. destruct (_ >? _); apply oc_ret.
Qed.

Lemma oc_execute_requested_tool (P : RemoteCall -> Prop)
    (call : string * string * value) (l : Locals) :
  (forall args, P (ModelCall args)) ->
  P (ToolCall (snd (fst call)) (snd call)) ->
  only_calls P (execute_requested_tool rt env remote call l).
Proof.
  intros HP Hcall. destruct call as [[id nm] args]. simpl in Hcall.
  unfold execute_requested_tool.
  destruct (negb _); [apply oc_raise|].
  apply oc_try_except; [|intros e; apply oc_ret].
  apply oc_bind; [by apply oc_tool|intros raw].
  apply oc_bind; [by apply oc_summarize|intros s; apply oc_ret].
Qed.

Lemma oc_execute_requested_tools (P : RemoteCall -> Prop)
    (requested : list (string * string * value)) (l : Locals) :
  (forall args, P (ModelCall args)) ->
  Forall (fun call => P (ToolCall (snd (fst call)) (snd call))) requested ->
  only_calls P (execute_requested_tools rt env remote requested l).
Proof.
  intros HP Hreq. revert l.
  induction Hreq as [|call requested Hcall _ IH]; intros l; [apply oc_ret|].
  simpl. apply oc_bind; [by apply oc_execute_requested_tool|intros r].
  apply oc_bind; [apply IH|intros rs; apply oc_ret].
Qed.

(** The requests recognized in a reply name cached tools. *)
Lemma recognized_tool_calls_cached (cache : option (list Tool))
    (blocks : list ContentBlock) :
  Forall (fun call => call_allowed cache (ToolCall (snd (fst call)) (snd call)))
    (recognized_tool_calls cache blocks).
Proof.
  unfold recognized_tool_calls. apply Forall_forall. intros call Hcall.
  apply list_elem_of_omap in Hcall as (b & _ & Hb).
  destruct b as [|id nm input|]; try discriminate.
  destruct (existsb _ _) eqn:Hex; [|discriminate].
  injection Hb as <-. simpl.
  apply existsb_exists in Hex as (t & Hin & Ht).
  apply String.eqb_eq in Ht. subst nm.
  apply list_elem_of_fmap. exists t. split; [reflexivity|].
  by apply list_elem_of_In.
Qed.

(** The turns of a session call the model and cached tools only. *)
Lemma interaction_turns_calls (system_prompt : string) (remaining : nat)
    (t : Z) (l : Locals) (st : State) :
  extends_by (call_allowed (_available_mcp_tools_cache st)) st
    (snd (interaction_turns rt env remote system_prompt remaining t l st)).
Proof.
  revert t l st. induction remaining as [|remaining IH]; intros t l st;
    [apply extends_by_refl|].
  cbn [interaction_turns]. unfold bind at 1, gets at 1.
  set (cache := _available_mcp_tools_cache st).
  set (request := turn_request system_prompt cache (set_turn t l)).
  pose proof (oc_model (call_allowed cache) request I st) as Hmodel.
  destruct (anthropic_messages_create remote request st) as [[blocks|e] st1];
    simpl in Hmodel; [|exact Hmodel].
  destruct (recognized_tool_calls cache blocks) as [|call requested] eqn:Hreq;
    [exact Hmodel|].
  set (l1 := set_requested _ _).
  pose proof (oc_execute_requested_tools (call_allowed cache)
                (call :: requested) l1 (fun _ => I)) as Htools.
  rewrite <- Hreq in Htools.
  specialize (Htools (recognized_tool_calls_cached cache blocks) st1).
  rewrite Hreq in Htools.
  unfold bind.
  destruct (execute_requested_tools rt env remote (call :: requested) l1 st1)
    as [[[l2 results]|e] st2]; simpl in Htools;
    [|exact (extends_by_trans _ _ _ _ Hmodel Htools)].
  destruct results as [|result results];
    [exact (extends_by_trans _ _ _ _ Hmodel Htools)|].
  pose proof (extends_by_trans _ _ _ _ Hmodel Htools) as H12.
  eapply extends_by_trans; [exact H12|].
  destruct H12 as (_ & Hcache & _). fold cache in Hcache.
  rewrite <- Hcache. apply IH.
Qed.

(** The tool cache step returns; it lists the tools at most once, and
    only when none is cached. *)
Lemma ensure_tools_cached_calls (st : State) :
  exists st1 new,
    ensure_tools_cached remote st = (Return tt, st1)
    /\ session st1 = session st
    /\ calls st1 = new ++ calls st
    /\ (new = [] \/ new = [ListTools])
    /\ match _available_mcp_tools_cache st with
       | Some (_ :: _) => st1 = st
       | _ =>
           new = (if session st then [ListTools] else [])
           /\ _available_mcp_tools_cache st1
              = Some (if session st
                      then match list_tools remote (calls st) with
                           | Return listed => listed
                           | Raise _ => []
                           end
                      else [])
       end.
Proof.
  assert (Hcache : exists st1 new,
    _cache_available_mcp_tools remote st = (Return tt, st1)
    /\ session st1 = session st
    /\ calls st1 = new ++ calls st
    /\ (new = [] \/ new = [ListTools])
    /\ new = (if session st then [ListTools] else [])
    /\ _available_mcp_tools_cache st1
       = Some (if session st
               then match list_tools remote (calls st) with
                    | Return listed => listed
                    | Raise _ => []
                    end
               else [])).
  { unfold _cache_available_mcp_tools, bind, gets, try_except, modify,
      session_list_tools.
    destruct (session st) eqn:Hs; simpl.
    - destruct (list_tools remote (calls st)) as [listed|e]; simpl.
      + exists (set_cache (Some listed) (record_call ListTools st)), [ListTools].
        repeat split; auto.
      + exists (set_cache (Some []) (record_call ListTools st)), [ListTools].
        repeat split; auto.
    - exists (set_cache (Some []) st), []. repeat split; auto. }
  unfold ensure_tools_cached, bind, gets.
  destruct (_available_mcp_tools_cache st) as [[|tl tls]|] eqn:Hc.
  - destruct Hcache as (st1 & new & H1 & H2 & H3 & H4 & H5 & H6).
    exists st1, new. auto 10.
  - exists st, []. repeat split; auto.
  - destruct Hcache as (st1 & new & H1 & H2 & H3 & H4 & H5 & H6).
    exists st1, new. auto 10.
Qed.

(** A session calls a tool only if the tool is in the cache the session
    works with: a tool-use block that names any other tool is never
    executed.  The tools are listed at most once, before the first turn, and
    the cache does not change after that. *)
Theorem session_calls_cached_tools_only (system_prompt : string)
    (user_messages : list Message) (id : string) (st : State) :
  exists r st' listing turns,
    execute_llm_interaction rt env remote system_prompt user_messages id st
    = (r, st')
    /\ calls st' = turns ++ listing ++ calls st
    /\ (listing = [] \/ listing = [ListTools])
    /\ Forall (call_allowed (_available_mcp_tools_cache st')) turns.
Proof.
  destruct (ensure_tools_cached_calls st)
    as (st1 & listing & Hens & Hs1 & Hcalls1 & Hlisting & _).
  unfold execute_llm_interaction. unfold bind at 1. rewrite Hens.
  unfold bind at 1, gets at 1.
  destruct (negb (session st1)).
  - exists (Raise (Exn "ConnectionError"
                     ("[" +:+ id +:+ "] MCP session not initialized. Cannot execute LLM interaction with tools."))),
      st1, listing, [].
    split; [reflexivity|]. split; [exact Hcalls1|]. split; [exact Hlisting|].
    constructor.
  - pose proof (interaction_turns_calls system_prompt
                  (Z.to_nat (MAX_LLM_INTERACTION_TURNS env)) 0
                  (initial_locals user_messages) st1)
      as (_ & Hcache & turns & Hturns & Hallowed).
    unfold bind, lift.
    destruct (interaction_turns rt env remote system_prompt _ 0 _ st1)
      as [[l|e] st2]; simpl in Hcache, Hturns;
      (do 4 eexists; split; [reflexivity|]; split;
       [rewrite Hturns, Hcalls1; reflexivity|]; split; [exact Hlisting|];
       by rewrite Hcache).
Qed.

(** Without a session, [execute_llm_interaction] raises [ConnectionError]
    before the first turn: neither the model nor a tool is called, and the
    tools are not listed. *)
Theorem session_required_for_interaction (system_prompt : string)
    (user_messages : list Message) (id : string) (st : State) :
  session st = false ->
  exists st',
    execute_llm_interaction rt env remote system_prompt user_messages id st
    = (Raise
         (Exn "ConnectionError"
            ("[" +:+ id
             +:+ "] MCP session not initialized. Cannot execute LLM interaction with tools.")),
       st')
    /\ calls st' = calls st
    /\ session st' = false.
Proof.
  intros Hsession.
  destruct (ensure_tools_cached_calls st)
    as (st1 & listing & Hens & Hs1 & Hcalls1 & _ & Hcase).
  unfold execute_llm_interaction. unfold bind at 1. rewrite Hens.
  unfold bind at 1, gets at 1. rewrite Hs1, Hsession. simpl.
  exists st1. split; [reflexivity|]. split; [|congruence].
  destruct (_available_mcp_tools_cache st) as [[|tl tls]|].
  - destruct Hcase as [-> _]. by rewrite Hcalls1, Hsession.
  - by subst st1.
  - destruct Hcase as [-> _]. by rewrite Hcalls1, Hsession.
Qed.

End Trace.

(** ** Stripped texts *)

Section Stripping.

Lemma rev_app_not_empty (s acc : string) :
  String.rev_app s acc = "" -> s = "" /\ acc = "".
Proof.
  revert acc. induction s as [|c s IH]; intros acc; simpl; [done|].
  intros H. by destruct (IH _ H).
Qed.

Lemma lstrip_rev_app (s acc : string) :
  Py.lstrip acc <> "" -> Py.lstrip (String.rev_app s acc) <> "".
Proof.
  revert acc. induction s as [|c s IH]; intros acc Hacc; simpl; [exact Hacc|].
  apply IH. simpl. by destruct (Py.isspace c).
Qed.

(** A text that starts with a character other than white space is not
    stripped to nothing. *)
Lemma strip_not_empty (c : ascii) (s : string) :
  Py.isspace c = false -> Py.strip (String c s) <> "".
Proof.
  intros Hc. unfold Py.strip, String.rev. intros H.
  apply rev_app_not_empty in H as [H _]. revert H.
  simpl Py.lstrip at 2. rewrite Hc. simpl String.rev_app.
  apply lstrip_rev_app. simpl. by rewrite Hc.
Qed.

End Stripping.

(** ** Failures inside a session *)

Section SessionFailures.
Import MCPClient.
Context (rt : PyRuntime) (env : Settings) (remote : Remote).

(** When the model API raises on the first turn, the session ends there
    and returns the error as its text, with no tool output; the exception
    does not escape.  With [MAX_LLM_INTERACTION_TURNS] set to 1, however, the
    test after the loop reads [requested_mcp_tool_calls], which the turn
    never assigned, and the session raises [UnboundLocalError]. *)
Theorem api_error_on_first_turn (system_prompt : string)
    (user_messages : list Message) (id : string) (st : State) (e : exn) :
  session st = true ->
  1 <= MAX_LLM_INTERACTION_TURNS env ->
  let st1 := snd (ensure_tools_cached remote st) in
  let request :=
    turn_request system_prompt (_available_mcp_tools_cache st1)
      (set_turn 0 (initial_locals user_messages)) in
  messages_create remote (calls st1) request = Raise e ->
  execute_llm_interaction rt env remote system_prompt user_messages id st
  = (if MAX_LLM_INTERACTION_TURNS env =? 1
     then Raise (unbound_local "requested_mcp_tool_calls")
     else Return (Py.strip ("Error calling Anthropic API: " +:+ exn_msg e), ∅),
     record_call (ModelCall request) st1).
Proof.
  intros Hsession Hmax st1 request Hraise.
  destruct (ensure_tools_cached_returns remote st) as [Hret Hsess].
  fold st1 in Hsess.
  unfold execute_llm_interaction. unfold bind at 1.
  destruct (ensure_tools_cached remote st) as [r st1'] eqn:Hens.
  simpl in Hret. subst r. simpl in st1. subst st1.
  unfold bind at 1, gets at 1. rewrite Hsess, Hsession.
  change (negb true) with false. cbv iota.
  destruct (Z.to_nat (MAX_LLM_INTERACTION_TURNS env)) as [|remaining] eqn:Hn;
    [lia|].
  unfold bind. cbn [interaction_turns]. unfold bind at 1, gets at 1.
  unfold anthropic_messages_create. fold request. rewrite Hraise.
  unfold lift. f_equal.
  unfold interaction_result, append_text, set_turn, initial_locals.
  cbn [turn requested_mcp_tool_calls aggregated_text_responses
       all_tool_outputs app].
  unfold Py.join. cbn [String.concat].
  destruct (Z.eqb_spec (MAX_LLM_INTERACTION_TURNS env) 1) as [H1|H1].
  - rewrite H1. reflexivity.
  - destruct (Z.eqb_spec 0 (MAX_LLM_INTERACTION_TURNS env - 1)); [lia|].
    destruct (String.eqb_spec
                (Py.strip ("Error calling Anthropic API: " +:+ exn_msg e)) "")
      as [Hempty|_]; [|reflexivity].
    exfalso. revert Hempty. by apply strip_not_empty.
Qed.


(** A tool result of more than 1,000,000 estimated tokens (and over the
    budget) is not passed on: the refusal of the overflow manager is caught,
    the model is sent an error-flagged result that quotes it, and the caller
    finds the same text under [error].  Only the tool was called. *)
Theorem oversized_tool_result_becomes_error (id nm : string) (args raw : value)
    (l : Locals) (st : State) :
  json_serializable args = true ->
  call_tool remote (calls st) nm args = Return raw ->
  _safe_serialize raw <> VNone ->
  let tokens :=
    _count_tokens remote (text_of_content rt (_safe_serialize raw)) in
  1000000 < tokens ->
  MAX_TOOL_RESULT_TOKENS env < tokens ->
  let detail :=
    "Error executing MCP tool " +:+ nm +:+ ": "
    +:+ exn_msg (too_large_error nm tokens) in
  execute_requested_tool rt env remote (id, nm, args) l st
  = (Return (set_tool_output (id_or_name id nm)
               (VDict [("error", VStr detail)]) l,
             {| tool_use_id := id; content := detail; is_error := true |}),
     record_call (ToolCall nm args) st).
Proof.
  intros Hargs Hcall Hnone tokens Hcap Hbudget detail.
  unfold execute_requested_tool. rewrite Hargs.
  cbn [negb]. unfold try_except, bind at 1, session_call_tool.
  rewrite Hcall. unfold bind.
  rewrite summarize_unfold by exact Hnone. cbv zeta. fold tokens.
  destruct (Z.leb_spec tokens (MAX_TOOL_RESULT_TOKENS env)); [lia|].
  destruct (Z.gtb_spec tokens 1000000); [|lia].
  reflexivity.
Qed.

Lemma gather_chunk_calls (summary_prompt : string) (chunks : list string)
    (k : nat) (st : State) :
  let st' :=
    snd (gather (imap (fun i chunk =>
                         summarize_chunk remote summary_prompt chunk
                           (Z.of_nat (k + i))) chunks) st) in
  calls st'
  = rev (imap (fun i chunk =>
                 ModelCall (chunk_request remote summary_prompt chunk
                              (Z.of_nat (k + i)))) chunks)
    ++ calls st
  /\ session st' = session st
  /\ _available_mcp_tools_cache st' = _available_mcp_tools_cache st.
Proof.
  revert k st. induction chunks as [|chunk chunks IH]; intros k st.
  - by repeat split.
  - rewrite !imap_cons. cbn [gather].
    rewrite Nat.add_0_r, summarize_chunk_run.
    set (st1 := record_call _ st).
    assert (Heq : forall {B} (f : Z -> string -> B),
      imap ((fun i c => f (Z.of_nat (k + i)) c) ∘ S) chunks
      = imap (fun i c => f (Z.of_nat (S k + i)) c) chunks).
    { intros B f. apply imap_ext. intros i c _. simpl. do 2 f_equal. lia. }
    rewrite (Heq _ (fun i c => summarize_chunk remote summary_prompt c i)).
    rewrite (Heq _ (fun i c => ModelCall (chunk_request remote summary_prompt c i))).
    specialize (IH (S k) st1). cbv zeta in IH.
    unfold bind.
    destruct (gather _ st1) as [[rs|e] st2]; simpl in IH |- *;
      destruct IH as (Hcalls & Hs & Hc);
      (split; [|split; [exact Hs|exact Hc]]);
      rewrite Hcalls; unfold st1; simpl; by rewrite <- app_assoc.
Qed.

(** Content over the budget and within the hard limit costs one model call
    per chunk, in chunk order, and nothing else: no tool is called, and the
    session and the tool cache are left as they are. *)
Theorem summarize_calls_model_once_per_chunk (content : value)
    (max_tokens : Z) (tool_name : string) (st : State) :
  content <> VNone ->
  max_tokens < _count_tokens remote (text_of_content rt content) ->
  _count_tokens remote (text_of_content rt content) <= 1000000 ->
  let chunks := split_chunks remote 100000 (text_of_content rt content) in
  let st' :=
    snd (_summarize_large_content rt remote content max_tokens tool_name st) in
  calls st'
  = rev (imap (fun i chunk =>
                 ModelCall (chunk_request remote (summary_prompt_for tool_name)
                              chunk (Z.of_nat i))) chunks)
    ++ calls st
  /\ session st' = session st
  /\ _available_mcp_tools_cache st' = _available_mcp_tools_cache st.
Proof.
  intros Hnone Hover Hcap chunks.
  rewrite summarize_unfold by assumption. cbv zeta.
  destruct (Z.leb_spec (_count_tokens remote (text_of_content rt content))
              max_tokens); [lia|].
  destruct (Z.gtb_spec (_count_tokens remote (text_of_content rt content))
              1000000); [lia|].
  fold chunks. unfold try_except, bind.
  pose proof (gather_chunk_calls (summary_prompt_for tool_name) chunks 0 st)
    as Hg.
  cbv zeta in Hg. simpl Nat.add in Hg.
  destruct (gather _ st) as [[rs|e] st1]; simpl in Hg.
  - destruct (_ >? _); exact Hg.
  - exact Hg.
Qed.

End SessionFailures.

(** ** A session that runs out of turns *)

Section Turns.
Import MCPClient.
Context (rt : PyRuntime) (env : Settings) (remote : Remote).






End Turns.

(** ** Chunks *)

Section Chunks.
Import MCPClient.
Context (remote : Remote).

Lemma substring_none (a : nat) (s : string) : String.substring a 0 s = "".
Proof.
  revert a. induction s as [|c s IH]; intros [|a]; simpl; auto.
Qed.

Lemma substring_split (a m n : nat) (s : string) :
  String.substring a (m + n) s
  = String.substring a m s +:+ String.substring (a + m) n s.
Proof.
  revert a m. induction s as [|c s IH]; intros a m.
  - destruct a, m, n; reflexivity.
  - destruct a as [|a]; simpl.
    + destruct m as [|m]; simpl; [reflexivity|].
      by rewrite (IH 0%nat m).
    + apply IH.
Qed.

Lemma substring_whole (s : string) :
  String.substring 0 (String.length s) s = s.
Proof. induction s as [|c s IH]; simpl; [reflexivity|by rewrite IH]. Qed.

Lemma length_substring_le (a m : nat) (s : string) :
  (String.length (String.substring a m s) <= m)%nat.
Proof.
  revert a m. induction s as [|c s IH]; intros a m.
  - destruct a, m; simpl; lia.
  - destruct a as [|a]; simpl; [|apply IH].
    destruct m as [|m]; simpl; [lia|]. specialize (IH 0%nat m). lia.
Qed.

Lemma substring_not_empty (a m : nat) (s : string) :
  (a < String.length s)%nat -> (0 < m)%nat -> String.substring a m s <> "".
Proof.
  revert a m. induction s as [|c s IH]; intros a m Ha Hm; simpl in Ha; [lia|].
  destruct a as [|a]; simpl.
  - destruct m; [lia|discriminate].
  - apply IH; lia.
Qed.

Lemma concat_empty_cons (x : string) (xs : list string) :
  String.concat "" (x :: xs) = x +:+ String.concat "" xs.
Proof. destruct xs; simpl; [by rewrite app_empty_r|reflexivity]. Qed.

(** A slice between two positions that are not negative. *)
Lemma slice_substring (i j : Z) (s : string) :
  0 <= i <= j ->
  let a := Nat.min (Z.to_nat i) (String.length s) in
  let b := Nat.min (Z.to_nat j) (String.length s) in
  Py.slice i j s = String.substring a (b - a) s.
Proof.
  intros Hij a b. unfold Py.slice, Py.clamp, Py.len.
  destruct (Z.ltb_spec i 0); [lia|]. destruct (Z.ltb_spec j 0); [lia|].
  f_equal; unfold a, b; lia.
Qed.

(** The slices at [count] starting points, [size] apart from [start] on,
    put together: the text from [start] to the end of the last slice. *)
Lemma slices_concat (size : nat) (text : string) (count start : nat) :
  let a := Nat.min start (String.length text) in
  let b := Nat.min (start + count * size) (String.length text) in
  String.concat ""
    (List.map (fun i => Py.slice i (i + Z.of_nat size) text)
       (Py.range_step count (Z.of_nat start) (Z.of_nat size)))
  = String.substring a (b - a) text.
Proof.
  revert start. induction count as [|count IH]; intros start a b.
  - simpl. unfold a, b. rewrite Nat.add_0_r, Nat.sub_diag.
    by rewrite substring_none.
  - cbn [Py.range_step List.map]. rewrite concat_empty_cons.
    replace (Z.of_nat start + Z.of_nat size) with (Z.of_nat (start + size))
      by lia.
    rewrite IH. rewrite slice_substring by lia. cbv zeta.
    rewrite !Nat2Z.id.
    set (c := Nat.min (start + size) (String.length text)).
    replace (Nat.min (start + size + count * size) (String.length text))
      with b by (unfold b; f_equal; lia).
    fold a.
    replace (b - a)%nat with ((c - a) + (b - c))%nat by (unfold a, b, c; lia).
    rewrite substring_split. do 2 f_equal. unfold a, c. lia.
Qed.

Lemma slices_not_empty (size : nat) (text : string) (count start : nat) :
  (0 < size)%nat ->
  (start + (count - 1) * size < String.length text)%nat ->
  Forall (fun chunk => chunk <> "")
    (List.map (fun i => Py.slice i (i + Z.of_nat size) text)
       (Py.range_step count (Z.of_nat start) (Z.of_nat size))).
Proof.
  intros Hsize. revert start.
  induction count as [|count IH]; intros start Hlast; [constructor|].
  cbn [Py.range_step List.map]. constructor.
  - rewrite slice_substring by lia. cbv zeta. rewrite Nat2Z.id.
    apply substring_not_empty; nia.
  - replace (Z.of_nat start + Z.of_nat size) with (Z.of_nat (start + size))
      by lia.
    destruct count as [|count]; [constructor|].
    apply IH. simpl in Hlast |- *. nia.
Qed.

Lemma slices_short (size : nat) (text : string) (starts : list Z) :
  Forall (fun i => 0 <= i) starts ->
  Forall (fun chunk => Py.len chunk <= Z.of_nat size)
    (List.map (fun i => Py.slice i (i + Z.of_nat size) text) starts).
Proof.
  induction 1 as [|i starts Hi _ IH]; [constructor|].
  simpl. constructor; [|exact IH].
  rewrite slice_substring by lia. cbv zeta. unfold Py.len.
  pose proof (length_substring_le
                (Nat.min (Z.to_nat i) (String.length text))
                (Nat.min (Z.to_nat (i + Z.of_nat size)) (String.length text)
                 - Nat.min (Z.to_nat i) (String.length text)) text).
  lia.
Qed.

Lemma range_step_nonneg (count : nat) (start step : Z) :
  0 <= start -> 0 <= step ->
  Forall (fun i => 0 <= i) (Py.range_step count start step).
Proof.
  revert start. induction count as [|count IH]; intros start Hs Hstep;
    [constructor|].
  simpl. constructor; [exact Hs|]. apply IH; lia.
Qed.

Lemma filter_all {A} (f : A -> bool) (l : list A) :
  Forall (fun x => f x = true) l -> List.filter f l = l.
Proof.
  induction 1 as [|x l Hx _ IH]; [reflexivity|]. simpl. by rewrite Hx, IH.
Qed.

(** The chunks of a text partition it: where every text that is not empty
    counts at least one token, no chunk is dropped, the chunks put together
    in order are the text, and no chunk is longer than the chunk size. *)
Theorem chunks_partition_text (chunk_size_chars : Z) (text : string) :
  0 < chunk_size_chars ->
  (forall s, s <> "" -> 0 < _count_tokens remote s) ->
  String.concat "" (split_chunks remote chunk_size_chars text) = text
  /\ Forall (fun chunk => chunk <> "" /\ Py.len chunk <= chunk_size_chars)
       (split_chunks remote chunk_size_chars text).
Proof.
  intros Hsize Htokens. unfold split_chunks, Py.range, Py.len.
  set (size := Z.to_nat chunk_size_chars).
  set (len := String.length text).
  replace chunk_size_chars with (Z.of_nat size) by (unfold size; lia).
  set (count := Z.to_nat ((Z.of_nat len + Z.of_nat size - 1) / Z.of_nat size)).
  assert (Hsize' : (0 < size)%nat) by (unfold size; lia).
  assert (Hcount : Z.of_nat count
                   = (Z.of_nat len + Z.of_nat size - 1) / Z.of_nat size).
  { unfold count. rewrite Z2Nat.id; [reflexivity|].
    apply Z.div_pos; lia. }
  pose proof (Z.div_mod (Z.of_nat len + Z.of_nat size - 1) (Z.of_nat size)
                ltac:(lia)) as Hdiv.
  pose proof (Z.mod_pos_bound (Z.of_nat len + Z.of_nat size - 1)
                (Z.of_nat size) ltac:(lia)) as Hmod.
  rewrite <- Hcount in Hdiv.
  assert (Hcover : (len <= count * size)%nat) by nia.
  assert (Hlast : count = 0%nat \/ ((count - 1) * size < len)%nat) by nia.
  assert (Hnonempty :
    Forall (fun chunk => chunk <> "")
      (List.map (fun i => Py.slice i (i + Z.of_nat size) text)
         (Py.range_step count 0 (Z.of_nat size)))).
  { destruct Hlast as [->|Hlast]; [constructor|].
    apply (slices_not_empty size text count 0 Hsize'). simpl. exact Hlast. }
  pose proof (slices_concat size text count 0) as Hconcat.
  cbv zeta in Hconcat. change (Z.of_nat 0) with 0 in Hconcat.
  rewrite filter_all.
  - split.
    + rewrite Hconcat. fold len.
      rewrite Nat.min_0_l, Nat.sub_0_r, Nat.add_0_l.
      rewrite Nat.min_r by exact Hcover. apply substring_whole.
    + apply Forall_and. split; [exact Hnonempty|].
      apply slices_short, range_step_nonneg; lia.
  - eapply Forall_impl; [exact Hnonempty|].
    intros chunk Hchunk. apply Z.gtb_lt. simpl. by apply Htokens.
Qed.

End Chunks.

(** * Further properties of the step engine *)

Section Runs.
Import AgentWorkflowRunner.
Context (rt : PyRuntime) (env : Settings) (remote : MCPClient.Remote)
        (agent : Agent) (prompts : PromptTemplates).

Abbreviation steps := (workflow agent).

(** The classification gives failed with a message, or completed with
    none. *)
Lemma classify_cases (i : nat) (c : bool) (cs : Z) :
  (exists msg, classify env agent i c cs = (failed, Some msg, "terminated_max_steps"))
  \/ (exists detail, classify env agent i c cs = (completed, None, detail)).
Proof.
  unfold classify. destruct (_ && _); [left; eauto|right].
  destruct (negb c); [eauto|]. destruct (_ <=? _)%nat; eauto.
Qed.

(** The record that [after_loop] builds. *)
Lemma after_loop_record (id : string) (i : nat) (c : bool)
    (fo : gmap string value) (st : State) (result : RunResult)
    (record : AgentExecution) (st' : State) :
  after_loop env agent id (i, c, fo) st = (Return (result, record), st') ->
  workflow_final_status result = state record
  /\ error result = None
  /\ result_final_outputs result = fo
  /\ final_outputs record = Some fo
  /\ ((state record = failed /\ is_Some (error_message record))
      \/ (state record = completed /\ error_message record = None))
  /\ current_step st' = current_step st
  /\ executed_steps st' = executed_steps st
  /\ mcp_client st' = mcp_client st.
Proof.
  unfold after_loop, bind, gets, modify, ret.
  destruct (classify_cases i c (current_step st)) as [[msg H]|[detail H]];
    rewrite H; intros [= <- <- <-]; simpl; repeat split; eauto.
Qed.

(** A run that returns from its [try] block went through the loop. *)
Lemma run_steps_returns (config_of : nat -> gmap string value) (id : string)
    (st : State) (result : RunResult) (record : AgentExecution) (st' : State) :
  run_steps rt env remote agent prompts config_of id st
  = (Return (result, record), st') ->
  exists i c fo st1,
    workflow_loop rt env remote agent prompts config_of (length steps) id 0
      true ∅
      {| context := context st; executed_steps := ∅; current_step := 0;
         mcp_client := mcp_client st |}
    = (Return (i, c, fo), st1)
    /\ after_loop env agent id (i, c, fo) st1 = (Return (result, record), st').
Proof.
  unfold run_steps, workflow_steps.
  destruct (workflow agent) as [|s0 rest] eqn:Hsteps; [discriminate|].
  unfold bind at 1, modify at 1. unfold bind at 1.
  destruct (workflow_loop _ _ _ _ _ _ _ _ _ _ _ _) as [[[[i c] fo]|e] st1];
    [|discriminate].
  intros Hafter. by exists i, c, fo, st1.
Qed.

(** Every run ends in one of the two terminal states, with its record
    stamped: completed with no error message, or failed with one.  The
    status returned is the state recorded. *)
Theorem run_ends_completed_or_failed
    (initial_context : option (gmap string value)) (id : string) (st : State) :
  let '(result, record, _) :=
    execute_workflow rt env remote agent prompts initial_context id st in
  completed_at record = true
  /\ workflow_final_status result = state record
  /\ ((state record = completed /\ error_message record = None
       /\ error result = None)
      \/ (state record = failed /\ is_Some (error_message record))).
Proof.
  unfold execute_workflow, execute_workflow_with.
  set (st0 := with_context _ st).
  destruct (run_steps _ _ _ _ _ _ _ st0) as [[[result record]|e] st'] eqn:Hrun.
  - apply run_steps_returns in Hrun as (i & c & fo & st1 & _ & Hafter).
    apply after_loop_record in Hafter
      as (Hstatus & Herr & _ & _ & Hstate & _).
    destruct Hstate as [[Hs Hm]|[Hs Hm]]; unfold finalize; rewrite Hs; simpl;
      (split; [reflexivity|]); (split; [congruence|]); [right|left]; auto.
  - simpl. split; [reflexivity|]. split; [reflexivity|]. right. eauto.
Qed.

(** The counters through the loop: from a state that has taken [i] steps,
    the ordinals below [i], the loop ends having taken [i'] steps, the
    ordinals below [i'], within the workflow and within the ceiling. *)
Lemma workflow_loop_counts (config_of : nat -> gmap string value)
    (fuel : nat) (id : string) (i : nat) (c : bool) (fo : gmap string value)
    (st : State) :
  current_step st = Z.of_nat i ->
  executed_steps st = set_seq 0 i ->
  (i <= length steps)%nat ->
  exists i' c' fo' st',
    workflow_loop rt env remote agent prompts config_of fuel id i c fo st
    = (Return (i', c', fo'), st')
    /\ current_step st' = Z.of_nat i'
    /\ executed_steps st' = set_seq 0 i'
    /\ (i <= i' <= length steps)%nat
    /\ (i' = i \/ Z.of_nat i' <= MAX_WORKFLOW_STEPS env).
Proof.
  revert i c fo st. induction fuel as [|fuel IH]; intros i c fo st Hcs Hex Hlen.
  - exists i, c, fo, st. repeat split; auto; lia.
  - simpl. unfold bind at 1, gets at 1.
    destruct (workflow_steps agent !! i) as [s|] eqn:Hstep;
      [|exists i, c, fo, st; repeat split; auto; lia].
    destruct c; simpl; [|exists i, false, fo, st; repeat split; auto; lia].
    destruct (Z.ltb_spec (current_step st) (MAX_WORKFLOW_STEPS env));
      [|exists i, true, fo, st; repeat split; auto; lia].
    unfold bind at 1, modify at 1. unfold bind at 1.
    destruct (execute_step_with_frame rt env remote agent prompts
                (config_of i) i s id (current_step st + 1)
                (begin_step i st) Hstep)
      as (outputs & continue & st1 & Hrun & _).
    destruct (execute_step_with_counters rt env remote agent prompts
                (config_of i) i id (current_step st + 1) (begin_step i st))
      as [Hcs1 Hex1].
    rewrite Hrun in Hcs1, Hex1 |- *. simpl in Hcs1, Hex1.
    apply lookup_lt_Some in Hstep.
    destruct (IH (S i) continue (collect_outputs rt s outputs fo) st1)
      as (i' & c' & fo' & st' & Hloop & Hcs' & Hex' & Hi' & Hmax).
    + rewrite Hcs1, Hcs. lia.
    + rewrite Hex1, Hex. apply leibniz_equiv.
      rewrite set_seq_S_end_union. reflexivity.
    + exact Hstep.
    + exists i', c', fo', st'. split; [exact Hloop|].
      repeat split; auto; lia.
Qed.

(** However a run ends, it has taken at most [MAX_WORKFLOW_STEPS] steps
    and at most as many as the workflow has, and the steps it executed are
    the first ordinals, one for each step taken. *)
Theorem run_takes_first_steps_within_ceiling
    (initial_context : option (gmap string value)) (id : string) (st : State) :
  steps <> [] ->
  exists result record st' (k : nat),
    execute_workflow rt env remote agent prompts initial_context id st
    = (result, record, st')
    /\ current_step st' = Z.of_nat k
    /\ executed_steps st' = set_seq 0 k
    /\ (k <= length steps)%nat
    /\ Z.of_nat k <= Z.max 0 (MAX_WORKFLOW_STEPS env).
Proof.
  intros Hne. unfold execute_workflow, execute_workflow_with.
  set (st0 := with_context _ st).
  rewrite run_steps_nonempty by exact Hne.
  unfold bind at 1, modify at 1.
  set (st1 := {| context := context st0; executed_steps := ∅;
                 current_step := 0; mcp_client := mcp_client st0 |}).
  destruct (workflow_loop_counts (get_step_config agent) (length steps) id 0
              true ∅ st1)
    as (k & c & fo & st2 & Hloop & Hcs & Hex & Hk & Hmax);
    [reflexivity|reflexivity|lia|].
  unfold bind. rewrite Hloop.
  destruct (after_loop_run env agent id k c fo st2)
    as (result & record & st3 & Hafter & _ & _ & _ & _ & _ & Hcs3 & Hex3 & _).
  rewrite Hafter. exists result, (finalize record), st3, k.
  split; [reflexivity|]. split; [congruence|]. split; [congruence|].
  split; [lia|]. destruct Hmax as [->|]; lia.
Qed.

(** The final outputs through the loop, when no step left is an output
    step. *)
Lemma workflow_loop_no_output_step (config_of : nat -> gmap string value)
    (fuel : nat) (id : string) (i : nat) (c : bool) (fo : gmap string value)
    (st : State) (r : nat * bool * gmap string value) (st' : State) :
  Forall (fun s => type s <> output) steps ->
  workflow_loop rt env remote agent prompts config_of fuel id i c fo st
  = (Return r, st') ->
  snd r = fo.
Proof.
  intros Hnone. revert i c fo st.
  induction fuel as [|fuel IH]; intros i c fo st; [by intros [= <- _]|].
  simpl. unfold bind at 1, gets at 1.
  destruct (workflow_steps agent !! i) as [s|] eqn:Hstep;
    [|by intros [= <- _]].
  destruct (c && _); [|by intros [= <- _]].
  unfold bind at 1, modify at 1. unfold bind at 1.
  destruct (execute_step_with _ _ _ _ _ _ _ _ _ _) as [[[outputs continue]|e] st1];
    [|discriminate].
  intros Hloop. apply IH in Hloop. rewrite Hloop.
  unfold collect_outputs.
  assert (Hs : type s <> output).
  { eapply Forall_forall in Hnone; [exact Hnone|].
    eapply list_elem_of_lookup_2. exact Hstep. }
  simpl. by destruct (type s).
Qed.

(** Only output steps contribute to the final outputs: a run of a
    workflow without an output step returns none, and records none. *)
Theorem run_without_output_step_has_no_final_outputs
    (initial_context : option (gmap string value)) (id : string) (st : State) :
  Forall (fun s => type s <> output) steps ->
  exists result record st',
    execute_workflow rt env remote agent prompts initial_context id st
    = (result, record, st')
    /\ result_final_outputs result = ∅
    /\ (final_outputs record = Some ∅ \/ final_outputs record = None).
Proof.
  intros Hnone. unfold execute_workflow, execute_workflow_with.
  set (st0 := with_context _ st).
  destruct (run_steps _ _ _ _ _ _ _ st0) as [[[result record]|e] st'] eqn:Hrun.
  - apply run_steps_returns in Hrun as (i & c & fo & st1 & Hloop & Hafter).
    apply (workflow_loop_no_output_step _ _ _ _ _ _ _ _ _ Hnone) in Hloop.
    simpl in Hloop. subst fo.
    apply after_loop_record in Hafter as (_ & _ & Hfo & Hrec & _).
    do 3 eexists. split; [reflexivity|]. split; [exact Hfo|]. left.
    unfold finalize. by destruct (state record).
  - do 3 eexists. split; [reflexivity|]. split; [reflexivity|]. by right.
Qed.



End Runs.

(** ** Single steps *)

Section Steps.
Import AgentWorkflowRunner.
Context (rt : PyRuntime) (env : Settings) (remote : MCPClient.Remote)
        (agent : Agent) (prompts : PromptTemplates).

Abbreviation steps := (workflow agent).

(** [execute_step] raises for an ordinal outside the workflow, and only
    then: [ValueError], with the runner as it was.  For an ordinal of the
    workflow it returns, whatever the step's strategy does; the variables
    that its outputs do not name keep their values, and so do the engine's
    counters. *)
Theorem execute_step_raises_only_out_of_range (i : nat) (id : string) (cs : Z)
    (st : State) :
  match steps !! i with
  | None =>
      execute_step rt env remote agent prompts i id cs st
      = (Raise (Exn "ValueError"
                  ("Step index " +:+ Py.str_of_int (Z.of_nat i)
                   +:+ " out of range at step " +:+ Py.str_of_int cs +:+ ".")),
         st)
  | Some _ =>
      exists outputs should_continue st',
        execute_step rt env remote agent prompts i id cs st
        = (Return (outputs, should_continue), st')
        /\ (forall var,
              outputs !! var = None ->
              variables (context st') !! var = variables (context st) !! var)
        /\ current_step st' = current_step st
        /\ executed_steps st' = executed_steps st
  end.
Proof.
  destruct (steps !! i) as [s|] eqn:Hstep.
  - destruct (execute_step_with_frame rt env remote agent prompts
                (get_step_config agent i) i s id cs st Hstep)
      as (outputs & continue & st' & Hrun & Hframe).
    destruct (execute_step_with_counters rt env remote agent prompts
                (get_step_config agent i) i id cs st) as [Hcs Hex].
    rewrite Hrun in Hcs, Hex. simpl in Hcs, Hex.
    exists outputs, continue, st'. by repeat split.
  - unfold execute_step, execute_step_with, workflow_steps. by rewrite Hstep.
Qed.


(** Every value of a step's configuration is JSON serializable: the dump
    of the configuration into the system prompt cannot raise. *)
Theorem step_config_json_serializable (i : nat) :
  forallb (fun kv => json_serializable (snd kv))
    (map_to_list (get_step_config agent i)) = true.
Proof.
  apply forallb_forall. intros [k v] Hin.
  apply list_elem_of_In, elem_of_map_to_list in Hin.
  exact (get_step_config_serializable agent i k v Hin).
Qed.

(** When the session with the model raises in a trigger, process or output
    step, the step does not raise: its only output is [step_<ordinal>_error],
    also written to the context, and the continue flag stays true, so the
    run goes on with the next step. *)
Theorem model_failure_recorded_and_run_continues (i : nat) (s : WorkflowStep)
    (id : string) (cs : Z) (st : State) (e : exn) (c' : MCPClient.State) :
  steps !! i = Some s ->
  type s = trigger \/ type s = process \/ type s = output ->
  let config := get_step_config agent i in
  let system_prompt :=
    system_prompt_for prompts (type_name (type s)) (step s) (description s)
      config (variables (context st)) in
  let user_message :=
    user_message_for prompts (type_name (type s))
      (filtered_context_of rt agent s i config (variables (context st)))
      (agent_user_id agent) (config !! "output_variable_name") in
  MCPClient.execute_llm_interaction rt (client_settings env) remote
    system_prompt [MCPClient.UserMessage (VStr user_message)]
    (step_key i "_exec_" +:+ id) (mcp_client st)
  = (Raise e, c') ->
  let error_msg :=
    "Error during LLM interaction for step execution: " +:+ exn_msg e in
  exists st',
    execute_step rt env remote agent prompts i id cs st
    = (Return ({[ step_key i "_error" := VStr error_msg ]}, true), st')
    /\ variables (context st') !! step_key i "_error" = Some (VStr error_msg)
    /\ mcp_client st' = c'.
Proof.
  intros Hstep Htype config system_prompt user_message Hraise error_msg.
  unfold execute_step, execute_step_with, workflow_steps. rewrite Hstep.
  unfold dispatch_step, _execute_step_with_llm, early_outputs, ask_model.
  rewrite (step_config_json_serializable i).
  unfold try_except, bind, gets, lift, modify, ret, on_client,
    Context.get_all.
  fold config. unfold system_prompt, user_message in Hraise.
  destruct Htype as [Htype|[Htype|Htype]]; rewrite Htype in Hraise |- *;
    cbn [negb]; cbv iota beta; rewrite Hraise; cbv iota beta;
    fold error_msg;
    (eexists; split; [reflexivity|]; split; [|reflexivity]);
    simpl; (rewrite lookup_union_l'; [apply lookup_singleton_eq|]);
    rewrite lookup_singleton_eq; eauto.
Qed.

Lemma find_app {A} (f : A -> bool) (l1 l2 : list A) :
  List.find f (l1 ++ l2)
  = match List.find f l1 with
    | Some x => Some x
    | None => List.find f l2
    end.
Proof.
  induction l1 as [|x l1 IH]; [reflexivity|]. simpl.
  by destruct (f x).
Qed.

(** The outputs read from a JSON object: each member under its name, the
    last one of a name. *)
Lemma foldl_insert_lookup (items : list (string * value))
    (acc : gmap string value) (key : string) :
  foldl (fun outputs kv => <[fst kv := snd kv]> outputs) acc items !! key
  = match dict_lookup key items with
    | Some v => Some v
    | None => acc !! key
    end.
Proof.
  revert acc. induction items as [|[k v] items IH]; intros acc;
    [reflexivity|].
  cbn [foldl fst snd]. rewrite IH. unfold dict_lookup.
  cbn [rev]. rewrite find_app.
  destruct (List.find _ (rev items)) as [kv|]; [reflexivity|].
  cbn [List.find fst snd fmap option_fmap option_map].
  destruct (String.eqb_spec k key) as [->|Hne].
  - by rewrite lookup_insert_eq.
  - by rewrite lookup_insert_ne.
Qed.


(** When the text between the first opening brace and the last closing
    brace of the model's reply parses as a JSON object, the outputs of the
    step are the members of the object, each under its name. *)
Theorem reply_json_members_are_outputs (config : gmap string value)
    (i : nat) (s : WorkflowStep) (id : string) (cs : Z) (st : State)
    (reply : string) (members : list (string * value))
    (tool_outputs : gmap string value) (c' : MCPClient.State) :
  steps !! i = Some s ->
  type s = trigger \/ type s = process \/ type s = output ->
  forallb (fun kv => json_serializable (snd kv)) (map_to_list config) = true ->
  let system_prompt :=
    system_prompt_for prompts (type_name (type s)) (step s) (description s)
      config (variables (context st)) in
  let user_message :=
    user_message_for prompts (type_name (type s))
      (filtered_context_of rt agent s i config (variables (context st)))
      (agent_user_id agent) (config !! "output_variable_name") in
  MCPClient.execute_llm_interaction rt (client_settings env) remote
    system_prompt [MCPClient.UserMessage (VStr user_message)]
    (step_key i "_exec_" +:+ id) (mcp_client st)
  = (Return (reply, tool_outputs), c') ->
  let json_start := Py.find "{" reply in
  let json_end := Py.rfind "}" reply + 1 in
  0 <= json_start < json_end ->
  json_loads rt (Py.slice json_start json_end reply) = Return (VDict members) ->
  exists outputs st',
    execute_step_with rt env remote agent prompts config i id cs st
    = (Return (outputs, true), st')
    /\ (forall key, outputs !! key = dict_lookup key members)
    /\ (forall key,
          variables (context st') !! key
          = match dict_lookup key members with
            | Some v => Some v
            | None => variables (context st) !! key
            end)
    /\ mcp_client st' = c'.
Proof.
  intros Hstep Htype Hser system_prompt user_message Hreply
    json_start json_end Hbraces Hloads.
  set (outputs := foldl (fun outputs kv => <[fst kv := snd kv]> outputs)
                    (∅ : gmap string value) members).
  assert (Hlookup : forall key, outputs !! key = dict_lookup key members).
  { intros key. unfold outputs. rewrite foldl_insert_lookup.
    by destruct (dict_lookup key members). }
  assert (Hout : outputs_of_reply rt i config reply = Return outputs).
  { unfold outputs_of_reply. fold json_start json_end.
    destruct (Z.geb_spec json_start 0); [|lia].
    destruct (Z.gtb_spec json_end json_start); [|lia].
    cbn [andb]. by rewrite Hloads. }
  exists outputs,
    {| context := Context.track_step_output i outputs (context st);
       executed_steps := executed_steps st;
       current_step := current_step st;
       mcp_client := c' |}.
  split; [|split; [exact Hlookup|split; [|reflexivity]]].
  - unfold execute_step_with, workflow_steps. rewrite Hstep.
    unfold dispatch_step, _execute_step_with_llm, early_outputs, ask_model.
    rewrite Hser.
    unfold try_except, bind, gets, lift, modify, ret, on_client,
      Context.get_all.
    unfold system_prompt, user_message in Hreply.
    destruct Htype as [Htype|[Htype|Htype]]; rewrite Htype in Hreply |- *;
      cbn [negb]; cbv iota beta; rewrite Hreply; cbv iota beta;
      cbn [fst]; rewrite Hout; reflexivity.
  - intros key. simpl. rewrite <- Hlookup.
    destruct (outputs !! key) as [v|] eqn:Hk.
    + by rewrite (lookup_union_Some_l _ _ _ _ Hk).
    + by rewrite lookup_union_r.
Qed.






Lemma collect_outputs_serializable (s : WorkflowStep)
    (outputs fo : gmap string value) :
  map_Forall (fun _ v => json_serializable v = true) fo ->
  map_Forall (fun _ v => json_serializable v = true)
    (collect_outputs rt s outputs fo).
Proof.
  intros Hfo. unfold collect_outputs. destruct (type s); try exact Hfo.
  intros k v Hk. apply lookup_union_Some_raw in Hk as [Hk|[_ Hk]].
  - rewrite lookup_fmap in Hk. destruct (outputs !! k) as [w|]; [|discriminate].
    simpl in Hk. injection Hk as <-.
    destruct (json_serializable w) eqn:Hw; [exact Hw|reflexivity].
  - exact (Hfo k v Hk).
Qed.

Lemma workflow_loop_outputs_serializable
    (config_of : nat -> gmap string value) (fuel : nat) (id : string)
    (i : nat) (c : bool) (fo : gmap string value) (st : State)
    (r : nat * bool * gmap string value) (st' : State) :
  map_Forall (fun _ v => json_serializable v = true) fo ->
  workflow_loop rt env remote agent prompts config_of fuel id i c fo st
  = (Return r, st') ->
  map_Forall (fun _ v => json_serializable v = true) (snd r).
Proof.
  revert i c fo st.
  induction fuel as [|fuel IH]; intros i c fo st Hfo; [by intros [= <- _]|].
  simpl. unfold bind at 1, gets at 1.
  destruct (workflow_steps agent !! i) as [s|] eqn:Hstep;
    [|by intros [= <- _]].
  destruct (c && _); [|by intros [= <- _]].
  unfold bind at 1, modify at 1. unfold bind at 1.
  destruct (execute_step_with _ _ _ _ _ _ _ _ _ _) as [[[outputs continue]|e] st1];
    [|discriminate].
  apply IH. by apply collect_outputs_serializable.
Qed.

(** The final outputs of a run are JSON serializable, whatever the output
    steps produced: a value that is not is replaced by its display form
    when it is collected. *)
Theorem run_final_outputs_json_serializable
    (initial_context : option (gmap string value)) (id : string) (st : State) :
  let '(result, _, _) :=
    execute_workflow rt env remote agent prompts initial_context id st in
  forallb (fun kv => json_serializable (snd kv))
    (map_to_list (result_final_outputs result)) = true.
Proof.
  unfold execute_workflow, execute_workflow_with.
  set (st0 := with_context _ st).
  destruct (run_steps _ _ _ _ _ _ _ st0) as [[[result record]|e] st'] eqn:Hrun.
  - apply run_steps_returns in Hrun as (i & c & fo & st1 & Hloop & Hafter).
    apply workflow_loop_outputs_serializable in Hloop;
      [|apply map_Forall_empty].
    apply after_loop_record in Hafter as (_ & _ & Hfo & _).
    rewrite Hfo. apply forallb_forall. intros [k v] Hin.
    apply list_elem_of_In, elem_of_map_to_list in Hin.
    exact (Hloop k v Hin).
  - simpl. by rewrite map_to_list_empty.
Qed.


End Steps.

(** ** The workflow context *)

(** After [track_step_output] a variable reads as the step's output of
    that name, or as before when the step has none; the step's outputs are
    indexed under its ordinal, and the other ordinals are left alone. *)
Theorem track_step_output_reads (i j : nat) (outputs : gmap string value)
    (c : WorkflowContext) (key : string) :
  Context.get key (Context.track_step_output i outputs c)
  = match outputs !! key with
    | Some v => v
    | None => Context.get key c
    end
  /\ step_outputs (Context.track_step_output i outputs c) !! j
     = if decide (j = i) then Some outputs else step_outputs c !! j.
Proof.
  unfold Context.get, Context.track_step_output, Context.update. simpl. split.
  - destruct (outputs !! key) as [v|] eqn:Hk.
    + by rewrite (lookup_union_Some_l _ _ _ _ Hk).
    + by rewrite lookup_union_r.
  - destruct (decide (j = i)) as [->|Hne].
    + apply lookup_insert_eq.
    + by apply lookup_insert_ne.
Qed.

(** * Properties of [serialize_for_database] *)

Section Database.
Import Utils.

Lemma db_value_nested_ind (P : db_value -> Prop) :
  P DNone -> (forall b, P (DBool b)) -> (forall n, P (DInt n)) ->
  (forall s, P (DStr s)) -> (forall iso, P (DDatetime iso)) ->
  (forall l, Forall P l -> P (DList l)) ->
  (forall d, Forall (fun kv => P (snd kv)) d -> P (DDict d)) ->
  forall v, P v.
Proof.
  intros HNone HBool HInt HStr HDate HList HDict. fix IH 1.
  intros [|b|n|s|iso|l|d].
  - exact HNone.
  - apply HBool.
  - apply HInt.
  - apply HStr.
  - apply HDate.
  - apply HList. revert l. fix IHl 1.
    intros [|x l]; constructor; [apply IH|apply IHl].
  - apply HDict. revert d. fix IHd 1.
    intros [|[k x] d]; constructor; [apply IH|apply IHd].
Qed.

Lemma map_entries_ext (f g : db_value -> db_value)
    (d : list (string * db_value)) :
  Forall (fun kv => f (snd kv) = g (snd kv)) d ->
  List.map (fun kv => (fst kv, f (snd kv))) d
  = List.map (fun kv => (fst kv, g (snd kv))) d.
Proof.
  induction 1 as [|kv d Hkv _ IH]; [reflexivity|]. simpl. by rewrite Hkv, IH.
Qed.

Lemma serialize_entry_idempotent (v : db_value) :
  serialize_entry (serialize_entry v) = serialize_entry v.
Proof.
  induction v as [| | | | |l IH|d IH] using db_value_nested_ind;
    try reflexivity.
  - simpl. f_equal. rewrite List.map_map.
    induction IH as [|item l Hitem _ IHl]; [reflexivity|].
    simpl. rewrite IHl. f_equal.
    destruct item as [| | | | |l'|d']; try reflexivity.
    simpl in Hitem. injection Hitem as Hitem. simpl. f_equal.
    rewrite List.map_map. rewrite List.map_map in Hitem. exact Hitem.
  - simpl. f_equal. rewrite List.map_map. simpl.
    induction IH as [|kv d Hkv _ IHd]; [reflexivity|].
    simpl. by rewrite Hkv, IHd.
Qed.

(** [serialize_for_database] keeps the keys of its argument, in order, and
    serializing its result again changes nothing. *)
Theorem serialize_for_database_idempotent (data : list (string * db_value)) :
  List.map fst (serialize_for_database data) = List.map fst data
  /\ serialize_for_database (serialize_for_database data)
     = serialize_for_database data.
Proof.
  unfold serialize_for_database. split.
  - rewrite List.map_map. reflexivity.
  - rewrite List.map_map. simpl. apply List.map_ext. intros kv.
    by rewrite serialize_entry_idempotent.
Qed.

Lemma serialize_entry_no_datetime (v : db_value) :
  lists_flat v = true -> has_datetime (serialize_entry v) = false.
Proof.
  induction v as [| | | | |l IH|d IH] using db_value_nested_ind;
    try reflexivity.
  - simpl. intros Hflat.
    induction IH as [|item l Hitem _ IHl]; [reflexivity|].
    simpl in Hflat. apply andb_true_iff in Hflat as [Hitem' Hl].
    apply andb_true_iff in Hitem' as [Hnolist Hflat].
    simpl. rewrite (IHl Hl), orb_false_r.
    destruct item as [| | | | |l'|d']; try reflexivity; [discriminate|].
    exact (Hitem Hflat).
  - simpl. intros Hflat.
    induction IH as [|kv d Hkv _ IHd]; [reflexivity|].
    simpl in Hflat. apply andb_true_iff in Hflat as [Hkv' Hd].
    simpl. by rewrite (Hkv Hkv'), (IHd Hd).
Qed.

(** Where no list holds a list, the result of [serialize_for_database] is
    free of [datetime] objects at every depth.  (The items of a list inside a
    list are not converted.) *)
Theorem serialize_for_database_removes_datetimes
    (data : list (string * db_value)) :
  forallb (fun kv => lists_flat (snd kv)) data = true ->
  existsb (fun kv => has_datetime (snd kv)) (serialize_for_database data)
  = false.
Proof.
  intros Hflat.
  exact (serialize_entry_no_datetime (DDict data) Hflat).
Qed.

End Database.

(** * Properties of the trigger endpoint *)

Section Trigger.
Import Main.
Context (rt : PyRuntime) (services : Services).

Lemma prefix_split (p s : string) :
  String.prefix p s = true ->
  s = p +:+ String.substring (String.length p) (String.length s - String.length p) s.
Proof.
  revert s. induction p as [|c p IH]; intros s Hp.
  - simpl. rewrite Nat.sub_0_r. by rewrite substring_whole.
  - destruct s as [|c' s]; [discriminate|]. simpl in Hp.
    destruct (ascii_dec c c') as [->|]; [|discriminate].
    simpl. rewrite app_cons. f_equal. by apply IH.
Qed.

Lemma prefix_length (p s : string) :
  String.prefix p s = true -> (String.length p <= String.length s)%nat.
Proof.
  revert s. induction p as [|c p IH]; intros s Hp; simpl; [lia|].
  destruct s as [|c' s]; [discriminate|]. simpl in Hp.
  destruct (ascii_dec c c'); [|discriminate].
  specialize (IH s Hp). simpl. lia.
Qed.

(** The signature check passes only without a configured secret, or with
    a signature that is the digest of the body, with or without the
    [sha256=] prefix. *)
Lemma check_signature_passes (request : Request) :
  check_signature services request = None ->
  match WEBHOOK_SECRET services with
  | None => True
  | Some secret =>
      secret = ""
      \/ exists signature,
           x_webhook_signature request = Some signature
           /\ (signature = hmac_sha256_hexdigest services secret (body request)
               \/ signature
                  = "sha256="
                    +:+ hmac_sha256_hexdigest services secret (body request))
  end.
Proof.
  unfold check_signature.
  destruct (WEBHOOK_SECRET services) as [secret|]; [|done].
  destruct (String.eqb_spec secret "") as [->|Hsecret]; [by left|].
  destruct (x_webhook_signature request) as [signature|]; [|discriminate].
  destruct (String.eqb_spec signature "") as [->|Hsig]; [discriminate|].
  unfold verify_webhook_signature, compare_digest.
  destruct (String.eqb_spec signature "") as [|_]; [done|].
  destruct (String.eqb_spec secret "") as [|_]; [done|].
  cbn [orb].
  destruct (String.prefix "sha256=" signature) eqn:Hprefix.
  - destruct (_ && _); [|discriminate].
    destruct (String.eqb_spec (Py.slice 7 (Py.len signature) signature)
                (hmac_sha256_hexdigest services secret (body request)))
      as [Heq|]; [|discriminate].
    intros _. right. exists signature. split; [reflexivity|]. right.
    rewrite <- Heq.
    pose proof (prefix_split _ _ Hprefix) as Hsplit.
    rewrite Hsplit at 1. f_equal.
    unfold Py.slice, Py.clamp, Py.len. cbn [Z.ltb Z.compare].
    pose proof (prefix_length _ _ Hprefix) as Hlen. simpl in Hlen.
    change (String.length "sha256=") with 7%nat.
    destruct (Z.ltb_spec (Z.of_nat (String.length signature)) 0); [lia|].
    f_equal; lia.
  - destruct (_ && _); [|discriminate].
    destruct (String.eqb_spec signature
                (hmac_sha256_hexdigest services secret (body request)))
      as [Heq|]; [|discriminate].
    intros _. right. exists signature. split; [reflexivity|]. by left.
Qed.

(** The endpoint triggers a workflow only for a request that passed the
    signature check (when a secret is configured, the signature header is
    the digest of the body under the secret) and whose body is a JSON
    object that names the agent triggered and, as [user_id], the user the
    agent belongs to. *)
Theorem trigger_requires_signature_and_owner (request : Request)
    (agent_data : Agent) :
  trigger_agent_workflow_endpoint rt services request = Triggered agent_data ->
  match WEBHOOK_SECRET services with
  | None => True
  | Some secret =>
      secret = ""
      \/ exists signature,
           x_webhook_signature request = Some signature
           /\ (signature = hmac_sha256_hexdigest services secret (body request)
               \/ signature
                  = "sha256="
                    +:+ hmac_sha256_hexdigest services secret (body request))
  end
  /\ exists data agent_id user,
       json_loads rt (body request) = Return (VDict data)
       /\ AgentWorkflowRunner.dict_lookup "agent_id" data = Some agent_id
       /\ get_agent services agent_id = Return agent_data
       /\ AgentWorkflowRunner.dict_lookup "user_id" data = Some (VStr user)
       /\ agent_user_id agent_data = Some user.
Proof.
  unfold trigger_agent_workflow_endpoint.
  destruct (check_signature services request) as [response|] eqn:Hcheck.
  { intros ->. revert Hcheck. unfold check_signature.
    repeat case_match; discriminate. }
  apply check_signature_passes in Hcheck. intros Hrun.
  split; [exact Hcheck|].
  destruct (json_loads rt (body request)) as [[| | | | |data|]|e];
    try discriminate.
  exists data.
  destruct (AgentWorkflowRunner.dict_lookup "agent_id" data) as [agent_id|];
    [|discriminate].
  destruct (AgentWorkflowRunner.dict_lookup "user_id" data) as [user_id|];
    simpl in Hrun.
  - destruct (negb (truthy agent_id)); [discriminate|].
    destruct (negb (truthy user_id)) eqn:Huser; [discriminate|].
    destruct (get_agent services agent_id) as [agent|e] eqn:Hagent;
      [|discriminate].
    destruct (same_user (agent_user_id agent) user_id) eqn:Hsame;
      [|discriminate].
    injection Hrun as ->.
    unfold same_user in Hsame.
    destruct (agent_user_id agent_data) as [u|] eqn:Hu.
    + destruct user_id as [| | |u'| | |]; try discriminate.
      apply String.eqb_eq in Hsame as <-. by exists agent_id, u.
    + destruct user_id; discriminate.
  - destruct (negb (truthy agent_id)); discriminate.
Qed.

End Trigger.

(** * The further properties on concrete inputs *)

(** [run_takes_first_steps_within_ceiling] on a workflow of two process
    steps. *)
Lemma run_takes_first_steps_within_ceiling_witness :
  let agent := Stub.agent (replicate 2 (Stub.a_step process)) in
  workflow agent <> []
  /\ exists result record st' (k : nat),
       AgentWorkflowRunner.execute_workflow (Stub.runtime Stub.no_json)
         AgentWorkflowRunner.default_settings (Stub.remote (Stub.says "ok") None)
         agent Stub.prompts None "run-1" (Stub.runner ∅)
       = (result, record, st')
       /\ AgentWorkflowRunner.current_step st' = Z.of_nat k
       /\ AgentWorkflowRunner.executed_steps st' = set_seq 0 k
       /\ (k <= length (workflow agent))%nat
       /\ Z.of_nat k
          <= Z.max 0 (AgentWorkflowRunner.MAX_WORKFLOW_STEPS
                        AgentWorkflowRunner.default_settings).
Proof.
  intros agent.
  assert (H1 : workflow agent <> []) by (vm_compute; discriminate).
  split; [exact H1|].
  exact (run_takes_first_steps_within_ceiling (Stub.runtime Stub.no_json)
           AgentWorkflowRunner.default_settings
           (Stub.remote (Stub.says "ok") None) agent Stub.prompts None "run-1"
           (Stub.runner ∅) H1).
Defined.


(** [run_without_output_step_has_no_final_outputs] on a workflow of a
    process step and a tool step. *)
Lemma run_without_output_step_has_no_final_outputs_witness :
  let agent := Stub.agent [Stub.a_step process; Stub.a_step tool] in
  Forall (fun s => type s <> output) (workflow agent)
  /\ exists result record st',
       AgentWorkflowRunner.execute_workflow (Stub.runtime Stub.no_json)
         AgentWorkflowRunner.default_settings
         (Stub.remote (Stub.says "ok") None) agent Stub.prompts None "run-1"
         (Stub.runner ∅)
       = (result, record, st')
       /\ AgentWorkflowRunner.result_final_outputs result = ∅
       /\ (final_outputs record = Some ∅ \/ final_outputs record = None).
Proof.
  intros agent.
  assert (H1 : Forall (fun s => type s <> output) (workflow agent))
    by (repeat constructor; discriminate).
  split; [exact H1|].
  exact (run_without_output_step_has_no_final_outputs
           (Stub.runtime Stub.no_json) AgentWorkflowRunner.default_settings
           (Stub.remote (Stub.says "ok") None) agent Stub.prompts None "run-1"
           (Stub.runner ∅) H1).
Defined.

(** [model_failure_recorded_and_run_continues] on a process step run on a
    client that never connected: the session raises [ConnectionError]. *)
Lemma model_failure_recorded_and_run_continues_witness :
  let agent := Stub.agent [Stub.a_step process] in
  let e :=
    Exn "ConnectionError"
      "[step_0_exec_run-1] MCP session not initialized. Cannot execute LLM interaction with tools." in
  workflow agent !! 0%nat = Some (Stub.a_step process)
  /\ exists st',
       AgentWorkflowRunner.execute_step (Stub.runtime Stub.no_json)
         AgentWorkflowRunner.default_settings (Stub.remote (Stub.says "ok") None)
         agent Stub.prompts 0 "run-1" 1 Fixture.offline_runner
       = (Return
            ({[ "step_0_error" :=
                  VStr ("Error during LLM interaction for step execution: "
                        +:+ exn_msg e) ]},
             true),
          st')
       /\ variables (AgentWorkflowRunner.context st') !! "step_0_error"
          = Some (VStr ("Error during LLM interaction for step execution: "
                        +:+ exn_msg e)).
Proof.
  intros agent e.
  assert (H1 : workflow agent !! 0%nat = Some (Stub.a_step process))
    by reflexivity.
  assert (H2 : type (Stub.a_step process) = trigger
               \/ type (Stub.a_step process) = process
               \/ type (Stub.a_step process) = output)
    by (right; left; reflexivity).
  split; [exact H1|].
  destruct (model_failure_recorded_and_run_continues
              (Stub.runtime Stub.no_json) AgentWorkflowRunner.default_settings
              (Stub.remote (Stub.says "ok") None) agent Stub.prompts 0
              (Stub.a_step process) "run-1" 1 Fixture.offline_runner e
              (MCPClient.set_cache (Some []) Fixture.offline_client)
              H1 H2 eq_refl)
    as (st' & Hrun & Hvar & _).
  exists st'. split; [exact Hrun|exact Hvar].
Defined.


(** [reply_json_members_are_outputs] on a reply that is a JSON object with
    one member. *)
Lemma reply_json_members_are_outputs_witness :
  let agent := Stub.agent [Stub.a_step process] in
  let reply := Stub.json_object "answer" "42" in
  0 <= Py.find "{" reply < Py.rfind "}" reply + 1
  /\ exists outputs st',
       AgentWorkflowRunner.execute_step_with (Stub.parses_object "answer" "42")
         AgentWorkflowRunner.default_settings (Stub.remote (Stub.says reply) None)
         agent Stub.prompts ∅ 0 "run-1" 1 (Stub.runner ∅)
       = (Return (outputs, true), st')
       /\ outputs !! "answer" = Some (VStr "42")
       /\ variables (AgentWorkflowRunner.context st') !! "answer"
          = Some (VStr "42").
Proof.
  intros agent reply.
  assert (H1 : workflow agent !! 0%nat = Some (Stub.a_step process))
    by reflexivity.
  assert (H2 : type (Stub.a_step process) = trigger
               \/ type (Stub.a_step process) = process
               \/ type (Stub.a_step process) = output)
    by (right; left; reflexivity).
  assert (H3 : forallb (fun kv => json_serializable (snd kv))
                 (map_to_list (∅ : gmap string value)) = true)
    by (vm_compute; reflexivity).
  assert (H4 : 0 <= Py.find "{" reply < Py.rfind "}" reply + 1)
    by (vm_compute; split; [discriminate|reflexivity]).
  split; [exact H4|].
  destruct (reply_json_members_are_outputs (Stub.parses_object "answer" "42")
              AgentWorkflowRunner.default_settings
              (Stub.remote (Stub.says reply) None) agent Stub.prompts ∅ 0
              (Stub.a_step process) "run-1" 1 (Stub.runner ∅) reply
              [("answer", VStr "42")] ∅ _ H1 H2 H3 eq_refl H4 eq_refl)
    as (outputs & st' & Hrun & Hout & Hvars & _).
  exists outputs, st'. split; [exact Hrun|]. split.
  - exact (Hout "answer").
  - exact (Hvars "answer").
Defined.





(** [chunks_partition_text] on chunks of four characters, with a tokenizer
    that counts one token for every text. *)
Lemma chunks_partition_text_witness :
  let remote := Stub.remote Stub.api_down (Some 1) in
  0 < 4
  /\ String.concat "" (MCPClient.split_chunks remote 4 "hello world")
     = "hello world"
  /\ MCPClient.split_chunks remote 4 "hello world" = ["hell"; "o wo"; "rld"].
Proof.
  intros remote.
  assert (H1 : 0 < 4) by reflexivity.
  assert (H2 : forall s, s <> "" -> 0 < MCPClient._count_tokens remote s)
    by (intros s _; reflexivity).
  split; [exact H1|]. split; [|reflexivity].
  exact (proj1 (chunks_partition_text remote 4 "hello world" H1 H2)).
Defined.

(** [summarize_calls_model_once_per_chunk] on a text of 30 estimated
    tokens and a budget of 25: one chunk, one model call. *)
Lemma summarize_calls_model_once_per_chunk_witness :
  let remote := Stub.remote Stub.api_down None in
  VStr Stub.report <> VNone
  /\ 25 < MCPClient._count_tokens remote Stub.report
  /\ MCPClient._count_tokens remote Stub.report <= 1000000
  /\ MCPClient.calls
       (snd (MCPClient._summarize_large_content (Stub.runtime Stub.no_json)
               remote (VStr Stub.report) 25 "exa_search" Stub.client))
     = [MCPClient.ModelCall
          (MCPClient.chunk_request remote
             (MCPClient.summary_prompt_for "exa_search") Stub.report 0)].
Proof.
  intros remote.
  assert (H1 : VStr Stub.report <> VNone) by discriminate.
  assert (H2 : 25 < MCPClient._count_tokens remote
                      (MCPClient.text_of_content (Stub.runtime Stub.no_json)
                         (VStr Stub.report)))
    by (vm_compute; reflexivity).
  assert (H3 : MCPClient._count_tokens remote
                 (MCPClient.text_of_content (Stub.runtime Stub.no_json)
                    (VStr Stub.report)) <= 1000000)
    by (vm_compute; discriminate).
  split; [exact H1|]. split; [exact H2|]. split; [exact H3|].
  exact (proj1 (summarize_calls_model_once_per_chunk
                  (Stub.runtime Stub.no_json) remote (VStr Stub.report) 25
                  "exa_search" Stub.client H1 H2 H3)).
Defined.

(** [session_required_for_interaction] on a client that never connected. *)
Lemma session_required_for_interaction_witness :
  MCPClient.session Fixture.offline_client = false
  /\ exists st',
       MCPClient.execute_llm_interaction (Stub.runtime Stub.no_json)
         MCPClient.default_settings (Stub.remote (Stub.says "ok") None)
         "system" [MCPClient.UserMessage (VStr "go")] "step_0"
         Fixture.offline_client
       = (Raise
            (Exn "ConnectionError"
               "[step_0] MCP session not initialized. Cannot execute LLM interaction with tools."),
          st')
       /\ MCPClient.calls st' = [].
Proof.
  assert (H1 : MCPClient.session Fixture.offline_client = false)
    by reflexivity.
  split; [exact H1|].
  destruct (session_required_for_interaction (Stub.runtime Stub.no_json)
              MCPClient.default_settings (Stub.remote (Stub.says "ok") None)
              "system" [MCPClient.UserMessage (VStr "go")] "step_0"
              Fixture.offline_client H1)
    as (st' & Hrun & Hcalls & _).
  exists st'. split; [exact Hrun|exact Hcalls].
Defined.

(** [api_error_on_first_turn] on a model API that is down, with the
    default of five turns. *)
Lemma api_error_on_first_turn_witness :
  MCPClient.session Stub.client = true
  /\ 1 <= MCPClient.MAX_LLM_INTERACTION_TURNS MCPClient.default_settings
  /\ fst (MCPClient.execute_llm_interaction (Stub.runtime Stub.no_json)
            MCPClient.default_settings (Stub.remote Stub.api_down None)
            "system" [MCPClient.UserMessage (VStr "go")] "step_0" Stub.client)
     = Return (Py.strip ("Error calling Anthropic API: " +:+ "overloaded"), ∅).
Proof.
  assert (H1 : MCPClient.session Stub.client = true) by reflexivity.
  assert (H2 : 1 <= MCPClient.MAX_LLM_INTERACTION_TURNS
                      MCPClient.default_settings) by (simpl; lia).
  split; [exact H1|]. split; [exact H2|].
  exact (f_equal fst
           (api_error_on_first_turn (Stub.runtime Stub.no_json)
              MCPClient.default_settings (Stub.remote Stub.api_down None)
              "system" [MCPClient.UserMessage (VStr "go")] "step_0" Stub.client
              (Exn "APIError" "overloaded") H1 H2 eq_refl)).
Defined.



(** [oversized_tool_result_becomes_error] on a tokenizer that counts
    1,000,001 tokens for the tool's result. *)
Lemma oversized_tool_result_becomes_error_witness :
  let remote := Stub.remote (Stub.says "ok") (Some 1000001) in
  1000000 < MCPClient._count_tokens remote "result"
  /\ MCPClient.execute_requested_tool (Stub.runtime Stub.no_json)
       MCPClient.default_settings remote ("toolu_1", "exa_search", VDict [])
       (MCPClient.initial_locals []) Stub.client
     = (Return
          (MCPClient.set_tool_output "toolu_1"
             (VDict [("error",
                      VStr "Error executing MCP tool exa_search: Content from exa_search exceeds maximum limit of 1,000,000 tokens (1000001 tokens). Cannot process.")])
             (MCPClient.initial_locals []),
           {| MCPClient.tool_use_id := "toolu_1";
              MCPClient.content :=
                "Error executing MCP tool exa_search: Content from exa_search exceeds maximum limit of 1,000,000 tokens (1000001 tokens). Cannot process.";
              MCPClient.is_error := true |}),
        MCPClient.record_call (MCPClient.ToolCall "exa_search" (VDict []))
          Stub.client).
Proof.
  intros remote.
  assert (H1 : json_serializable (VDict []) = true) by reflexivity.
  assert (H2 : MCPClient.call_tool remote (MCPClient.calls Stub.client)
                 "exa_search" (VDict []) = Return (VStr "result"))
    by reflexivity.
  assert (H3 : MCPClient._safe_serialize (VStr "result") <> VNone)
    by discriminate.
  assert (H4 : 1000000
               < MCPClient._count_tokens remote
                   (MCPClient.text_of_content (Stub.runtime Stub.no_json)
                      (MCPClient._safe_serialize (VStr "result"))))
    by (vm_compute; reflexivity).
  assert (H5 : MCPClient.MAX_TOOL_RESULT_TOKENS MCPClient.default_settings
               < MCPClient._count_tokens remote
                   (MCPClient.text_of_content (Stub.runtime Stub.no_json)
                      (MCPClient._safe_serialize (VStr "result"))))
    by (vm_compute; reflexivity).
  split; [exact H4|].
  exact (oversized_tool_result_becomes_error (Stub.runtime Stub.no_json)
           MCPClient.default_settings remote "toolu_1" "exa_search" (VDict [])
           (VStr "result") (MCPClient.initial_locals []) Stub.client
           H1 H2 H3 H4 H5).
Defined.

(** [serialize_for_database_removes_datetimes] on a record with a
    timestamp, and a list that holds a timestamp and a dict with one. *)
Lemma serialize_for_database_removes_datetimes_witness :
  let data :=
    [("created_at", Utils.DDatetime "2025-01-01T00:00:00+00:00");
     ("events",
      Utils.DList [Utils.DDatetime "2025-01-02T00:00:00+00:00";
                   Utils.DDict [("at", Utils.DDatetime "2025-01-03T00:00:00+00:00")]])] in
  forallb (fun kv => lists_flat (snd kv)) data = true
  /\ existsb (fun kv => has_datetime (snd kv)) data = true
  /\ existsb (fun kv => has_datetime (snd kv))
       (Utils.serialize_for_database data) = false.
Proof.
  intros data.
  assert (H1 : forallb (fun kv => lists_flat (snd kv)) data = true)
    by reflexivity.
  split; [exact H1|]. split; [reflexivity|].
  exact (serialize_for_database_removes_datetimes data H1).
Defined.

(** [trigger_requires_signature_and_owner] on a signed request of the
    agent's owner. *)
Lemma trigger_requires_signature_and_owner_witness :
  let rt := Stub.runtime (Return Fixture.trigger_data) in
  let services := Fixture.services (Some "secret") in
  let request :=
    {| Main.body := "{}";
       Main.x_webhook_signature := Some "sha256=secret{}" |} in
  Main.trigger_agent_workflow_endpoint rt services request
  = Main.Triggered (Stub.agent [Stub.a_step process])
  /\ exists data agent_id user,
       json_loads rt (Main.body request) = Return (VDict data)
       /\ AgentWorkflowRunner.dict_lookup "agent_id" data = Some agent_id
       /\ Main.get_agent services agent_id
          = Return (Stub.agent [Stub.a_step process])
       /\ AgentWorkflowRunner.dict_lookup "user_id" data = Some (VStr user)
       /\ agent_user_id (Stub.agent [Stub.a_step process]) = Some user.
Proof.
  intros rt services request.
  assert (H1 : Main.trigger_agent_workflow_endpoint rt services request
               = Main.Triggered (Stub.agent [Stub.a_step process]))
    by (vm_compute; reflexivity).
  split; [exact H1|].
  exact (proj2 (trigger_requires_signature_and_owner rt services request
                  (Stub.agent [Stub.a_step process]) H1)).
Defined.

(** ** What stops a run *)

Section Stops.
Import AgentWorkflowRunner.
Context (rt : PyRuntime) (env : Settings) (remote : MCPClient.Remote)
        (agent : Agent) (prompts : PromptTemplates).

Abbreviation steps := (workflow agent).

(** A step clears the continue flag in two cases only: its strategy
    raised, and its outputs then hold [step_<ordinal>_exception_type]; or
    it is a decision step whose outputs bind
    [step_<ordinal>_condition_result] to a value that Python takes for
    false. *)
Theorem step_stops_on_exception_or_false_decision (i : nat) (id : string)
    (cs : Z) (st st' : State) (outputs : gmap string value) :
  execute_step rt env remote agent prompts i id cs st
  = (Return (outputs, false), st') ->
  is_Some (outputs !! step_key i "_exception_type")
  \/ exists s v,
       steps !! i = Some s
       /\ type s = decision
       /\ outputs !! step_key i "_condition_result" = Some v
       /\ truthy v = false.
Proof.
  unfold execute_step, execute_step_with, workflow_steps.
  destruct (steps !! i) as [s|] eqn:Hstep; [|discriminate].
  unfold try_except, bind at 1.
  destruct (dispatch_step _ _ _ _ _ _ _ _ _ _) as [[step_outputs|e] st1].
  - unfold bind, modify, ret. intros [= <- Hcontinue _]. right.
    destruct (type s) eqn:Htype; try discriminate.
    destruct (step_outputs !! step_key i "_condition_result") as [v|] eqn:Hv;
      [|discriminate].
    by exists s, v.
  - unfold bind, modify, ret. intros [= <- _]. left.
    rewrite lookup_insert_eq. eauto.
Qed.

(** A run of a workflow that has steps ends failed in one case only: the
    loop stopped at the ceiling of [MAX_WORKFLOW_STEPS] with steps left.
    In every other case, a step that raised included, it ends completed. *)
Theorem run_fails_exactly_at_ceiling
    (initial_context : option (gmap string value)) (id : string) (st : State) :
  steps <> [] ->
  exists result record st' (k : nat),
    execute_workflow rt env remote agent prompts initial_context id st
    = (result, record, st')
    /\ current_step st' = Z.of_nat k
    /\ (k <= length steps)%nat
    /\ state record
       = (if (Z.of_nat k >=? MAX_WORKFLOW_STEPS env)
             && (k <? length steps)%nat
          then failed else completed).
Proof.
  intros Hne. unfold execute_workflow, execute_workflow_with.
  set (st0 := with_context _ st).
  rewrite run_steps_nonempty by exact Hne.
  unfold bind at 1, modify at 1.
  set (st1 := {| context := context st0; executed_steps := ∅;
                 current_step := 0; mcp_client := mcp_client st0 |}).
  destruct (workflow_loop_counts rt env remote agent prompts
              (get_step_config agent) (length steps) id 0 true ∅ st1)
    as (k & c & fo & st2 & Hloop & Hcs & Hex & Hk & Hmax);
    [reflexivity|reflexivity|lia|].
  unfold bind. rewrite Hloop.
  destruct (after_loop_run env agent id k c fo st2)
    as (result & record & st3 & Hafter & Hstatus & Hstate & _ & _ & _ & Hcs3
        & _).
  rewrite Hafter. exists result, (finalize record), st3, k.
  split; [reflexivity|]. split; [congruence|]. split; [lia|].
  assert (Hclass :
    fst (fst (classify env agent k c (current_step st2)))
    = (if (Z.of_nat k >=? MAX_WORKFLOW_STEPS env) && (k <? length steps)%nat
       then failed else completed)).
  { unfold classify, workflow_steps. rewrite Hcs.
    destruct (_ && _); [reflexivity|].
    destruct (negb c); [reflexivity|]. by destruct (_ <=? _)%nat. }
  assert (Hfin : state record = completed \/ state record = failed).
  { rewrite Hstate, Hstatus, Hclass. destruct (_ && _); auto. }
  destruct (finalize_completed_or_failed record Hfin) as [-> _].
  by rewrite Hstate, Hstatus, Hclass.
Qed.

End Stops.

(** [step_stops_on_exception_or_false_decision] on a decision step that
    finds its variable empty. *)
Lemma step_stops_on_exception_or_false_decision_witness :
  let agent := Stub.agent [Stub.a_step decision] in
  let st := Stub.runner {[ "step_result" := VStr "" ]} in
  let outputs : gmap string value :=
    <[ "step_0_explanation" :=
         VStr "The condition 'not_empty:step_result' is FALSE because 'step_result' is empty" ]>
      (<[ "step_0_condition_result" := VBool false ]> ∅) in
  AgentWorkflowRunner.execute_step (Stub.runtime Stub.no_json)
    AgentWorkflowRunner.default_settings (Stub.remote Stub.api_down None)
    agent Stub.prompts 0 "run-1" 1 st
  = (Return (outputs, false),
     AgentWorkflowRunner.with_context
       (Context.track_step_output 0 outputs) st)
  /\ (is_Some (outputs !! "step_0_exception_type")
      \/ exists s v,
           workflow agent !! 0%nat = Some s
           /\ type s = decision
           /\ outputs !! "step_0_condition_result" = Some v
           /\ truthy v = false).
Proof.
  intros agent st outputs.
  assert (H1 : AgentWorkflowRunner.execute_step (Stub.runtime Stub.no_json)
                 AgentWorkflowRunner.default_settings
                 (Stub.remote Stub.api_down None) agent Stub.prompts 0 "run-1"
                 1 st
               = (Return (outputs, false),
                  AgentWorkflowRunner.with_context
                    (Context.track_step_output 0 outputs) st))
    by (vm_compute; reflexivity).
  split; [exact H1|].
  exact (step_stops_on_exception_or_false_decision (Stub.runtime Stub.no_json)
           AgentWorkflowRunner.default_settings
           (Stub.remote Stub.api_down None) agent Stub.prompts 0 "run-1" 1 st
           _ outputs H1).
Defined.

(** [run_fails_exactly_at_ceiling] on a workflow of two process steps. *)
Lemma run_fails_exactly_at_ceiling_witness :
  let agent := Stub.agent (replicate 2 (Stub.a_step process)) in
  workflow agent <> []
  /\ exists result record st' (k : nat),
       AgentWorkflowRunner.execute_workflow (Stub.runtime Stub.no_json)
         AgentWorkflowRunner.default_settings (Stub.remote (Stub.says "ok") None)
         agent Stub.prompts None "run-1" (Stub.runner ∅)
       = (result, record, st')
       /\ AgentWorkflowRunner.current_step st' = Z.of_nat k
       /\ (k <= length (workflow agent))%nat
       /\ state record
          = (if (Z.of_nat k
                 >=? AgentWorkflowRunner.MAX_WORKFLOW_STEPS
                       AgentWorkflowRunner.default_settings)
                && (k <? length (workflow agent))%nat
             then failed else completed).
Proof.
  intros agent.
  assert (H1 : workflow agent <> []) by (vm_compute; discriminate).
  split; [exact H1|].
  exact (run_fails_exactly_at_ceiling (Stub.runtime Stub.no_json)
           AgentWorkflowRunner.default_settings
           (Stub.remote (Stub.says "ok") None) agent Stub.prompts None "run-1"
           (Stub.runner ∅) H1).
Defined.
